(** * Strapi v4/v5 compatibility layer: identifier registry, format
      detection, structural validation and the bidirectional transformer.

    The development embeds [data-mapper.ts], [data-validator.ts] and
    [data-transformer.ts].

    - Payloads that are only inspected (validator, detector, pagination
      normaliser) are JSON trees, type [jv].
    - The transformer allocates objects, compares them by identity
      (its [WeakSet]) and writes through shared references, so it runs
      over a heap of objects addressed by location, type [val].
    - A JavaScript [Map] and the properties of an object keep insertion
      order, which the code observes ([for ... of], [Object.keys]); both
      are association lists with unique keys.
    - Numbers are the integers and [NaN]; identifiers, depths and
      pagination fields are integers in every well-formed payload.
    - Strings are byte strings. *)

From Stdlib Require Import ZArith List String Ascii Bool Arith Lia.
From Stdlib Require Import DecimalString.
Import ListNotations.
Local Open Scope string_scope.
Local Open Scope list_scope.

(* ================================================================== *)
(** * Part I. Definitions                                             *)
(* ================================================================== *)

(** ** Numbers and strings *)

Inductive num : Type :=
| NaN : num
| Int : Z -> num.

Definition num_eqb (a b : num) : bool :=
  match a, b with
  | Int x, Int y => Z.eqb x y
  | _, _ => false            (* NaN === NaN is false *)
  end.

(** [Math.max] and [Math.min] on two arguments: [NaN] is contagious. *)
Definition Math_max (a b : num) : num :=
  match a, b with
  | Int x, Int y => Int (Z.max x y)
  | _, _ => NaN
  end.

Definition Math_min (a b : num) : num :=
  match a, b with
  | Int x, Int y => Int (Z.min x y)
  | _, _ => NaN
  end.

Definition string_of_Z (z : Z) : string := NilZero.string_of_int (Z.to_int z).
Definition string_of_nat (n : nat) : string := string_of_Z (Z.of_nat n).

Definition string_of_num (n : num) : string :=
  match n with
  | NaN => "NaN"
  | Int z => string_of_Z z
  end.

Definition is_digit (c : ascii) : bool :=
  let n := nat_of_ascii c in (48 <=? n)%nat && (n <=? 57)%nat.

Definition digit_val (c : ascii) : Z := Z.of_nat (nat_of_ascii c) - 48.

(** The white space [parseInt] skips (the ASCII part of it). *)
Definition is_space (c : ascii) : bool :=
  let n := nat_of_ascii c in
  (n =? 32)%nat || ((9 <=? n)%nat && (n <=? 13)%nat).

Fixpoint skip_spaces (s : string) : string :=
  match s with
  | String c r => if is_space c then skip_spaces r else s
  | EmptyString => s
  end.

(** Value of the longest prefix of decimal digits, [None] when the first
    character is not a digit. [acc] carries the digits read so far. *)
Fixpoint read_digits (acc : option Z) (s : string) : option Z :=
  match s with
  | String c r =>
      if is_digit c
      then read_digits (Some (10 * match acc with Some a => a | None => 0 end
                              + digit_val c)%Z) r
      else acc
  | EmptyString => acc
  end.

(** [parseInt(s, 10)] on a string. *)
Definition parseInt (s : string) : num :=
  match skip_spaces s with
  | String "-" r =>
      match read_digits None r with Some v => Int (- v) | None => NaN end
  | String "+" r =>
      match read_digits None r with Some v => Int v | None => NaN end
  | r => match read_digits None r with Some v => Int v | None => NaN end
  end.

(** [s.match(/(\d+)/)] followed by [parseInt(m[1], 10)]: the value of the
    first maximal run of digits of [s], if there is one. *)
Fixpoint first_number (s : string) : option Z :=
  match s with
  | String c r => if is_digit c then read_digits None s else first_number r
  | EmptyString => None
  end.

Fixpoint has_prefix (p s : string) : bool :=
  match p, s with
  | EmptyString, _ => true
  | String a p', String b s' => Ascii.eqb a b && has_prefix p' s'
  | String _ _, EmptyString => false
  end.

Fixpoint drop (n : nat) (s : string) : string :=
  match n, s with
  | S n', String _ r => drop n' r
  | _, _ => s
  end.

(** [s.replace(p, '')] with a string pattern: the first occurrence only. *)
Fixpoint remove_first (p s : string) : string :=
  if has_prefix p s then drop (String.length p) s
  else match s with
       | String c r => String c (remove_first p r)
       | EmptyString => EmptyString
       end.

Fixpoint has_dot (s : string) : bool :=
  match s with
  | String c r => Ascii.eqb c "." || has_dot r
  | EmptyString => false
  end.

(** [s.replace(/\.[^.]+$/, '')]: cut a last dot that is followed by at
    least one character, together with what follows it. *)
Fixpoint strip_suffix (s : string) : string :=
  match s with
  | String c r =>
      if Ascii.eqb c "." && negb (has_dot r) && negb (String.eqb r "")
      then EmptyString
      else String c (strip_suffix r)
  | EmptyString => EmptyString
  end.

(** ** Insertion-ordered maps with string keys *)

Section OrderedMap.
Context {V : Type}.

Fixpoint omap_get (k : string) (m : list (string * V)) : option V :=
  match m with
  | [] => None
  | (k', v) :: r => if String.eqb k k' then Some v else omap_get k r
  end.

(** [set]: an existing key keeps its position, a new key goes last. *)
Fixpoint omap_set (k : string) (v : V) (m : list (string * V))
  : list (string * V) :=
  match m with
  | [] => [(k, v)]
  | (k', v') :: r =>
      if String.eqb k k' then (k, v) :: r else (k', v') :: omap_set k v r
  end.

Fixpoint omap_delete (k : string) (m : list (string * V))
  : list (string * V) :=
  match m with
  | [] => []
  | (k', v') :: r =>
      if String.eqb k k' then r else (k', v') :: omap_delete k r
  end.

Definition omap_has (k : string) (m : list (string * V)) : bool :=
  match omap_get k m with Some _ => true | None => false end.

(** Spread [{...a, ...b}]: the entries of [b] are set one by one. *)
Definition omap_assign (a b : list (string * V)) : list (string * V) :=
  fold_left (fun acc kv => omap_set (fst kv) (snd kv) acc) b a.
End OrderedMap.

Inductive StrapiFormat : Type := V4 | V5.

Definition format_eqb (a b : StrapiFormat) : bool :=
  match a, b with
  | V4, V4 | V5, V5 => true
  | _, _ => false
  end.

Definition format_name (f : StrapiFormat) : string :=
  match f with V4 => "v4" | V5 => "v5" end.

(* ------------------------------------------------------------------ *)
(** ** JSON trees                                                     *)
(* ------------------------------------------------------------------ *)

#[local] Set Warnings "-register-all".

Inductive jv : Type :=
| JUndef : jv
| JNull : jv
| JBool : bool -> jv
| JNum : num -> jv
| JStr : string -> jv
| JArr : list jv -> jv
| JObj : list (string * jv) -> jv.

Definition jtruthy (v : jv) : bool :=
  match v with
  | JUndef | JNull => false
  | JBool b => b
  | JNum NaN => false
  | JNum (Int z) => negb (Z.eqb z 0)
  | JStr s => negb (String.eqb s "")
  | JArr _ | JObj _ => true
  end.

(** [typeof v === 'object'] *)
Definition jis_object (v : jv) : bool :=
  match v with
  | JNull | JArr _ | JObj _ => true
  | _ => false
  end.

Definition jtypeof (v : jv) : string :=
  match v with
  | JUndef => "undefined"
  | JNull | JArr _ | JObj _ => "object"
  | JBool _ => "boolean"
  | JNum _ => "number"
  | JStr _ => "string"
  end.

Definition jis_array (v : jv) : bool :=
  match v with JArr _ => true | _ => false end.

Definition jdefined (v : jv) : bool :=
  match v with JUndef => false | _ => true end.

(** [v.k] for a property name [k] that is not an array index. *)
Definition jget (v : jv) (k : string) : jv :=
  match v with
  | JObj ps => match omap_get k ps with Some x => x | None => JUndef end
  | _ => JUndef
  end.

Fixpoint index_from {A} (i : nat) (l : list A) : list (string * A) :=
  match l with
  | [] => []
  | x :: r => (string_of_nat i, x) :: index_from (S i) r
  end.

(** [Object.entries(v)] for a value with [typeof v === 'object']. *)
Definition jentries (v : jv) : list (string * jv) :=
  match v with
  | JObj ps => ps
  | JArr l => index_from 0 l
  | _ => []
  end.

Definition join_comma (l : list string) : string :=
  match l with
  | [] => ""
  | x :: r => fold_left (fun acc y => (acc ++ "," ++ y)%string) r x
  end.

(** [String(v)], as [parseInt] applies it to its argument. *)
Fixpoint jto_string (v : jv) : string :=
  match v with
  | JUndef => "undefined"
  | JNull => "null"
  | JBool true => "true"
  | JBool false => "false"
  | JNum n => string_of_num n
  | JStr s => s
  | JArr l =>
      join_comma (map (fun x => match x with
                                | JUndef | JNull => ""
                                | _ => jto_string x
                                end) l)
  | JObj _ => "[object Object]"
  end.

(** [a || b] *)
Definition jor (a b : jv) : jv := if jtruthy a then a else b.

(** [f] applied to the property [k] of a property list, [d] when the
    property is absent. Written as a recursion over the list so that
    [f] may be the validator itself, called on a part of the item. *)
Definition with_prop {A : Type} (k : string) (f : jv -> A) (d : A)
  : list (string * jv) -> A :=
  fix go ps :=
    match ps with
    | [] => d
    | (k', x) :: r => if String.eqb k k' then f x else go r
    end.

Definition on_prop {A : Type} (v : jv) (k : string) (f : jv -> A) (d : A) : A :=
  match v with
  | JObj ps => with_prop k f d ps
  | _ => d
  end.

(* ------------------------------------------------------------------ *)
(** ** data-validator.ts                                              *)
(* ------------------------------------------------------------------ *)

Module ValidationOptions.
Record t : Type := mk
  { strict : option bool;
    allowMixed : option bool;
    checkRelations : option bool;
    maxDepth : option Z }.
(** The default argument [options = {}]. *)
Definition empty : t := mk None None None None.
End ValidationOptions.

(** [Required<ValidationOptions>] *)
Module VOpts.
Record t : Type := mk
  { strict : bool;
    allowMixed : bool;
    checkRelations : bool;
    maxDepth : Z }.
End VOpts.

(** [a ?? d] on an optional field. *)
Definition nullish {A : Type} (a : option A) (d : A) : A :=
  match a with Some x => x | None => d end.

Definition validation_defaults (options : ValidationOptions.t) : VOpts.t :=
  {| VOpts.strict := nullish (ValidationOptions.strict options) false;
     VOpts.allowMixed := nullish (ValidationOptions.allowMixed options) false;
     VOpts.checkRelations := nullish (ValidationOptions.checkRelations options) true;
     VOpts.maxDepth := nullish (ValidationOptions.maxDepth options) 5%Z |}.

Definition isRelationField (value : jv) (format : StrapiFormat) : bool :=
  if negb (jtruthy value) || negb (jis_object value) then false
  else match format with
       | V4 => jdefined (jget value "data")
       | V5 => jis_array value || jdefined (jget value "documentId")
       end.

Section ValidatorBodies.
(** The mutually recursive methods of [DataValidator], each with the
    method it calls back, [validateItem], as the parameter [self]. *)
Variable self : jv -> StrapiFormat -> VOpts.t -> bool.

Definition validateRelation_body
  (relation : jv) (format : StrapiFormat) (options : VOpts.t) : bool :=
  if negb (jtruthy relation) then true
  else match format with
       | V4 =>
           on_prop relation "data"
             (fun data =>
                if jdefined data
                then match data with
                     | JArr items => forallb (fun item => self item V4 options) items
                     | _ => self data V4 options
                     end
                else true)
             true
       | V5 =>
           match relation with
           | JArr items => forallb (fun item => self item V5 options) items
           | _ => if jtruthy (jget relation "documentId")
                  then self relation V5 options
                  else true
           end
       end.

Definition relation_ok
  (format : StrapiFormat) (options : VOpts.t) (value : jv) : bool :=
  if jtruthy value && jis_object value
  then if isRelationField value format
       then validateRelation_body value format options
       else true
  else true.

Definition validateRelations_body
  (item : jv) (format : StrapiFormat) (options : VOpts.t) : bool :=
  if negb (jtruthy item) || negb (jis_object item) then true
  else match item with
       | JObj ps => forallb (fun kv => relation_ok format options (snd kv)) ps
       | JArr l => forallb (relation_ok format options) l
       | _ => true
       end.

Definition validateV4Item_body (item : jv) (options : VOpts.t) : bool :=
  if jtruthy (jget item "id") && jtruthy (jget item "attributes")
     && jis_object (jget item "attributes")
  then
    if VOpts.checkRelations options
    then on_prop item "attributes"
           (fun attributes => validateRelations_body attributes V4 options) true
    else true
  else if jtruthy (jget item "id") && negb (jtruthy (jget item "attributes"))
          && negb (VOpts.strict options)
  then true
  else if VOpts.allowMixed options && jtruthy (jget item "documentId")
  then true
  else false.

Definition validateV5Item_body (item : jv) (options : VOpts.t) : bool :=
  if jtruthy (jget item "documentId")
  then
    if VOpts.checkRelations options
    then validateRelations_body item V5 options
    else true
  else if VOpts.allowMixed options && jtruthy (jget item "id")
          && jtruthy (jget item "attributes")
  then true
  else if negb (VOpts.strict options) && jis_object item
          && negb (jtruthy (jget item "id"))
          && negb (jtruthy (jget item "attributes"))
  then true
  else false.
End ValidatorBodies.

Fixpoint validateItem_rec (options : VOpts.t) (expectedFormat : StrapiFormat)
  (item : jv) {struct item} : bool :=
  if negb (jtruthy item) || negb (jis_object item) then true
  else match expectedFormat with
       | V4 => validateV4Item_body
                 (fun i f o => validateItem_rec o f i) item options
       | V5 => validateV5Item_body
                 (fun i f o => validateItem_rec o f i) item options
       end.

Definition validateItem
  (item : jv) (expectedFormat : StrapiFormat) (options : VOpts.t) : bool :=
  validateItem_rec options expectedFormat item.

Definition validateRelation := validateRelation_body validateItem.
Definition validateRelations := validateRelations_body validateItem.
Definition validateV4Item := validateV4Item_body validateItem.
Definition validateV5Item := validateV5Item_body validateItem.

Definition validateFormat
  (data : jv) (expectedFormat : StrapiFormat) (options : ValidationOptions.t)
  : bool :=
  if negb (jtruthy data) then true
  else
    let opts := validation_defaults options in
    match data with
    | JArr items => forallb (fun item => validateItem item expectedFormat opts) items
    | _ => validateItem data expectedFormat opts
    end.

(** The [{ isValid, errors, warnings }] results of the detailed path. *)
Module Details.
Record t : Type := mk
  { isValid : bool;
    errors : list string;
    warnings : list string }.
Definition ok : t := mk true [] [].
Definition error (msg : string) (r : t) : t :=
  mk false (errors r ++ [msg]) (warnings r).
Definition warning (msg : string) (r : t) : t :=
  mk (isValid r) (errors r) (warnings r ++ [msg]).
(** [result.errors.push(...sub.errors); result.warnings.push(...);
    if (!sub.isValid) result.isValid = false] *)
Definition absorb (sub r : t) : t :=
  mk (if isValid sub then isValid r else false)
     (errors r ++ errors sub) (warnings r ++ warnings sub).
End Details.

Definition item_prefix (index : nat) : string :=
  ("Item " ++ string_of_nat index)%string.

Definition field_prefix (itemIndex : nat) (fieldName : string) : string :=
  (item_prefix itemIndex ++ ", field '" ++ fieldName ++ "'")%string.

(** [items.forEach((x, i) => ...)] as a left fold that carries the index. *)
Fixpoint forEach_indexed {A R : Type}
  (f : A -> nat -> R -> R) (i : nat) (items : list A) (r : R) : R :=
  match items with
  | [] => r
  | x :: rest => forEach_indexed f (S i) rest (f x i r)
  end.

Definition validateRelationWithDetails
  (relation : jv) (format : StrapiFormat) (options : VOpts.t)
  (itemIndex : nat) (fieldName : string) : Details.t :=
  let result := Details.ok in
  if negb (jtruthy relation) then result
  else
    match format with
    | V4 =>
        if negb (jdefined (jget relation "data"))
        then Details.error
               (field_prefix itemIndex fieldName
                  ++ ": v4 relation missing 'data' property")%string result
        else
          let relationItems :=
            match jget relation "data" with
            | JArr l => l
            | d => [d]
            end in
          forEach_indexed
            (fun relItem relIndex r =>
               if negb (validateItem relItem V4 options)
               then Details.error
                      (field_prefix itemIndex fieldName ++ ", relation "
                         ++ string_of_nat relIndex ++ ": Invalid v4 format")%string r
               else r)
            0 relationItems result
    | V5 =>
        match relation with
        | JArr l =>
            forEach_indexed
              (fun relItem relIndex r =>
                 if negb (validateItem relItem V5 options)
                 then Details.error
                        (field_prefix itemIndex fieldName ++ ", relation "
                           ++ string_of_nat relIndex ++ ": Invalid v5 format")%string r
                 else r)
              0 l result
        | _ =>
            if jtruthy (jget relation "documentId")
            then if negb (validateItem relation V5 options)
                 then Details.error
                        (field_prefix itemIndex fieldName
                           ++ ": Invalid v5 relation format")%string result
                 else result
            else result
        end
    end.

Definition validateRelationsWithDetails
  (item : jv) (format : StrapiFormat) (options : VOpts.t) (index : nat)
  : Details.t :=
  let result := Details.ok in
  if negb (jtruthy item) || negb (jis_object item) then result
  else
    fold_left
      (fun r kv =>
         let '(key, value) := kv in
         if jtruthy value && jis_object value
         then if isRelationField value format
              then Details.absorb
                     (validateRelationWithDetails value format options index key) r
              else r
         else r)
      (jentries item) result.

Definition validateItemWithDetails
  (item : jv) (expectedFormat : StrapiFormat) (options : VOpts.t) (index : nat)
  : Details.t :=
  let result := Details.ok in
  if negb (jtruthy item) || negb (jis_object item)
  then Details.error
         (item_prefix index ++ ": Expected object, got " ++ jtypeof item)%string
         result
  else
    let result :=
      match expectedFormat with
      | V4 =>
          let r1 :=
            if negb (jtruthy (jget item "id"))
            then Details.error
                   (item_prefix index
                      ++ ": Missing required field 'id' for v4 format")%string result
            else result in
          let r2 :=
            if negb (jtruthy (jget item "attributes")) && VOpts.strict options
            then Details.error
                   (item_prefix index
                      ++ ": Missing required field 'attributes' for v4 format")%string r1
            else r1 in
          if jtruthy (jget item "documentId") && negb (VOpts.allowMixed options)
          then Details.warning
                 (item_prefix index
                    ++ ": Contains v5 field 'documentId' in v4 format")%string r2
          else r2
      | V5 =>
          let r1 :=
            if negb (jtruthy (jget item "documentId"))
            then Details.error
                   (item_prefix index
                      ++ ": Missing required field 'documentId' for v5 format")%string
                   result
            else result in
          if jtruthy (jget item "attributes") && negb (VOpts.allowMixed options)
          then Details.warning
                 (item_prefix index
                    ++ ": Contains v4 field 'attributes' in v5 format")%string r1
          else r1
      end in
    if VOpts.checkRelations options
    then Details.absorb
           (validateRelationsWithDetails item expectedFormat options index) result
    else result.

Module ValidationReport.
Record t : Type := mk
  { isValid : bool;
    format : StrapiFormat;
    itemCount : nat;
    validItems : nat;
    invalidItems : nat;
    errors : list string;
    warnings : list string }.
End ValidationReport.

Definition getValidationReport
  (data : jv) (expectedFormat : StrapiFormat) (options : ValidationOptions.t)
  : ValidationReport.t :=
  let report := ValidationReport.mk true expectedFormat 0 0 0 [] [] in
  if negb (jtruthy data) then report
  else
    let opts := validation_defaults options in
    let items := match data with JArr l => l | _ => [data] end in
    let report :=
      forEach_indexed
        (fun item index (report : ValidationReport.t) =>
           let itemValidation :=
             validateItemWithDetails item expectedFormat opts index in
           let report :=
             if Details.isValid itemValidation
             then ValidationReport.mk
                    (ValidationReport.isValid report) expectedFormat
                    (ValidationReport.itemCount report)
                    (S (ValidationReport.validItems report))
                    (ValidationReport.invalidItems report)
                    (ValidationReport.errors report)
                    (ValidationReport.warnings report)
             else ValidationReport.mk
                    (ValidationReport.isValid report) expectedFormat
                    (ValidationReport.itemCount report)
                    (ValidationReport.validItems report)
                    (S (ValidationReport.invalidItems report))
                    (ValidationReport.errors report
                       ++ Details.errors itemValidation)
                    (ValidationReport.warnings report) in
           ValidationReport.mk
             (ValidationReport.isValid report) expectedFormat
             (ValidationReport.itemCount report)
             (ValidationReport.validItems report)
             (ValidationReport.invalidItems report)
             (ValidationReport.errors report)
             (ValidationReport.warnings report
                ++ Details.warnings itemValidation))
        0 items
        (ValidationReport.mk true expectedFormat (List.length items) 0 0 [] []) in
    ValidationReport.mk
      (Nat.eqb (ValidationReport.invalidItems report) 0) expectedFormat
      (ValidationReport.itemCount report)
      (ValidationReport.validItems report)
      (ValidationReport.invalidItems report)
      (ValidationReport.errors report)
      (ValidationReport.warnings report).

(** The result of [detectFormat]: [StrapiFormat | 'mixed' | 'unknown']. *)
Inductive Detected : Type :=
| Known : StrapiFormat -> Detected
| Mixed : Detected
| Unknown : Detected.

(** The counters [v4Count], [v5Count], [totalCount] of [detectFormat]. *)
Record Counts : Type := mkCounts
  { v4Count : nat; v5Count : nat; totalCount : nat }.

Definition count_item (c : Counts) (item : jv) : Counts :=
  if jtruthy item && jis_object item
  then
    if jdefined (jget item "id") && jdefined (jget item "attributes")
    then mkCounts (S (v4Count c)) (v5Count c) (S (totalCount c))
    else if jdefined (jget item "documentId")
    then mkCounts (v4Count c) (S (v5Count c)) (S (totalCount c))
    else mkCounts (v4Count c) (v5Count c) (S (totalCount c))
  else c.

Definition detectFormat (data : jv) : Detected :=
  if negb (jtruthy data) then Unknown
  else
    let items := match data with JArr l => l | _ => [data] end in
    let c := fold_left count_item items (mkCounts 0 0 0) in
    if Nat.eqb (totalCount c) 0 then Unknown
    else if Nat.ltb 0 (v4Count c) && Nat.eqb (v5Count c) 0 then Known V4
    else if Nat.ltb 0 (v5Count c) && Nat.eqb (v4Count c) 0 then Known V5
    else if Nat.ltb 0 (v4Count c) && Nat.ltb 0 (v5Count c) then Mixed
    else Unknown.

(* ------------------------------------------------------------------ *)
(** ** data-mapper.ts: PaginationMapper                               *)
(* ------------------------------------------------------------------ *)

(** [parseInt(v, 10)]: the argument is converted to a string first. *)
Definition parseInt_of (v : jv) : num := parseInt (jto_string v).

Definition normalizePagination (pagination : jv) : jv :=
  if negb (jtruthy pagination) then JUndef
  else
    JObj
      [ ("page",
          JNum (Math_max (Int 1)
                  (parseInt_of (jor (jget pagination "page") (JStr "1")))));
        ("pageSize",
          JNum (Math_min (Int 100)
                  (Math_max (Int 1)
                     (parseInt_of (jor (jget pagination "pageSize") (JStr "25"))))));
        ("pageCount",
          JNum (Math_max (Int 1)
                  (parseInt_of (jor (jget pagination "pageCount") (JStr "1")))));
        ("total",
          JNum (Math_max (Int 0)
                  (parseInt_of (jor (jget pagination "total") (JStr "0"))))) ].

(* ------------------------------------------------------------------ *)
(** ** Heap values                                                    *)
(* ------------------------------------------------------------------ *)

(** A location is the index of an object in the heap. *)
Abbreviation loc := nat.

Inductive val : Type :=
| VUndef : val
| VNull : val
| VBool : bool -> val
| VNum : num -> val
| VStr : string -> val
| VRef : loc -> val.

Inductive obj : Type :=
| Obj : list (string * val) -> obj      (* a plain object *)
| Arr : list val -> obj.                (* an array *)

Definition truthy (v : val) : bool :=
  match v with
  | VUndef | VNull => false
  | VBool b => b
  | VNum NaN => false
  | VNum (Int z) => negb (Z.eqb z 0)
  | VStr s => negb (String.eqb s "")
  | VRef _ => true
  end.

(** [typeof v === 'object'] *)
Definition is_object (v : val) : bool :=
  match v with
  | VNull | VRef _ => true
  | _ => false
  end.

Definition defined (v : val) : bool :=
  match v with VUndef => false | _ => true end.

(** [a === b] *)
Definition val_eqb (a b : val) : bool :=
  match a, b with
  | VUndef, VUndef | VNull, VNull => true
  | VBool x, VBool y => Bool.eqb x y
  | VNum x, VNum y => num_eqb x y
  | VStr x, VStr y => String.eqb x y
  | VRef x, VRef y => Nat.eqb x y
  | _, _ => false
  end.

(** A value inside a template literal. The declared type of the values
    printed here is [string | number]; a reference prints as a plain
    object does. *)
Definition to_string (v : val) : string :=
  match v with
  | VUndef => "undefined"
  | VNull => "null"
  | VBool true => "true"
  | VBool false => "false"
  | VNum n => string_of_num n
  | VStr s => s
  | VRef _ => "[object Object]"
  end.

(** [a || b] *)
Definition or_else (a b : val) : val := if truthy a then a else b.

(* ------------------------------------------------------------------ *)
(** ** data-mapper.ts: IdMapper                                       *)
(* ------------------------------------------------------------------ *)

Module IdMapping.
Record t : Type := mk
  { v4Id : val;
    v5DocumentId : string;
    contentType : string;
    createdAt : string }.
End IdMapping.

(** The two static maps of [IdMapper]. *)
Record Registry : Type := mkRegistry
  { mappings : list (string * IdMapping.t);
    reverseMappings : list (string * IdMapping.t) }.

(** What the environment answers when the code reads the clock and the
    random generator: [Date.now()], [new Date().toISOString()] and
    [Math.random().toString(36).substr(2, 8)]. *)
Record Tick : Type := mkTick
  { now_ms : Z;
    now_iso : string;
    random_suffix : string }.

Definition mapping_key (contentType : string) (v4Id : val) : string :=
  (contentType ++ ":" ++ to_string v4Id)%string.

Definition generateDocumentId (t : Tick) (v4Id : val) (contentType : string)
  : string :=
  let cleanContentType := strip_suffix (remove_first "api::" contentType) in
  let timestamp := now_ms t in
  let randomSuffix := random_suffix t in
  (cleanContentType ++ "_" ++ to_string v4Id ++ "_"
     ++ string_of_Z timestamp ++ "_" ++ randomSuffix)%string.

Definition mapV4ToV5 (t : Tick) (v4Id : val) (contentType : string)
  (r : Registry) : string * Registry :=
  let key := mapping_key contentType v4Id in
  match omap_get key (mappings r) with
  | Some mapping => (IdMapping.v5DocumentId mapping, r)
  | None =>
      let documentId := generateDocumentId t v4Id contentType in
      let newMapping := IdMapping.mk v4Id documentId contentType (now_iso t) in
      (documentId,
       mkRegistry (omap_set key newMapping (mappings r))
                  (omap_set documentId newMapping (reverseMappings r)))
  end.

(** The [for ... of] loop of [mapV5ToV4]: the first forward record, in
    insertion order, with this [documentId] and [contentType]. *)
Fixpoint find_forward (documentId contentType : string)
  (m : list (string * IdMapping.t)) : option IdMapping.t :=
  match m with
  | [] => None
  | (_, mapping) :: rest =>
      if String.eqb (IdMapping.v5DocumentId mapping) documentId
         && String.eqb (IdMapping.contentType mapping) contentType
      then Some mapping
      else find_forward documentId contentType rest
  end.

Definition mapV5ToV4 (documentId contentType : string) (r : Registry) : val :=
  let fallback :=
    match find_forward documentId contentType (mappings r) with
    | Some m => IdMapping.v4Id m
    | None =>
        match first_number documentId with
        | Some n => VNum (Int n)
        | None => VStr documentId
        end
    end in
  match omap_get documentId (reverseMappings r) with
  | Some mapping =>
      if String.eqb (IdMapping.contentType mapping) contentType
      then IdMapping.v4Id mapping
      else fallback
  | None => fallback
  end.

Definition hasMapping (v4Id : val) (contentType : string) (r : Registry) : bool :=
  omap_has (mapping_key contentType v4Id) (mappings r).

Definition getMapping (v4Id : val) (contentType : string) (r : Registry)
  : option IdMapping.t :=
  omap_get (mapping_key contentType v4Id) (mappings r).

Definition getMappingsForContentType (contentType : string) (r : Registry)
  : list IdMapping.t :=
  map snd
    (filter (fun e => String.eqb (IdMapping.contentType (snd e)) contentType)
       (mappings r)).

Definition clearMappings (r : Registry) : Registry := mkRegistry [] [].

Definition clearMappingsForContentType (contentType : string) (r : Registry)
  : Registry :=
  let selected :=
    filter (fun e => String.eqb (IdMapping.contentType (snd e)) contentType)
      (mappings r) in
  let keysToDelete := map fst selected in
  let documentIdsToDelete :=
    map (fun e => IdMapping.v5DocumentId (snd e)) selected in
  mkRegistry
    (fold_left (fun m key => omap_delete key m) keysToDelete (mappings r))
    (fold_left (fun m docId => omap_delete docId m) documentIdsToDelete
       (reverseMappings r)).

(** One element of the exported array, [{ key, ...mapping }]. *)
Record ExportItem : Type := mkExportItem
  { key : string;
    mapping : IdMapping.t }.

(** [exportMappings] up to [JSON.stringify]. *)
Definition exportMappings (r : Registry) : list ExportItem :=
  map (fun e => mkExportItem (fst e) (snd e)) (mappings r).

(** What [JSON.parse(jsonData)] does with the argument of
    [importMappings]: it throws, or yields a value that [for ... of]
    cannot iterate, or yields an array of exported records. *)
Inductive Parsed : Type :=
| ParseError : string -> Parsed
| NotIterable : Parsed
| ParsedArray : list ExportItem -> Parsed.

(** The registry after the call, and the message of the error thrown,
    if one is. *)
Definition importMappings (jsonData : Parsed) (r : Registry)
  : Registry * option string :=
  match jsonData with
  | ParseError msg => (r, Some ("Failed to import mappings: " ++ msg)%string)
  | NotIterable =>
      (clearMappings r,
       Some "Failed to import mappings: mappingsArray is not iterable")
  | ParsedArray mappingsArray =>
      (fold_left
         (fun reg item =>
            mkRegistry
              (omap_set (key item) (mapping item) (mappings reg))
              (omap_set (IdMapping.v5DocumentId (mapping item)) (mapping item)
                 (reverseMappings reg)))
         mappingsArray (clearMappings r),
       None)
  end.

(* ------------------------------------------------------------------ *)
(** ** The heap and the state of a run                                *)
(* ------------------------------------------------------------------ *)

Definition heap : Type := list obj.

Record state : Type := mkState
  { objects : heap;                     (* the objects allocated so far *)
    idmap : Registry;                   (* IdMapper's static maps *)
    CIRCULAR_REF_CACHE : list loc;      (* the transformer's WeakSet *)
    console : list string;              (* console.warn *)
    env : nat -> Tick;                  (* answers of clock and generator *)
    clock : nat }.                      (* how many were consumed *)

(** How a call ends: it returns, it throws, or it never comes back
    within the stack it was given. *)
Inductive outcome (A : Type) : Type :=
| Ret : A -> state -> outcome A
| Throw : string -> state -> outcome A
| OutOfFuel : outcome A.
Arguments Ret {A} _ _.
Arguments Throw {A} _ _.
Arguments OutOfFuel {A}.

Definition M (A : Type) : Type := state -> outcome A.

Definition ret {A : Type} (a : A) : M A := fun st => Ret a st.

Definition bind {A B : Type} (m : M A) (f : A -> M B) : M B :=
  fun st =>
    match m st with
    | Ret a st' => f a st'
    | Throw e st' => Throw e st'
    | OutOfFuel => OutOfFuel
    end.

Notation "x <- m ;; k" := (bind m (fun x => k))
  (at level 61, m at next level, right associativity).

Definition throw {A : Type} (msg : string) : M A := fun st => Throw msg st.
Definition out_of_fuel {A : Type} : M A := fun _ => OutOfFuel.

(** [try { m } finally { cleanup }] *)
Definition finally {A : Type} (m : M A) (cleanup : state -> state) : M A :=
  fun st =>
    match m st with
    | Ret a st' => Ret a (cleanup st')
    | Throw e st' => Throw e (cleanup st')
    | OutOfFuel => OutOfFuel
    end.

Fixpoint mapM {A B : Type} (f : A -> M B) (l : list A) : M (list B) :=
  match l with
  | [] => ret []
  | x :: r => y <- f x ;; ys <- mapM f r ;; ret (y :: ys)
  end.

Definition get_heap : M heap := fun st => Ret (objects st) st.

Definition with_objects (h : heap) (st : state) : state :=
  mkState h (idmap st) (CIRCULAR_REF_CACHE st) (console st) (env st) (clock st).

Definition with_cache (c : list loc) (st : state) : state :=
  mkState (objects st) (idmap st) c (console st) (env st) (clock st).

(** [new]: the object goes to the first free location. *)
Definition alloc (o : obj) : M val :=
  fun st => Ret (VRef (List.length (objects st)))
              (with_objects (objects st ++ [o]) st).

Definition console_warn (msg : string) : M unit :=
  fun st => Ret tt (mkState (objects st) (idmap st) (CIRCULAR_REF_CACHE st)
                      (console st ++ [msg]) (env st) (clock st)).

Definition obj_at (h : heap) (v : val) : option obj :=
  match v with
  | VRef l => nth_error h l
  | _ => None
  end.

(** [v.k] for a property name [k] that is not an array index: only
    plain objects carry such a property. *)
Definition prop (h : heap) (v : val) (k : string) : val :=
  match obj_at h v with
  | Some (Obj ps) => match omap_get k ps with Some x => x | None => VUndef end
  | _ => VUndef
  end.

Definition is_array (h : heap) (v : val) : bool :=
  match obj_at h v with
  | Some (Arr _) => true
  | _ => false
  end.

Definition elements (h : heap) (v : val) : list val :=
  match obj_at h v with
  | Some (Arr l) => l
  | _ => []
  end.

Fixpoint chars_from (i : nat) (s : string) : list (string * val) :=
  match s with
  | EmptyString => []
  | String c r => (string_of_nat i, VStr (String c EmptyString)) :: chars_from (S i) r
  end.

(** The own enumerable properties that a spread [{...v}] copies. *)
Definition own_props (h : heap) (v : val) : list (string * val) :=
  match v with
  | VStr s => chars_from 0 s
  | _ => match obj_at h v with
         | Some (Obj ps) => ps
         | Some (Arr l) => index_from 0 l
         | None => []
         end
  end.

Fixpoint update_nth {A : Type} (n : nat) (x : A) (l : list A) : list A :=
  match n, l with
  | O, _ :: r => x :: r
  | S n', y :: r => y :: update_nth n' x r
  | _, [] => []
  end.

(** [target.k = v]. Every assignment of the transformer goes to a plain
    object; nothing is written otherwise. *)
Definition write_prop (target : val) (k : string) (v : val) : M unit :=
  fun st =>
    match target with
    | VRef l =>
        match nth_error (objects st) l with
        | Some (Obj ps) =>
            Ret tt (with_objects (update_nth l (Obj (omap_set k v ps)) (objects st)) st)
        | _ => Ret tt st
        end
    | _ => Ret tt st
    end.

(** [IdMapper.mapV4ToV5] run on the registry of the state; the clock
    moves when a new identifier is synthesised. *)
Definition IdMapper_mapV4ToV5 (v4Id : val) (contentType : string) : M string :=
  fun st =>
    let '(documentId, r) :=
      mapV4ToV5 (env st (clock st)) v4Id contentType (idmap st) in
    Ret documentId
      (mkState (objects st) r (CIRCULAR_REF_CACHE st) (console st) (env st)
         (if hasMapping v4Id contentType (idmap st)
          then clock st else S (clock st))).

(** [IdMapper.mapV5ToV4] called with an untyped value. A string is
    looked up; another value matches no key of either map and then has
    no [match] method. *)
Definition IdMapper_mapV5ToV4 (documentId : val) (contentType : string) : M val :=
  fun st =>
    match documentId with
    | VStr s => Ret (mapV5ToV4 s contentType (idmap st)) st
    | _ => Throw "TypeError: documentId.match is not a function" st
    end.

(* ------------------------------------------------------------------ *)
(** ** data-mapper.ts: MediaMapper                                    *)
(* ------------------------------------------------------------------ *)

Definition transformV4MediaToV5 (media : val) : M val :=
  h <- get_heap ;;
  if negb (truthy media) || negb (truthy (prop h media "attributes"))
  then ret media
  else
    let id := prop h media "id" in
    let attributes := prop h media "attributes" in
    documentId <- IdMapper_mapV4ToV5 id "media" ;;
    alloc (Obj (omap_assign [("documentId", VStr documentId); ("id", id)]
                  (own_props h attributes))).

Definition transformV5MediaToV4 (media : val) : M val :=
  h <- get_heap ;;
  if negb (truthy media) || negb (truthy (prop h media "documentId"))
  then ret media
  else
    let documentId := prop h media "documentId" in
    let id := prop h media "id" in
    attributes <-
      alloc (Obj (omap_delete "id" (omap_delete "documentId" (own_props h media)))) ;;
    id' <- (if truthy id then ret id else IdMapper_mapV5ToV4 documentId "media") ;;
    alloc (Obj [("id", id'); ("attributes", attributes)]).

Definition transformMedia (media : val) (sourceFormat targetFormat : StrapiFormat)
  : M val :=
  if negb (truthy media) || format_eqb sourceFormat targetFormat
  then ret media
  else match sourceFormat, targetFormat with
       | V4, V5 => transformV4MediaToV5 media
       | V5, V4 => transformV5MediaToV4 media
       | _, _ => ret media
       end.

(* ------------------------------------------------------------------ *)
(** ** data-transformer.ts: AdvancedDataTransformer                   *)
(* ------------------------------------------------------------------ *)

Module TransformationOptions.
Record t : Type := mk
  { contentType : option string;
    preserveOriginalId : option bool;
    validateResult : option bool;
    depth : option Z }.
(** The default argument [options = {}]. *)
Definition empty : t := mk None None None None.
End TransformationOptions.

(** [Required<TransformationOptions>] *)
Module TOpts.
Record t : Type := mk
  { contentType : string;
    preserveOriginalId : bool;
    validateResult : bool;
    depth : Z }.
(** [{ ...options, depth: options.depth + 1 }] *)
Definition deeper (o : t) : t :=
  mk (contentType o) (preserveOriginalId o) (validateResult o) (depth o + 1).
(** [{ ...options, contentType: 'relation' }] *)
Definition for_relation (o : t) : t :=
  mk "relation" (preserveOriginalId o) (validateResult o) (depth o).
(** A complete record passed where [TransformationOptions] is expected. *)
Definition as_options (o : t) : TransformationOptions.t :=
  TransformationOptions.mk (Some (contentType o)) (Some (preserveOriginalId o))
    (Some (validateResult o)) (Some (depth o)).
End TOpts.

Definition MAX_DEPTH : Z := 10.

Definition transform_defaults (options : TransformationOptions.t) : TOpts.t :=
  {| TOpts.contentType :=
       match TransformationOptions.contentType options with
       | Some s => if String.eqb s "" then "unknown" else s
       | None => "unknown"
       end;
     TOpts.preserveOriginalId :=
       nullish (TransformationOptions.preserveOriginalId options) true;
     TOpts.validateResult :=
       nullish (TransformationOptions.validateResult options) false;
     TOpts.depth := nullish (TransformationOptions.depth options) 0%Z |}.

Definition isRelationData (h : heap) (data : val) (format : StrapiFormat) : bool :=
  if negb (truthy data) || negb (is_object data) then false
  else match format with
       | V4 => defined (prop h data "data")
       | V5 => is_array h data || defined (prop h data "documentId")
       end.

Definition mediaFields : list string := ["url"; "mime"; "hash"; "ext"; "size"].

Definition isMediaData (h : heap) (data : val) : bool :=
  if negb (truthy data) || negb (is_object data) then false
  else
    let hasMediaFields :=
      existsb (fun field => defined (prop h data field)) mediaFields in
    hasMediaFields
    && (defined (prop h data "id") || defined (prop h data "documentId")).

(** [Object.keys(o).forEach(key => { if (o[key] && typeof o[key] ===
    'object') o[key] = g(o[key]) })] on an object [o] that the caller
    has just built and not yet handed to anyone: the rewriting is done
    on its property list, key by key in order, and the object is
    allocated when it is returned. *)
Fixpoint rewrite_objects (g : val -> M val) (ps : list (string * val))
  : M (list (string * val)) :=
  match ps with
  | [] => ret []
  | (k, v) :: r =>
      v' <- (if truthy v && is_object v then g v else ret v) ;;
      r' <- rewrite_objects g r ;;
      ret ((k, v') :: r')
  end.

(** [a.map(f)] *)
Definition array_map (f : val -> M val) (a : val) : M val :=
  h <- get_heap ;;
  items <- mapM f (elements h a) ;;
  alloc (Arr items).

Definition cache_has (c : list loc) (l : loc) : bool := existsb (Nat.eqb l) c.
Definition cache_add (c : list loc) (l : loc) : list loc :=
  if cache_has c l then c else l :: c.
Definition cache_delete (c : list loc) (l : loc) : list loc :=
  filter (fun x => negb (Nat.eqb l x)) c.

(** The methods call one another; [fuel] bounds the depth of the call
    stack, every call taking one frame. *)
Fixpoint transform (fuel : nat) (data : val)
  (sourceFormat targetFormat : StrapiFormat)
  (options : TransformationOptions.t) {struct fuel} : M val :=
  match fuel with
  | O => out_of_fuel
  | S fuel' =>
      if format_eqb sourceFormat targetFormat then ret data
      else
        let opts := transform_defaults options in
        if Z.ltb MAX_DEPTH (TOpts.depth opts)
        then
          _ <- console_warn
                 "[DataTransformer] Max depth (10) reached, stopping transformation" ;;
          ret data
        else
          fun st =>
            match data with
            | VRef l =>
                if cache_has (CIRCULAR_REF_CACHE st) l
                then
                  (_ <- console_warn
                          "[DataTransformer] Circular reference detected, returning reference" ;;
                   alloc (Obj [("__circular_ref", VBool true)])) st
                else
                  finally
                    (match sourceFormat, targetFormat with
                     | V4, V5 => transformV4ToV5 fuel' data opts
                     | V5, V4 => transformV5ToV4 fuel' data opts
                     | _, _ => ret data
                     end)
                    (fun s => with_cache (cache_delete (CIRCULAR_REF_CACHE s) l) s)
                    (with_cache (cache_add (CIRCULAR_REF_CACHE st) l) st)
            | _ =>
                match sourceFormat, targetFormat with
                | V4, V5 => transformV4ToV5 fuel' data opts st
                | V5, V4 => transformV5ToV4 fuel' data opts st
                | _, _ => Ret data st
                end
            end
  end

with transformV4ToV5 (fuel : nat) (data : val) (options : TOpts.t)
  {struct fuel} : M val :=
  match fuel with
  | O => out_of_fuel
  | S fuel' =>
      if negb (truthy data) then ret data
      else
        h <- get_heap ;;
        if is_array h data
        then array_map (fun item => transformV4ItemToV5 fuel' item options) data
        else transformV4ItemToV5 fuel' data options
  end

with transformV4ItemToV5 (fuel : nat) (item : val) (options : TOpts.t)
  {struct fuel} : M val :=
  match fuel with
  | O => out_of_fuel
  | S fuel' =>
      if negb (truthy item) || negb (is_object item) then ret item
      else
        h <- get_heap ;;
        let id := prop h item "id" in
        let attributes := prop h item "attributes" in
        if truthy id && truthy attributes
        then
          documentId <- IdMapper_mapV4ToV5 id (TOpts.contentType options) ;;
          let result :=
            omap_assign [("documentId", VStr documentId)] (own_props h attributes) in
          let result :=
            if TOpts.preserveOriginalId options
            then omap_set "id" id result else result in
          result <-
            rewrite_objects
              (fun v => transformNestedData fuel' v V4 V5 (TOpts.deeper options))
              result ;;
          alloc (Obj result)
        else if truthy id && negb (truthy attributes)
        then
          let rest := omap_delete "id" (own_props h item) in
          documentId <- IdMapper_mapV4ToV5 id (TOpts.contentType options) ;;
          alloc (Obj (omap_assign
                        [("documentId", VStr documentId);
                         ("id", if TOpts.preserveOriginalId options
                                then id else VUndef)]
                        rest))
        else ret item
  end

with transformV5ToV4 (fuel : nat) (data : val) (options : TOpts.t)
  {struct fuel} : M val :=
  match fuel with
  | O => out_of_fuel
  | S fuel' =>
      if negb (truthy data) then ret data
      else
        h <- get_heap ;;
        if is_array h data
        then array_map (fun item => transformV5ItemToV4 fuel' item options) data
        else transformV5ItemToV4 fuel' data options
  end

with transformV5ItemToV4 (fuel : nat) (item : val) (options : TOpts.t)
  {struct fuel} : M val :=
  match fuel with
  | O => out_of_fuel
  | S fuel' =>
      if negb (truthy item) || negb (is_object item) then ret item
      else
        h <- get_heap ;;
        let documentId := prop h item "documentId" in
        let id := prop h item "id" in
        if truthy documentId
        then
          let attributes :=
            omap_delete "id" (omap_delete "documentId" (own_props h item)) in
          attributes <-
            rewrite_objects
              (fun v => transformNestedData fuel' v V5 V4 (TOpts.deeper options))
              attributes ;;
          attributes <- alloc (Obj attributes) ;;
          id' <- (if truthy id then ret id
                  else IdMapper_mapV5ToV4 documentId (TOpts.contentType options)) ;;
          alloc (Obj [("id", id'); ("attributes", attributes)])
        else ret item
  end

with transformNestedData (fuel : nat) (data : val)
  (sourceFormat targetFormat : StrapiFormat) (options : TOpts.t)
  {struct fuel} : M val :=
  match fuel with
  | O => out_of_fuel
  | S fuel' =>
      if negb (truthy data) then ret data
      else
        h <- get_heap ;;
        if isRelationData h data sourceFormat
        then transformRelationData fuel' data sourceFormat targetFormat options
        else if isMediaData h data
        then transformMedia data sourceFormat targetFormat
        else if is_array h data
        then array_map
               (fun item =>
                  transformNestedData fuel' item sourceFormat targetFormat options)
               data
        else if is_object data
        then transform fuel' data sourceFormat targetFormat (TOpts.as_options options)
        else ret data
  end

with transformRelationData (fuel : nat) (relationData : val)
  (sourceFormat targetFormat : StrapiFormat) (options : TOpts.t)
  {struct fuel} : M val :=
  match fuel with
  | O => out_of_fuel
  | S fuel' =>
      if negb (truthy relationData) then ret relationData
      else
        h <- get_heap ;;
        match sourceFormat, targetFormat with
        | V4, V5 =>
            let data := prop h relationData "data" in
            if truthy data
            then
              if is_array h data
              then array_map
                     (fun item =>
                        transformV4ItemToV5 fuel' item (TOpts.for_relation options))
                     data
              else transformV4ItemToV5 fuel' data (TOpts.for_relation options)
            else ret relationData
        | V5, V4 =>
            if is_array h relationData
            then
              data <- array_map
                        (fun item =>
                           transformV5ItemToV4 fuel' item (TOpts.for_relation options))
                        relationData ;;
              alloc (Obj [("data", data)])
            else if truthy (prop h relationData "documentId")
            then
              data <- transformV5ItemToV4 fuel' relationData
                        (TOpts.for_relation options) ;;
              alloc (Obj [("data", data)])
            else ret relationData
        | _, _ => ret relationData
        end
  end.

Definition transformPagination (pagination : val) : M val :=
  if negb (truthy pagination) then ret pagination
  else
    h <- get_heap ;;
    alloc (Obj [("page", or_else (prop h pagination "page") (VNum (Int 1)));
                ("pageSize", or_else (prop h pagination "pageSize") (VNum (Int 25)));
                ("pageCount", or_else (prop h pagination "pageCount") (VNum (Int 1)));
                ("total", or_else (prop h pagination "total") (VNum (Int 0)))]).

(** [transformed] is a new object with the own properties of
    [response]; the values it holds are the values [response] holds, so
    an object behind one of them is shared by both. *)
Definition transformResponse (fuel : nat) (response : val)
  (sourceFormat targetFormat : StrapiFormat)
  (options : TransformationOptions.t) : M val :=
  if negb (truthy response) || format_eqb sourceFormat targetFormat
  then ret response
  else
    h <- get_heap ;;
    transformed <- alloc (Obj (own_props h response)) ;;
    h <- get_heap ;;
    _ <- (if truthy (prop h transformed "data")
          then
            data <- transform fuel (prop h transformed "data")
                      sourceFormat targetFormat options ;;
            write_prop transformed "data" data
          else ret tt) ;;
    h <- get_heap ;;
    _ <- (if truthy (prop h (prop h transformed "meta") "pagination")
          then
            pagination <-
              transformPagination (prop h (prop h transformed "meta") "pagination") ;;
            h <- get_heap ;;
            write_prop (prop h transformed "meta") "pagination" pagination
          else ret tt) ;;
    ret transformed.

Definition batchTransform (fuel : nat) (items : val)
  (sourceFormat targetFormat : StrapiFormat)
  (options : TransformationOptions.t) : M val :=
  h <- get_heap ;;
  if negb (is_array h items)
  then throw "batchTransform requires an array of items"
  else array_map
         (fun item => transform fuel item sourceFormat targetFormat options)
         items.

(* ------------------------------------------------------------------ *)
(** ** The properties the specification states                        *)
(* ------------------------------------------------------------------ *)

(** *** Format detection, in the words of the specification *)

(** An item of an array that [detectFormat] counts at all. *)
Definition is_item (item : jv) : bool := jtruthy item && jis_object item.

(** An item is legacy-like iff it has both an [id] and an [attributes]
    property. *)
Definition legacy_like (item : jv) : bool :=
  jdefined (jget item "id") && jdefined (jget item "attributes").

(** An item is modern-like iff it has a [documentId] property. *)
Definition modern_like (item : jv) : bool :=
  jdefined (jget item "documentId").

(** The aggregate rule over the items that are objects, for a given
    reading [modern] of modern-like. *)
Definition detect_by_rule (modern : jv -> bool) (data : jv) : Detected :=
  if negb (jtruthy data) then Unknown
  else
    let items :=
      filter (fun item => jtruthy item && jis_object item)
        (match data with JArr l => l | _ => [data] end) in
    let legacy := existsb legacy_like items in
    let modern := existsb modern items in
    if legacy && negb modern then Known V4
    else if modern && negb legacy then Known V5
    else if legacy && modern then Mixed
    else Unknown.

(** The rule as the specification words it. *)
Definition detect_spec : jv -> Detected := detect_by_rule modern_like.

(** The rule the code follows: the legacy test is made first, and an
    item that passes it is not counted as modern. *)
Definition detect_legacy_first : jv -> Detected :=
  detect_by_rule (fun item => modern_like item && negb (legacy_like item)).

(** *** Items on which the two validation paths are compared *)

Definition carries_documentId (item : jv) : bool :=
  jtruthy (jget item "documentId").

(** Nothing, one item with a [documentId], or an array of such items. *)
Definition all_carry_documentId (data : jv) : bool :=
  match data with
  | JArr items => forallb carries_documentId items
  | _ => negb (jtruthy data) || carries_documentId data
  end.

(** *** Pagination *)

(** A field of a normalised pagination block: not a number at all, or
    an integer between the bounds. *)
Definition clamped (lo : Z) (hi : option Z) (n : num) : Prop :=
  match n with
  | NaN => True
  | Int z => (lo <= z)%Z /\ match hi with Some h => (z <= h)%Z | None => True end
  end.

(** *** The identifier registry *)

(** [toLegacyId(toModernId(v, T), T)] *)
Definition there_and_back (t : Tick) (v : val) (T : string) (r : Registry) : val :=
  let '(modernId, r') := mapV4ToV5 t v T r in
  mapV5ToV4 modernId T r'.

(** The key of [(T, v)] is free, or it holds the record of [(T, v)]
    itself and the reverse index sends the record's identifier to it. *)
Definition recorded_as_itself (r : Registry) (T : string) (v : val) : Prop :=
  forall m, getMapping v T r = Some m ->
    IdMapping.v4Id m = v /\ IdMapping.contentType m = T
    /\ omap_get (IdMapping.v5DocumentId m) (reverseMappings r) = Some m.

(** [recorded_as_itself], with an identifier that is not the empty
    string. *)
Definition well_recorded (r : Registry) (T : string) (v : val) : Prop :=
  recorded_as_itself r T v
  /\ forall m, getMapping v T r = Some m -> IdMapping.v5DocumentId m <> "".

Definition unique_keys {V : Type} (m : list (string * V)) : Prop :=
  NoDup (map fst m).

(** Forward and reverse index agree: both are maps, every forward
    record is what the reverse index holds for its identifier, and
    every reverse entry is a forward record filed under its own
    identifier. *)
Definition consistent (r : Registry) : Prop :=
  unique_keys (mappings r) /\ unique_keys (reverseMappings r)
  /\ (forall k m, omap_get k (mappings r) = Some m ->
        omap_get (IdMapping.v5DocumentId m) (reverseMappings r) = Some m)
  /\ (forall d m, omap_get d (reverseMappings r) = Some m ->
        IdMapping.v5DocumentId m = d
        /\ exists k, omap_get k (mappings r) = Some m).

(** The reverse lookup of every recorded identifier, under the record's
    resource type, gives the record's legacy identifier. *)
Definition resolves (r : Registry) : Prop :=
  forall k m, omap_get k (mappings r) = Some m ->
    mapV5ToV4 (IdMapping.v5DocumentId m) (IdMapping.contentType m) r
    = IdMapping.v4Id m.

(** *** The transformer *)

(** The call came back with a value. *)
Definition returns {A : Type} (o : outcome A) : Prop :=
  match o with
  | Ret _ _ => True
  | _ => False
  end.

(** The heap of [st'] is the heap of [st] with new objects after it. *)
Definition extends (st st' : state) : Prop :=
  exists suffix, objects st' = objects st ++ suffix.

(** A computation that leaves every object it finds as it is. *)
Definition grows {A : Type} (m : M A) : Prop :=
  forall st,
    match m st with
    | Ret _ st' => extends st st'
    | Throw _ st' => extends st st'
    | OutOfFuel => True
    end.

(** [items.map(item => transform(item, ...))], call after call. *)
Inductive each_transformed (fuel : nat) (sourceFormat targetFormat : StrapiFormat)
  (options : TransformationOptions.t)
  : state -> list val -> list val -> state -> Prop :=
| each_nil : forall st,
    each_transformed fuel sourceFormat targetFormat options st [] [] st
| each_cons : forall st item result st1 items results st2,
    transform fuel item sourceFormat targetFormat options st = Ret result st1 ->
    each_transformed fuel sourceFormat targetFormat options st1 items results st2 ->
    each_transformed fuel sourceFormat targetFormat options
      st (item :: items) (result :: results) st2.

(** The state after [console.warn(msg)]. *)
Definition warned (msg : string) (st : state) : state :=
  mkState (objects st) (idmap st) (CIRCULAR_REF_CACHE st)
    (console st ++ [msg]) (env st) (clock st).

(** A value that [typeof] does not call an object, or [null]: the
    transformer copies it and does not look inside. *)
Definition scalar (v : val) : bool := negb (truthy v && is_object v).

(** The object at [a] is a legacy item with a truthy [id], and the
    field [field] of its attributes is a relation [{ data: ... }] whose
    data is the object at [a] again. *)
Definition self_relation (h : heap) (a : loc) (field : string) : Prop :=
  exists pa pb pc b c idv,
    nth_error h a = Some (Obj pa)
    /\ nth_error h b = Some (Obj pb)
    /\ nth_error h c = Some (Obj pc)
    /\ omap_get "id" pa = Some idv /\ truthy idv = true
    /\ omap_get "attributes" pa = Some (VRef b)
    /\ unique_keys pb /\ omap_get field pb = Some (VRef c) /\ field <> "id"
    /\ omap_get "data" pc = Some (VRef a).

(** The object at [x] is a legacy item [{ id: n, attributes }] whose
    attributes, at [b], are the properties [attrs]. *)
Definition legacy_item (h : heap) (x : loc) (n : Z) (b : loc)
  (attrs : list (string * val)) : Prop :=
  nth_error h x = Some (Obj [("id", VNum (Int n)); ("attributes", VRef b)])
  /\ nth_error h b = Some (Obj attrs)
  /\ unique_keys attrs.

(** A plain object that neither direction of the transformer takes
    for something to convert: it is no relation wrapper (it has no
    [data] property), it has no truthy [id] and no truthy [documentId]
    of its own, and it is not a media object with [attributes]. *)
Definition inert (h : heap) (v : val) : bool :=
  match obj_at h v with
  | Some (Obj _) =>
      negb (defined (prop h v "data"))
      && negb (truthy (prop h v "id"))
      && negb (truthy (prop h v "documentId"))
      && negb (isMediaData h v && truthy (prop h v "attributes"))
  | _ => false
  end.

(** Attributes none of which is named [id] or [documentId], and whose
    values are scalars or such plain objects: no array, no relation, no
    nested item. *)
Definition plain_attributes (h : heap) (attrs : list (string * val)) : Prop :=
  forallb (fun kv => scalar (snd kv) || inert h (snd kv)) attrs = true
  /\ omap_get "id" attrs = None
  /\ omap_get "documentId" attrs = None.

(** Two states that differ at most in what the console holds. *)
Definition quiet (st st' : state) : Prop :=
  objects st' = objects st /\ idmap st' = idmap st
  /\ CIRCULAR_REF_CACHE st' = CIRCULAR_REF_CACHE st
  /\ env st' = env st /\ clock st' = clock st.

(** The properties of the modern item made from [{ id: n, attributes }]
    with the identifier [d]. *)
Definition flattened (preserve : bool) (d : string) (n : Z)
  (attrs : list (string * val)) : list (string * val) :=
  ("documentId", VStr d) :: attrs
    ++ (if preserve then [("id", VNum (Int n))] else []).

(** How many levels of [v] were converted: the length of the path of
    objects that carry a [documentId] and no [attributes], followed
    through [next]. *)
Fixpoint converted_levels (bound : nat) (h : heap) (v : val) : nat :=
  match bound with
  | O => O
  | S b =>
      if defined (prop h v "documentId") && negb (defined (prop h v "attributes"))
      then S (converted_levels b h (prop h v "next"))
      else O
  end.

(* ------------------------------------------------------------------ *)
(** ** Concrete payloads used below                                   *)
(* ------------------------------------------------------------------ *)

(** *** JSON payloads *)

(** [{ id: 1, attributes: {}, documentId: 'd1' }] *)
Definition both_markers : jv :=
  JObj [("id", JNum (Int 1)); ("attributes", JObj []); ("documentId", JStr "d1")].

(** [{ title: 'x' }]: neither [id]/[attributes] nor [documentId]. *)
Definition unknown_shape : jv := JObj [("title", JStr "x")].

(** [{ documentId: 'd1', author: { documentId: 'd2' }, tags: [] }] *)
Definition modern_item : jv :=
  JObj [("documentId", JStr "d1");
        ("author", JObj [("documentId", JStr "d2")]);
        ("tags", JArr [])].

(** [{ page: 'abc' }] *)
Definition unparsable_page : jv := JObj [("page", JStr "abc")].

(** *** Registries *)

(** One answer of the clock and the generator. *)
Definition tick0 : Tick :=
  mkTick 1700000000000 "2023-11-14T22:13:20.000Z" "k3j9x2ab".

Definition registry_empty : Registry := mkRegistry [] [].

(** The registry after [mapV4ToV5('7', 'article')] on an empty one. *)
Definition registry_string_seven : Registry :=
  snd (mapV4ToV5 tick0 (VStr "7") "article" registry_empty).

(** An exported array of two unrelated records. *)
Definition two_records : list ExportItem :=
  [ mkExportItem "article:1"
      (IdMapping.mk (VNum (Int 1)) "doc_a" "article" "2023-11-14T22:13:20.000Z");
    mkExportItem "article:2"
      (IdMapping.mk (VNum (Int 2)) "doc_b" "article" "2023-11-14T22:13:21.000Z") ].

(** An exported array in which two records share one [v5DocumentId]. *)
Definition twin_records : list ExportItem :=
  [ mkExportItem "article:1"
      (IdMapping.mk (VNum (Int 1)) "doc_a" "article" "2023-11-14T22:13:20.000Z");
    mkExportItem "article:2"
      (IdMapping.mk (VNum (Int 2)) "doc_a" "article" "2023-11-14T22:13:21.000Z") ].

(** *** Heaps *)

(** The clock moves by one millisecond per reading; the generator
    repeats itself. *)
Definition world0 (n : nat) : Tick :=
  mkTick (Z.of_nat n + 1700000000000) "2023-11-14T22:13:20.000Z" "k3j9x2ab".

(** A run that starts on the heap [h]: empty registry, no call in
    progress, nothing logged. *)
Definition fresh_state (h : heap) : state :=
  mkState h registry_empty [] [] world0 0.

(** [a = { id: 1, attributes: { self: { data: a } } }] at location 0. *)
Definition self_related_heap : heap :=
  [ Obj [("id", VNum (Int 1)); ("attributes", VRef 1)];
    Obj [("self", VRef 2)];
    Obj [("data", VRef 0)] ].

(** [a = { id: 1, attributes: { self: a } }] at location 0: the item
    holds itself, without a relation wrapper. *)
Definition direct_cycle_heap : heap :=
  [ Obj [("id", VNum (Int 1)); ("attributes", VRef 1)];
    Obj [("self", VRef 0)] ].

(** [n] legacy items, each related to the next through a field [next]
    that wraps it as [{ data: item }]; the last item has no relation.
    Item [i] is at location [3 * i], its attributes and the wrapper
    follow it. *)
Fixpoint relation_chain (first : nat) (n : nat) : heap :=
  match n with
  | O => []
  | S O =>
      [ Obj [("id", VNum (Int (Z.of_nat (S first)))); ("attributes", VRef (3 * first + 1))];
        Obj [("title", VStr "last")];
        Obj [] ]
  | S n' =>
      [ Obj [("id", VNum (Int (Z.of_nat (S first)))); ("attributes", VRef (3 * first + 1))];
        Obj [("next", VRef (3 * first + 2))];
        Obj [("data", VRef (3 * first + 3))] ]
      ++ relation_chain (S first) n'
  end.

(** As [relation_chain], but each item holds the next one directly in
    its field [next], without the [{ data: ... }] wrapper. Item [i] is
    at location [2 * i], its attributes follow it. *)
Fixpoint nested_chain (first : nat) (n : nat) : heap :=
  match n with
  | O => []
  | S O =>
      [ Obj [("id", VNum (Int (Z.of_nat (S first)))); ("attributes", VRef (2 * first + 1))];
        Obj [("title", VStr "last")] ]
  | S n' =>
      [ Obj [("id", VNum (Int (Z.of_nat (S first)))); ("attributes", VRef (2 * first + 1))];
        Obj [("next", VRef (2 * first + 2))] ]
      ++ nested_chain (S first) n'
  end.

(** [{ id: 7, attributes: { title: 'x', views: 3, draft: null } }] at
    location 0. *)
Definition flat_item_heap : heap :=
  [ Obj [("id", VNum (Int 7)); ("attributes", VRef 1)];
    Obj [("title", VStr "x"); ("views", VNum (Int 3)); ("draft", VNull)] ].

(** [{ id: 7, attributes: { title: 'x', seo: { metaTitle: 't' } } }] at
    location 0: an attribute is a plain nested object. *)
Definition component_item_heap : heap :=
  [ Obj [("id", VNum (Int 7)); ("attributes", VRef 1)];
    Obj [("title", VStr "x"); ("seo", VRef 2)];
    Obj [("metaTitle", VStr "t")] ].

(** [{ id: 7, attributes: { author: { id: 5, name: 'a' } } }] at
    location 0: an attribute is an object with an [id] of its own. *)
Definition identified_component_heap : heap :=
  [ Obj [("id", VNum (Int 7)); ("attributes", VRef 1)];
    Obj [("author", VRef 2)];
    Obj [("id", VNum (Int 5)); ("name", VStr "a")] ].

(** [{ id: 7, attributes: { documentId: 'abc', title: 'x' } }] at
    location 0: an attribute is named like the modern identifier. *)
Definition shadowing_item_heap : heap :=
  [ Obj [("id", VNum (Int 7)); ("attributes", VRef 1)];
    Obj [("documentId", VStr "abc"); ("title", VStr "x")] ].

(** [{ id: 7, attributes: { tags: ['a'] } }] at location 0. *)
Definition tagged_item_heap : heap :=
  [ Obj [("id", VNum (Int 7)); ("attributes", VRef 1)];
    Obj [("tags", VRef 2)];
    Arr [VStr "a"] ].

(** [[ { documentId: 5 } ]] at location 0. *)
Definition numeric_documentId_heap : heap :=
  [ Arr [VRef 1];
    Obj [("documentId", VNum (Int 5))] ].

(** [[ { id: 1, attributes: {} }, 'text' ]] at location 0. *)
Definition small_batch_heap : heap :=
  [ Arr [VRef 1; VStr "text"];
    Obj [("id", VNum (Int 1)); ("attributes", VRef 2)];
    Obj [] ].

(** [{ data: { id: 1, attributes: {} }, meta: { pagination: { page: 2 },
    total: 9 } }] at location 0. *)
Definition envelope_heap : heap :=
  [ Obj [("data", VRef 3); ("meta", VRef 1)];
    Obj [("pagination", VRef 2); ("total", VNum (Int 9))];
    Obj [("page", VNum (Int 2))];
    Obj [("id", VNum (Int 1)); ("attributes", VRef 4)];
    Obj [] ].

(* ================================================================== *)
(** * Part I, continued. The other functions of the three files       *)
(* ================================================================== *)

From Stdlib Require DecimalPos.

(* ------------------------------------------------------------------ *)
(** ** data-mapper.ts: the rest of IdMapper, PaginationMapper,
       MediaMapper and the utility functions                          *)
(* ------------------------------------------------------------------ *)

Module Statistics.
Record t : Type := mk
  { totalMappings : nat;
    contentTypes : list string;
    oldestMapping : option string;
    newestMapping : option string }.
End Statistics.

(** [set.add(x)] on a [Set] of strings, kept in insertion order. *)
Definition set_add (s : list string) (x : string) : list string :=
  if existsb (String.eqb x) s then s else s ++ [x].

(** The loop of [getStatistics]: the set of content types and the two
    dates, [''] standing for a date not set yet. *)
Definition statistics_step (acc : list string * string * string)
  (entry : string * IdMapping.t) : list string * string * string :=
  let '(contentTypes, oldestDate, newestDate) := acc in
  let m := snd entry in
  (set_add contentTypes (IdMapping.contentType m),
   (if String.eqb oldestDate "" || String.ltb (IdMapping.createdAt m) oldestDate
    then IdMapping.createdAt m else oldestDate),
   (if String.eqb newestDate "" || String.ltb newestDate (IdMapping.createdAt m)
    then IdMapping.createdAt m else newestDate)).

(** [s || null] for a string. *)
Definition or_null (s : string) : option string :=
  if String.eqb s "" then None else Some s.

Definition getStatistics (r : Registry) : Statistics.t :=
  let '(contentTypes, oldestDate, newestDate) :=
    fold_left statistics_step (mappings r) ([], "", "") in
  Statistics.mk (List.length (mappings r)) contentTypes
    (or_null oldestDate) (or_null newestDate).

(** The own enumerable properties of a JSON value, as a spread
    [{...v}] copies them. *)
Fixpoint jchars_from (i : nat) (s : string) : list (string * jv) :=
  match s with
  | EmptyString => []
  | String c r => (string_of_nat i, JStr (String c EmptyString)) :: jchars_from (S i) r
  end.

Definition jown_props (v : jv) : list (string * jv) :=
  match v with
  | JObj ps => ps
  | JArr l => index_from 0 l
  | JStr s => jchars_from 0 s
  | _ => []
  end.

Definition mapPagination (pagination : jv) (sourceFormat targetFormat : StrapiFormat)
  : jv :=
  if negb (jtruthy pagination) || format_eqb sourceFormat targetFormat
  then pagination
  else
    let basePagination :=
      [ ("page", jor (jget pagination "page") (JNum (Int 1)));
        ("pageSize", jor (jget pagination "pageSize") (JNum (Int 25)));
        ("pageCount", jor (jget pagination "pageCount") (JNum (Int 1)));
        ("total", jor (jget pagination "total") (JNum (Int 0))) ] in
    match targetFormat with
    | V5 => JObj (omap_assign basePagination (jown_props pagination))
    | V4 => JObj basePagination
    end.

Definition transformMediaArray (mediaArray : val)
  (sourceFormat targetFormat : StrapiFormat) : M val :=
  h <- get_heap ;;
  if negb (is_array h mediaArray) then ret mediaArray
  else array_map (fun media => transformMedia media sourceFormat targetFormat)
         mediaArray.

(** The exported function [generateDocumentId(prefix = 'doc')]. *)
Definition generateDocumentId_with_prefix (t : Tick) (prefix : option string)
  : string :=
  (nullish prefix "doc" ++ "_" ++ string_of_Z (now_ms t) ++ "_"
     ++ random_suffix t)%string.

Definition extractNumericId (documentId : string) : option Z :=
  first_number documentId.

Fixpoint has_space (s : string) : bool :=
  match s with
  | String c r => Ascii.eqb c " " || has_space r
  | EmptyString => false
  end.

Definition isValidDocumentId (value : jv) : bool :=
  match value with
  | JStr s => Nat.ltb 0 (String.length s) && negb (has_space s)
  | _ => false
  end.

Definition isValidV4Id (value : jv) : bool :=
  match value with
  | JNum (Int z) => Z.ltb 0 z
  | _ => false
  end.

(* ------------------------------------------------------------------ *)
(** ** data-validator.ts: statistics and the response envelope        *)
(* ------------------------------------------------------------------ *)

Module FormatStatistics.
Record t : Type := mk
  { totalItems : nat;
    v4Items : nat;
    v5Items : nat;
    unknownItems : nat;
    detectedFormat : Detected }.
End FormatStatistics.

(** [formatDistribution] repeats the three counts under the keys [v4],
    [v5] and [unknown]; the record keeps them once. *)
Definition format_statistics_step (stats : FormatStatistics.t) (item : jv)
  : FormatStatistics.t :=
  if jtruthy item && jis_object item
  then
    if jdefined (jget item "id") && jdefined (jget item "attributes")
    then FormatStatistics.mk (S (FormatStatistics.totalItems stats))
           (S (FormatStatistics.v4Items stats)) (FormatStatistics.v5Items stats)
           (FormatStatistics.unknownItems stats)
           (FormatStatistics.detectedFormat stats)
    else if jdefined (jget item "documentId")
    then FormatStatistics.mk (S (FormatStatistics.totalItems stats))
           (FormatStatistics.v4Items stats) (S (FormatStatistics.v5Items stats))
           (FormatStatistics.unknownItems stats)
           (FormatStatistics.detectedFormat stats)
    else FormatStatistics.mk (S (FormatStatistics.totalItems stats))
           (FormatStatistics.v4Items stats) (FormatStatistics.v5Items stats)
           (S (FormatStatistics.unknownItems stats))
           (FormatStatistics.detectedFormat stats)
  else stats.

Definition getFormatStatistics (data : jv) : FormatStatistics.t :=
  let stats := FormatStatistics.mk 0 0 0 0 Unknown in
  if negb (jtruthy data) then stats
  else
    let items := match data with JArr l => l | _ => [data] end in
    let stats := fold_left format_statistics_step items stats in
    FormatStatistics.mk (FormatStatistics.totalItems stats)
      (FormatStatistics.v4Items stats) (FormatStatistics.v5Items stats)
      (FormatStatistics.unknownItems stats) (detectFormat data).

(** The [{ isValid, errors }] result of [validatePagination]. *)
Module Check.
Record t : Type := mk
  { isValid : bool;
    errors : list string }.
Definition error (msg : string) (r : t) : t := mk false (errors r ++ [msg]).
End Check.

Definition requiredFields : list string := ["page"; "pageSize"; "pageCount"; "total"].

(** [typeof v === 'number' && v < 0] *)
Definition jnegative (v : jv) : bool :=
  match v with
  | JNum (Int z) => Z.ltb z 0
  | _ => false
  end.

Definition jis_number (v : jv) : bool :=
  match v with JNum _ => true | _ => false end.

Definition validatePagination_field (pagination : jv) (result : Check.t)
  (field : string) : Check.t :=
  if negb (jdefined (jget pagination field))
  then Check.error ("Pagination missing required field: " ++ field)%string result
  else if negb (jis_number (jget pagination field))
  then Check.error ("Pagination field '" ++ field ++ "' must be a number")%string result
  else if jnegative (jget pagination field)
  then Check.error ("Pagination field '" ++ field ++ "' must be non-negative")%string
         result
  else result.

Definition validatePagination (pagination : jv) : Check.t :=
  let result := Check.mk true [] in
  if negb (jtruthy pagination) || negb (jis_object pagination)
  then Check.error "Pagination must be an object" result
  else fold_left (validatePagination_field pagination) requiredFields result.

Definition validateResponse (response : jv) (expectedFormat : StrapiFormat)
  (options : ValidationOptions.t) : ValidationReport.t :=
  let report := ValidationReport.mk true expectedFormat 0 0 0 [] [] in
  if negb (jtruthy response)
  then ValidationReport.mk false expectedFormat 0 0 0
         ["Response is null or undefined"] []
  else if negb (jis_object response)
  then ValidationReport.mk false expectedFormat 0 0 0
         ["Response must be an object"] []
  else
    let report :=
      if jdefined (jget response "data")
      then
        let dataReport :=
          getValidationReport (jget response "data") expectedFormat options in
        ValidationReport.mk
          (if ValidationReport.isValid dataReport
           then ValidationReport.isValid report else false)
          expectedFormat
          (ValidationReport.itemCount report + ValidationReport.itemCount dataReport)
          (ValidationReport.validItems report + ValidationReport.validItems dataReport)
          (ValidationReport.invalidItems report
             + ValidationReport.invalidItems dataReport)
          (ValidationReport.errors report ++ ValidationReport.errors dataReport)
          (ValidationReport.warnings report ++ ValidationReport.warnings dataReport)
      else report in
    if jtruthy (jget response "meta")
    then
      if negb (jis_object (jget response "meta"))
      then ValidationReport.mk false expectedFormat
             (ValidationReport.itemCount report) (ValidationReport.validItems report)
             (ValidationReport.invalidItems report)
             (ValidationReport.errors report ++ ["Meta field must be an object"])
             (ValidationReport.warnings report)
      else if jtruthy (jget (jget response "meta") "pagination")
      then
        let paginationValidation :=
          validatePagination (jget (jget response "meta") "pagination") in
        if negb (Check.isValid paginationValidation)
        then ValidationReport.mk false expectedFormat
               (ValidationReport.itemCount report) (ValidationReport.validItems report)
               (ValidationReport.invalidItems report)
               (ValidationReport.errors report ++ Check.errors paginationValidation)
               (ValidationReport.warnings report)
        else report
      else report
    else report.

(** [isValidFormat] and [detectDataFormat], the two short-hands. *)
Definition isValidFormat (data : jv) (format : StrapiFormat) : bool :=
  validateFormat data format ValidationOptions.empty.

Definition detectDataFormat (data : jv) : Detected := detectFormat data.

(* ------------------------------------------------------------------ *)
(** ** data-transformer.ts: RelationTransformer and the utility
       functions                                                      *)
(* ------------------------------------------------------------------ *)

Definition transformRelation (fuel : nat) (relation : val)
  (sourceFormat targetFormat : StrapiFormat) (contentType : option string)
  : M val :=
  if negb (truthy relation) || format_eqb sourceFormat targetFormat
  then ret relation
  else transform fuel relation sourceFormat targetFormat
         (TransformationOptions.mk (Some (nullish contentType "relation"))
            (Some true) (Some false) (Some 0%Z)).

(** [transformed[key] = value] on the new object [transformed]: for the
    key [__proto__] the assignment goes to the setter that every object
    inherits and makes no property of the object's own. *)
Definition assigned (entries : list (string * val)) : list (string * val) :=
  filter (fun kv => negb (String.eqb (fst kv) "__proto__")) entries.

(** [Object.entries] throws on [null] and [undefined]. [transformed] is
    filled key by key and returned; as for the item methods, the object
    is allocated when it is returned. *)
Definition transformRelations (fuel : nat) (relations : val)
  (sourceFormat targetFormat : StrapiFormat) : M val :=
  match relations with
  | VUndef | VNull => throw "TypeError: Cannot convert undefined or null to object"
  | _ =>
      h <- get_heap ;;
      transformed <-
        mapM (fun kv =>
                value <- transformRelation fuel (snd kv) sourceFormat targetFormat
                           (Some (fst kv)) ;;
                ret (fst kv, value))
          (own_props h relations) ;;
      alloc (Obj (assigned transformed))
  end.

Definition needsTransformation (data : jv) (currentFormat targetFormat : StrapiFormat)
  : bool :=
  if format_eqb currentFormat targetFormat then false
  else if negb (jtruthy data) then false
  else match currentFormat, targetFormat with
       | V4, V5 => jdefined (jget data "id") && jdefined (jget data "attributes")
       | V5, V4 => jdefined (jget data "documentId")
       | _, _ => false
       end.

Module TransformationStats.
Record t : Type := mk
  { totalItems : nat;
    v4Items : nat;
    v5Items : nat;
    mixedFormat : bool }.
End TransformationStats.

Definition transformation_stats_step (stats : TransformationStats.t) (item : jv)
  : TransformationStats.t :=
  if jtruthy item && jis_object item
  then
    if jdefined (jget item "id") && jdefined (jget item "attributes")
    then TransformationStats.mk (S (TransformationStats.totalItems stats))
           (S (TransformationStats.v4Items stats))
           (TransformationStats.v5Items stats)
           (TransformationStats.mixedFormat stats)
    else if jdefined (jget item "documentId")
    then TransformationStats.mk (S (TransformationStats.totalItems stats))
           (TransformationStats.v4Items stats)
           (S (TransformationStats.v5Items stats))
           (TransformationStats.mixedFormat stats)
    else TransformationStats.mk (S (TransformationStats.totalItems stats))
           (TransformationStats.v4Items stats)
           (TransformationStats.v5Items stats)
           (TransformationStats.mixedFormat stats)
  else stats.

Definition getTransformationStats (data : jv) : TransformationStats.t :=
  let items := match data with JArr l => l | _ => [data] end in
  let stats :=
    fold_left transformation_stats_step items
      (TransformationStats.mk 0 0 0 false) in
  TransformationStats.mk (TransformationStats.totalItems stats)
    (TransformationStats.v4Items stats) (TransformationStats.v5Items stats)
    (Nat.ltb 0 (TransformationStats.v4Items stats)
     && Nat.ltb 0 (TransformationStats.v5Items stats)).

(** ** Predicates of the further properties *)

(** The creation dates of a list of registry entries; the oldest and
    the newest of a list of dates under the order of [<] on strings. *)
Definition dates (entries : list (string * IdMapping.t)) : list string :=
  map (fun e => IdMapping.createdAt (snd e)) entries.

Definition oldest_of (o : string) (ds : list string) : Prop :=
  In o ds /\ forall d, In d ds -> String.ltb d o = false.

Definition newest_of (n : string) (ds : list string) : Prop :=
  In n ds /\ forall d, In d ds -> String.ltb n d = false.


(** A validation result lists an error exactly when it is not valid. *)
Definition faithful (isValid : bool) (errors : list string) : Prop :=
  isValid = true <-> errors = [].

(** What [validatePagination] accepts as a field: a number that is not
    negative; [NaN] is a number and is not below zero. *)
Definition pagination_number (v : jv) : bool :=
  match v with
  | JNum (Int z) => Z.leb 0 z
  | JNum NaN => true
  | _ => false
  end.

(** The format that [detectFormat] derives from its three counts. *)
Definition format_of_counts (total v4 v5 : nat) : Detected :=
  if Nat.eqb total 0 then Unknown
  else if Nat.ltb 0 v4 && Nat.eqb v5 0 then Known V4
  else if Nat.ltb 0 v5 && Nat.eqb v4 0 then Known V5
  else if Nat.ltb 0 v4 && Nat.ltb 0 v5 then Mixed
  else Unknown.

(** The callback of the [forEach] of [getValidationReport], by name. *)
Definition report_step (expectedFormat : StrapiFormat) (opts : VOpts.t)
  (item : jv) (index : nat) (report : ValidationReport.t) : ValidationReport.t :=
  let itemValidation := validateItemWithDetails item expectedFormat opts index in
  let report :=
    if Details.isValid itemValidation
    then ValidationReport.mk
           (ValidationReport.isValid report) expectedFormat
           (ValidationReport.itemCount report)
           (S (ValidationReport.validItems report))
           (ValidationReport.invalidItems report)
           (ValidationReport.errors report)
           (ValidationReport.warnings report)
    else ValidationReport.mk
           (ValidationReport.isValid report) expectedFormat
           (ValidationReport.itemCount report)
           (ValidationReport.validItems report)
           (S (ValidationReport.invalidItems report))
           (ValidationReport.errors report ++ Details.errors itemValidation)
           (ValidationReport.warnings report) in
  ValidationReport.mk
    (ValidationReport.isValid report) expectedFormat
    (ValidationReport.itemCount report)
    (ValidationReport.validItems report)
    (ValidationReport.invalidItems report)
    (ValidationReport.errors report)
    (ValidationReport.warnings report ++ Details.warnings itemValidation).


(** The defaults that [mapPagination] fills in. *)
Definition default_pagination : list (string * jv) :=
  [ ("page", JNum (Int 1)); ("pageSize", JNum (Int 25));
    ("pageCount", JNum (Int 1)); ("total", JNum (Int 0)) ].

(** An option set is laxer than another when it is strict only if the
    other is, checks relations only if the other does, and allows mixed
    items whenever the other does. *)
Definition laxer (options options' : VOpts.t) : Prop :=
  (VOpts.strict options' = true -> VOpts.strict options = true)
  /\ (VOpts.checkRelations options' = true -> VOpts.checkRelations options = true)
  /\ (VOpts.allowMixed options = true -> VOpts.allowMixed options' = true).

(** What holds of a value and is kept from [options] to [options']:
    its validation as an item, as the holder of relations, as a
    relation, and, for an array, the validation of its elements. *)
Definition kept (options options' : VOpts.t) (v : jv) : Prop :=
  (forall f, validateItem v f options = true -> validateItem v f options' = true)
  /\ (forall f, validateRelations v f options = true ->
                validateRelations v f options' = true)
  /\ (forall f, validateRelation v f options = true ->
                validateRelation v f options' = true)
  /\ (forall f l, v = JArr l ->
        forallb (fun i => validateItem i f options) l = true ->
        forallb (fun i => validateItem i f options') l = true).

(** A computation that leaves, whether it returns or throws, a state
    related by [R] to the one it started from. *)
Definition preserves (R : state -> state -> Prop) {A : Type} (m : M A) : Prop :=
  forall st,
    match m st with
    | Ret _ st' => R st st'
    | Throw _ st' => R st st'
    | OutOfFuel => True
    end.

(** The set of the objects under transformation is what it was. *)
Definition same_cache (st st' : state) : Prop :=
  CIRCULAR_REF_CACHE st' = CIRCULAR_REF_CACHE st.

(** Every record of the registry is still filed under its key, the
    console has what it had and possibly more, and the clock has not
    gone back. *)
Definition only_adds (st st' : state) : Prop :=
  (forall k m, omap_get k (mappings (idmap st)) = Some m ->
               omap_get k (mappings (idmap st')) = Some m)
  /\ (exists more, console st' = console st ++ more)
  /\ env st' = env st
  /\ clock st <= clock st'.

(** A computation that throws nothing on the way from [s] to [t] unless
    these are the modern and the legacy format, and then nothing but the
    error of [IdMapper.mapV5ToV4] on an identifier that is no string. *)
Definition throws_within (s t : StrapiFormat) {A : Type} (m : M A) : Prop :=
  forall st,
    match m st with
    | Throw e _ =>
        s = V5 /\ t = V4 /\ e = "TypeError: documentId.match is not a function"
    | _ => True
    end.

(** [{ data: { id: 1, attributes: {} } }] at location 0: a legacy
    relation wrapper around one item. *)
Definition wrapped_relation_heap : heap :=
  [ Obj [("data", VRef 1)];
    Obj [("id", VNum (Int 1)); ("attributes", VRef 2)];
    Obj [] ].

(** [{ author: { id: 1, attributes: {} }, note: 'n' }] at location 0. *)
Definition relations_heap : heap :=
  [ Obj [("author", VRef 1); ("note", VStr "n")];
    Obj [("id", VNum (Int 1)); ("attributes", VRef 2)];
    Obj [] ].

(** [transformMedia(transformMedia(media, 'v4', 'v5'), 'v5', 'v4')] *)
Definition media_round_trip (media : val) : M val :=
  modern <- transformMedia media V4 V5 ;;
  transformMedia modern V5 V4.

(** [{ id: 3, attributes: { url: '/a.png', mime: 'image/png' } }] at
    location 0. *)
Definition media_heap : heap :=
  [ Obj [("id", VNum (Int 3)); ("attributes", VRef 1)];
    Obj [("url", VStr "/a.png"); ("mime", VStr "image/png")] ].

(** The integers that a JavaScript number holds exactly. *)
Definition MAX_SAFE_INTEGER : Z := 9007199254740991.

Definition safe_integer (n : num) : Prop :=
  match n with
  | Int z => (- MAX_SAFE_INTEGER <= z <= MAX_SAFE_INTEGER)%Z
  | NaN => False
  end.

(** The four fields of a pagination block are integers held exactly. *)
Definition safe_pagination (pagination : jv) : Prop :=
  forall field, In field requiredFields ->
    exists n, jget pagination field = JNum n /\ safe_integer n.

(** A string that does not go on with a digit. *)
Definition ends_number (rest : string) : Prop :=
  match rest with
  | String c _ => is_digit c = false
  | EmptyString => True
  end.


(** A value that is no object: [undefined], [null], a boolean, a number
    or a string. *)
Definition primitive (v : val) : bool :=
  match v with VRef _ => false | _ => true end.

(** No object of the heap has an object for its [id]: the identifiers
    are of the declared type, [string | number], or absent. *)
Definition primitive_ids (h : heap) : Prop :=
  forall l ps v,
    nth_error h l = Some (Obj ps) -> omap_get "id" ps = Some v ->
    primitive v = true.

(* ================================================================== *)
(** * Part II. Theorems                                               *)
(* ================================================================== *)

(** ** Format detection *)

Lemma count_item_fold (items : list jv) (c : Counts) :
  fold_left count_item items c
  = mkCounts
      (v4Count c + List.length (filter (fun i => is_item i && legacy_like i) items))
      (v5Count c + List.length
         (filter (fun i => is_item i && (modern_like i && negb (legacy_like i))) items))
      (totalCount c + List.length (filter is_item items)).
Proof.
  revert c. induction items as [|x items IH]; intro c.
  - destruct c; simpl. f_equal; lia.
  - cbn [fold_left filter]. rewrite IH. clear IH.
    unfold count_item, is_item, legacy_like, modern_like.
    destruct (jtruthy x && jis_object x);
      destruct (jdefined (jget x "id") && jdefined (jget x "attributes"));
      destruct (jdefined (jget x "documentId"));
      cbn [andb negb List.length v4Count v5Count totalCount]; f_equal; lia.
Qed.

Lemma positive_length_filter {A : Type} (p : A -> bool) (l : list A) :
  Nat.ltb 0 (List.length (filter p l)) = existsb p l.
Proof.
  induction l as [|x l IH]; simpl; [reflexivity|].
  destruct (p x); simpl; [reflexivity | exact IH].
Qed.

Lemma zero_length_filter {A : Type} (p : A -> bool) (l : list A) :
  Nat.eqb (List.length (filter p l)) 0 = negb (existsb p l).
Proof.
  induction l as [|x l IH]; simpl; [reflexivity|].
  destruct (p x); simpl; [reflexivity | exact IH].
Qed.

Lemma existsb_filter {A : Type} (p q : A -> bool) (l : list A) :
  existsb q (filter p l) = existsb (fun x => p x && q x) l.
Proof.
  induction l as [|x l IH]; simpl; [reflexivity|].
  destruct (p x); simpl; rewrite IH; reflexivity.
Qed.

Lemma existsb_weaken {A : Type} (p q : A -> bool) (l : list A) :
  (forall x, q x = true -> p x = true) ->
  existsb p l = false -> existsb q l = false.
Proof.
  intros Hpq. induction l as [|x l IH]; simpl; [reflexivity|].
  intro H. apply orb_false_iff in H as [Hx Hl].
  rewrite (IH Hl), orb_false_r.
  destruct (q x) eqn:E; [|reflexivity].
  rewrite (Hpq x E) in Hx. discriminate.
Qed.

(** C5 (as amended): [detectFormat] is a total function of its argument
    and follows the aggregate rule of the specification when modern-like
    is read as: has a [documentId] and is not legacy-like. *)
Theorem detectFormat_legacy_first (data : jv) :
  detectFormat data = detect_legacy_first data.
Proof.
  unfold detectFormat, detect_legacy_first, detect_by_rule.
  destruct (negb (jtruthy data)); [reflexivity|].
  set (items := match data with JArr l => l | _ => [data] end).
  rewrite count_item_fold. simpl.
  rewrite !positive_length_filter, !zero_length_filter, !existsb_filter.
  unfold is_item.
  set (L := existsb (fun i => jtruthy i && jis_object i && legacy_like i) items).
  set (N := existsb
              (fun i => jtruthy i && jis_object i
                        && (modern_like i && negb (legacy_like i))) items).
  destruct (existsb (fun i => jtruthy i && jis_object i) items) eqn:Eany; simpl.
  - destruct L, N; reflexivity.
  - assert (HL : L = false).
    { apply (existsb_weaken (fun i => jtruthy i && jis_object i)); auto.
      intros x H. apply andb_true_iff in H. tauto. }
    assert (HN : N = false).
    { apply (existsb_weaken (fun i => jtruthy i && jis_object i)); auto.
      intros x H. apply andb_true_iff in H. tauto. }
    rewrite HL, HN. reflexivity.
Qed.

(** C5 (as stated) fails: an item with [id], [attributes] and
    [documentId] is legacy-like and modern-like, so the rule of the
    specification answers mixed; the code answers v4. *)
Lemma detectFormat_not_detect_spec :
  detectFormat both_markers = Known V4
  /\ detect_spec both_markers = Mixed
  /\ detectFormat both_markers <> detect_spec both_markers.
Proof.
  repeat split; try reflexivity. discriminate.
Qed.

(** ** The two validation paths *)

Lemma with_prop_get {A : Type} (k : string) (f : jv -> A) (d : A)
  (ps : list (string * jv)) :
  with_prop k f d ps
  = match omap_get k ps with Some x => f x | None => d end.
Proof.
  induction ps as [|[k' x] ps IH]; simpl; [reflexivity|].
  destruct (String.eqb k k'); [reflexivity | exact IH].
Qed.

(** [validateItem] unfolds to the body of the source method. *)
Lemma validateItem_unfold (item : jv) (expectedFormat : StrapiFormat)
  (options : VOpts.t) :
  validateItem item expectedFormat options
  = if negb (jtruthy item) || negb (jis_object item) then true
    else match expectedFormat with
         | V4 => validateV4Item item options
         | V5 => validateV5Item item options
         end.
Proof.
  unfold validateItem, validateV4Item, validateV5Item.
  destruct item; reflexivity.
Qed.

Lemma forEach_indexed_errors {A : Type} (bad : A -> bool)
  (msg : A -> nat -> string) (items : list A) (i : nat) (r : Details.t) :
  Details.isValid
    (forEach_indexed
       (fun x n acc => if bad x then Details.error (msg x n) acc else acc)
       i items r)
  = Details.isValid r && forallb (fun x => negb (bad x)) items.
Proof.
  revert i r. induction items as [|x items IH]; intros i r; simpl.
  - rewrite andb_true_r. reflexivity.
  - rewrite IH. destruct (bad x); simpl.
    + rewrite andb_false_r. reflexivity.
    + reflexivity.
Qed.

Lemma forallb_negb_negb {A : Type} (p : A -> bool) (l : list A) :
  forallb (fun x => negb (negb (p x))) l = forallb p l.
Proof.
  induction l as [|x l IH]; simpl; [reflexivity|].
  rewrite negb_involutive, IH. reflexivity.
Qed.

(** On a modern relation the detailed check fails exactly when the fast
    one does. *)
Lemma validateRelationWithDetails_V5 (relation : jv) (options : VOpts.t)
  (itemIndex : nat) (fieldName : string) :
  Details.isValid
    (validateRelationWithDetails relation V5 options itemIndex fieldName)
  = validateRelation relation V5 options.
Proof.
  unfold validateRelationWithDetails, validateRelation, validateRelation_body.
  destruct (negb (jtruthy relation)); [reflexivity|].
  destruct relation; try reflexivity;
    try (destruct (jtruthy (jget _ "documentId")); [|reflexivity];
         match goal with |- context [validateItem ?x V5 ?o] =>
           destruct (validateItem x V5 o) end; reflexivity).
  rewrite (forEach_indexed_errors
             (fun relItem => negb (validateItem relItem V5 options))
             (fun _ relIndex =>
                (field_prefix itemIndex fieldName ++ ", relation "
                   ++ string_of_nat relIndex ++ ": Invalid v5 format")%string)).
  simpl. apply forallb_negb_negb.
Qed.

Lemma validateRelationsWithDetails_fold (format : StrapiFormat)
  (options : VOpts.t) (index : nat) (entries : list (string * jv))
  (r : Details.t) :
  (forall key value,
      Details.isValid (validateRelationWithDetails value format options index key)
      = validateRelation value format options) ->
  Details.isValid
    (fold_left
       (fun r kv =>
          let '(key, value) := kv in
          if jtruthy value && jis_object value
          then if isRelationField value format
               then Details.absorb
                      (validateRelationWithDetails value format options index key) r
               else r
          else r)
       entries r)
  = Details.isValid r
    && forallb (fun kv => relation_ok validateItem format options (snd kv)) entries.
Proof.
  intro Hrel. revert r.
  induction entries as [|[key value] entries IH]; intro r; simpl.
  - rewrite andb_true_r. reflexivity.
  - rewrite IH. unfold relation_ok.
    destruct (jtruthy value && jis_object value); [|reflexivity].
    destruct (isRelationField value format); [|reflexivity].
    simpl. rewrite Hrel. fold (validateRelation value format options).
    destruct (validateRelation value format options);
      destruct (Details.isValid r); reflexivity.
Qed.

Lemma forallb_index_from {A : Type} (p : A -> bool) (l : list A) (i : nat) :
  forallb (fun kv => p (snd kv)) (index_from i l) = forallb p l.
Proof.
  revert i. induction l as [|x l IH]; intro i; simpl; [reflexivity|].
  rewrite IH. reflexivity.
Qed.

Lemma validateRelationsWithDetails_V5 (item : jv) (options : VOpts.t)
  (index : nat) :
  Details.isValid (validateRelationsWithDetails item V5 options index)
  = validateRelations item V5 options.
Proof.
  unfold validateRelationsWithDetails, validateRelations, validateRelations_body.
  destruct (negb (jtruthy item) || negb (jis_object item)) eqn:E; [reflexivity|].
  rewrite validateRelationsWithDetails_fold
    by (intros; apply validateRelationWithDetails_V5).
  destruct item; simpl in E; rewrite ?orb_true_r in E; try discriminate E; simpl.
  - apply forallb_index_from.
  - reflexivity.
Qed.

Lemma property_owner_is_object (item : jv) (k : string) :
  jtruthy (jget item k) = true ->
  negb (jtruthy item) || negb (jis_object item) = false.
Proof. destruct item; simpl; intro H; try discriminate H; reflexivity. Qed.

(** One item that carries a [documentId], under the modern format. *)
Lemma validateItem_details_agree (item : jv) (options : VOpts.t) (index : nat) :
  carries_documentId item = true ->
  Details.isValid (validateItemWithDetails item V5 options index)
  = validateItem item V5 options.
Proof.
  unfold carries_documentId. intro Hdoc.
  rewrite validateItem_unfold.
  unfold validateItemWithDetails, validateV5Item, validateV5Item_body.
  rewrite (property_owner_is_object item "documentId" Hdoc), Hdoc.
  cbn [negb].
  fold (validateRelations item V5 options).
  rewrite <- (validateRelationsWithDetails_V5 item options index).
  destruct (VOpts.checkRelations options);
    destruct (jtruthy (jget item "attributes") && negb (VOpts.allowMixed options));
    try reflexivity;
    cbn [Details.absorb Details.warning Details.ok Details.isValid];
    destruct (Details.isValid _); reflexivity.
Qed.

(** What the report's loop leaves in [invalidItems]. *)
Lemma report_invalid_count (expectedFormat : StrapiFormat) (opts : VOpts.t)
  (items : list jv) (i : nat) (report : ValidationReport.t) :
  ValidationReport.invalidItems
    (forEach_indexed
       (fun item index (report : ValidationReport.t) =>
          let itemValidation :=
            validateItemWithDetails item expectedFormat opts index in
          let report :=
            if Details.isValid itemValidation
            then ValidationReport.mk
                   (ValidationReport.isValid report) expectedFormat
                   (ValidationReport.itemCount report)
                   (S (ValidationReport.validItems report))
                   (ValidationReport.invalidItems report)
                   (ValidationReport.errors report)
                   (ValidationReport.warnings report)
            else ValidationReport.mk
                   (ValidationReport.isValid report) expectedFormat
                   (ValidationReport.itemCount report)
                   (ValidationReport.validItems report)
                   (S (ValidationReport.invalidItems report))
                   (ValidationReport.errors report
                      ++ Details.errors itemValidation)
                   (ValidationReport.warnings report) in
          ValidationReport.mk
            (ValidationReport.isValid report) expectedFormat
            (ValidationReport.itemCount report)
            (ValidationReport.validItems report)
            (ValidationReport.invalidItems report)
            (ValidationReport.errors report)
            (ValidationReport.warnings report
               ++ Details.warnings itemValidation))
       i items report)
  = ValidationReport.invalidItems report
    + List.length
        (filter
           (fun p => negb (Details.isValid
                             (validateItemWithDetails (snd p) expectedFormat opts (fst p))))
           (combine (seq i (List.length items)) items)).
Proof.
  revert i report. induction items as [|x items IH]; intros i report.
  - simpl. lia.
  - cbn [forEach_indexed List.length seq combine filter fst snd].
    rewrite IH.
    destruct (Details.isValid (validateItemWithDetails x expectedFormat opts i));
      simpl; lia.
Qed.

Lemma getValidationReport_isValid (data : jv) (expectedFormat : StrapiFormat)
  (options : ValidationOptions.t) :
  ValidationReport.isValid (getValidationReport data expectedFormat options)
  = if negb (jtruthy data) then true
    else
      let items := match data with JArr l => l | _ => [data] end in
      forallb
        (fun p => Details.isValid
                    (validateItemWithDetails (snd p) expectedFormat
                       (validation_defaults options) (fst p)))
        (combine (seq 0 (List.length items)) items).
Proof.
  unfold getValidationReport.
  destruct (negb (jtruthy data)); [reflexivity|].
  cbv zeta. cbn [ValidationReport.isValid].
  rewrite report_invalid_count. cbn [ValidationReport.invalidItems Nat.add].
  generalize (combine
                (seq 0 (List.length match data with JArr l => l | _ => [data] end))
                match data with JArr l => l | _ => [data] end).
  intro l. induction l as [|p l IH]; simpl; [reflexivity|].
  destruct (Details.isValid _); simpl; [exact IH | reflexivity].
Qed.

Lemma forallb_combine_agree (options : VOpts.t) (items : list jv) (i : nat) :
  forallb carries_documentId items = true ->
  forallb
    (fun p => Details.isValid (validateItemWithDetails (snd p) V5 options (fst p)))
    (combine (seq i (List.length items)) items)
  = forallb (fun item => validateItem item V5 options) items.
Proof.
  revert i. induction items as [|x items IH]; intros i H; simpl; [reflexivity|].
  simpl in H. apply andb_true_iff in H as [Hx Hr].
  rewrite (validateItem_details_agree x options i Hx), (IH (S i) Hr).
  reflexivity.
Qed.




(** ** Pagination *)

Lemma Math_max_clamped (lo : Z) (n : num) :
  clamped lo None (Math_max (Int lo) n).
Proof. destruct n; simpl; [exact I | split; [lia | exact I]]. Qed.

Lemma Math_min_max_clamped (lo hi : Z) (n : num) :
  (lo <= hi)%Z ->
  clamped lo (Some hi) (Math_min (Int hi) (Math_max (Int lo) n)).
Proof. intro H. destruct n; simpl; [exact I | lia]. Qed.

(** Whatever the block, every field of the result that is a number at
    all is an integer inside its bounds. *)
Lemma normalizePagination_clamps (pagination : jv) :
  jtruthy pagination = true ->
  exists page pageSize pageCount total,
    normalizePagination pagination
    = JObj [("page", JNum page); ("pageSize", JNum pageSize);
            ("pageCount", JNum pageCount); ("total", JNum total)]
    /\ clamped 1 None page /\ clamped 1 (Some 100%Z) pageSize
    /\ clamped 1 None pageCount /\ clamped 0 None total.
Proof.
  intro Ht. unfold normalizePagination. rewrite Ht. cbn [negb].
  do 4 eexists. split; [reflexivity|].
  repeat split; try apply Math_max_clamped.
  all: apply (Math_min_max_clamped 1 100); lia.
Qed.

(** The example of the specification. *)
Lemma normalizePagination_example :
  normalizePagination (JObj [("page", JStr "-5"); ("pageSize", JStr "500")])
  = JObj [("page", JNum (Int 1)); ("pageSize", JNum (Int 100));
          ("pageCount", JNum (Int 1)); ("total", JNum (Int 0))].
Proof. reflexivity. Qed.

(** A missing field takes its default. *)
Lemma normalizePagination_defaults :
  normalizePagination (JObj [])
  = JObj [("page", JNum (Int 1)); ("pageSize", JNum (Int 25));
          ("pageCount", JNum (Int 1)); ("total", JNum (Int 0))].
Proof. reflexivity. Qed.

(** C8, at the failing input: a field that does not start with a
    number is parsed to [NaN], [Math.max(1, NaN)] is [NaN], and the
    page of the result is neither an integer nor at least 1. *)
Theorem normalizePagination_not_a_number :
  normalizePagination unparsable_page
  = JObj [("page", JNum NaN); ("pageSize", JNum (Int 25));
          ("pageCount", JNum (Int 1)); ("total", JNum (Int 0))].
Proof. reflexivity. Qed.

(** ** Insertion-ordered maps *)

Section OrderedMapFacts.
Context {V : Type}.
Implicit Types (m : list (string * V)) (k : string) (v : V).

Lemma omap_get_set_eq m k v : omap_get k (omap_set k v m) = Some v.
Proof.
  induction m as [|[k' v'] m IH]; simpl.
  - rewrite String.eqb_refl. reflexivity.
  - destruct (String.eqb k k') eqn:E; simpl.
    + rewrite String.eqb_refl. reflexivity.
    + rewrite E. exact IH.
Qed.

Lemma omap_get_set_neq m k k' v :
  k <> k' -> omap_get k' (omap_set k v m) = omap_get k' m.
Proof.
  intro Hne. induction m as [|[k0 v0] m IH]; simpl.
  - apply not_eq_sym, String.eqb_neq in Hne. rewrite Hne. reflexivity.
  - destruct (String.eqb k k0) eqn:E; simpl.
    + apply String.eqb_eq in E. subst k0.
      apply not_eq_sym, String.eqb_neq in Hne. rewrite Hne. reflexivity.
    + rewrite IH. reflexivity.
Qed.

Lemma omap_get_none_keys m k :
  omap_get k m = None <-> ~ In k (map fst m).
Proof.
  induction m as [|[k' v'] m IH]; simpl.
  - tauto.
  - destruct (String.eqb k k') eqn:E.
    + apply String.eqb_eq in E. subst. split; [discriminate | tauto].
    + apply String.eqb_neq in E. rewrite IH. split.
      * intros H [H1|H1]; [congruence | tauto].
      * tauto.
Qed.

Lemma omap_set_keys_fresh m k v :
  omap_get k m = None -> map fst (omap_set k v m) = map fst m ++ [k].
Proof.
  induction m as [|[k' v'] m IH]; simpl; [reflexivity|].
  destruct (String.eqb k k'); [discriminate|].
  intro H. simpl. rewrite (IH H). reflexivity.
Qed.

Lemma unique_keys_set_fresh m k v :
  unique_keys m -> omap_get k m = None -> unique_keys (omap_set k v m).
Proof.
  unfold unique_keys. intros Hm Hk.
  rewrite (omap_set_keys_fresh m k v Hk).
  apply NoDup_app; [exact Hm | repeat constructor; simpl; tauto |].
  intros x Hx [Hx'|[]]. subst x.
  apply omap_get_none_keys in Hk. tauto.
Qed.

Lemma omap_delete_keys_subset m k k' :
  In k' (map fst (omap_delete k m)) -> In k' (map fst m).
Proof.
  induction m as [|[k0 v0] m IH]; simpl; [tauto|].
  destruct (String.eqb k k0); simpl; tauto.
Qed.

Lemma unique_keys_delete m k : unique_keys m -> unique_keys (omap_delete k m).
Proof.
  unfold unique_keys.
  induction m as [|[k0 v0] m IH]; simpl; intro H; [exact H|].
  inversion H as [|? ? Hnotin Hrest]; subst.
  destruct (String.eqb k k0); [exact Hrest|].
  simpl. constructor; [|exact (IH Hrest)].
  intro Hin. apply Hnotin. exact (omap_delete_keys_subset m k k0 Hin).
Qed.

Lemma omap_get_delete_eq m k : unique_keys m -> omap_get k (omap_delete k m) = None.
Proof.
  unfold unique_keys.
  induction m as [|[k0 v0] m IH]; simpl; intro H; [reflexivity|].
  inversion H as [|? ? Hnotin Hrest]; subst.
  destruct (String.eqb k k0) eqn:E.
  - apply String.eqb_eq in E. subst k0.
    apply omap_get_none_keys. exact Hnotin.
  - simpl. rewrite E. exact (IH Hrest).
Qed.

Lemma omap_get_delete_neq m k k' :
  k <> k' -> omap_get k' (omap_delete k m) = omap_get k' m.
Proof.
  intro Hne. induction m as [|[k0 v0] m IH]; simpl; [reflexivity|].
  destruct (String.eqb k k0) eqn:E.
  - apply String.eqb_eq in E. subst k0.
    apply not_eq_sym, String.eqb_neq in Hne. rewrite Hne. reflexivity.
  - simpl. rewrite IH. reflexivity.
Qed.

Lemma unique_keys_delete_all m (ks : list string) :
  unique_keys m -> unique_keys (fold_left (fun acc k => omap_delete k acc) ks m).
Proof.
  revert m. induction ks as [|k ks IH]; intros m H; simpl; [exact H|].
  apply IH, unique_keys_delete, H.
Qed.

Lemma omap_get_delete_all_in m (ks : list string) k :
  unique_keys m -> In k ks ->
  omap_get k (fold_left (fun acc k => omap_delete k acc) ks m) = None.
Proof.
  revert m. induction ks as [|k0 ks IH]; intros m Hm Hin; simpl; [destruct Hin|].
  destruct (string_dec k0 k) as [->|Hne].
  - clear Hin. pose proof (omap_get_delete_eq m k Hm) as Hnone.
    pose proof (unique_keys_delete m k Hm) as Hu.
    revert Hnone Hu. generalize (omap_delete k m). clear.
    induction ks as [|k1 ks IH]; intros m Hnone Hu; simpl; [exact Hnone|].
    apply IH; [|apply unique_keys_delete, Hu].
    destruct (string_dec k1 k) as [->|Hne].
    + apply omap_get_delete_eq, Hu.
    + rewrite omap_get_delete_neq by exact Hne. exact Hnone.
  - destruct Hin as [Heq|Hin]; [congruence|].
    apply IH; [apply unique_keys_delete, Hm | exact Hin].
Qed.

Lemma omap_get_delete_all_notin m (ks : list string) k :
  ~ In k ks ->
  omap_get k (fold_left (fun acc k => omap_delete k acc) ks m) = omap_get k m.
Proof.
  revert m. induction ks as [|k0 ks IH]; intros m Hnotin; simpl; [reflexivity|].
  rewrite IH by (simpl in Hnotin; tauto).
  apply omap_get_delete_neq. simpl in Hnotin. tauto.
Qed.

Lemma omap_get_in m k v : omap_get k m = Some v -> In (k, v) m.
Proof.
  induction m as [|[k0 v0] m IH]; simpl; [discriminate|].
  destruct (String.eqb k k0) eqn:E.
  - apply String.eqb_eq in E. intro H. inversion H. subst. left. reflexivity.
  - intro H. right. exact (IH H).
Qed.
End OrderedMapFacts.

(** ** The identifier registry *)

Lemma val_eqb_refl (v : val) : v <> VNum NaN -> val_eqb v v = true.
Proof.
  destruct v as [| |b|n|s|l]; simpl; intro H; try reflexivity.
  - destruct b; reflexivity.
  - destruct n; simpl; [congruence | apply Z.eqb_refl].
  - apply String.eqb_refl.
  - apply Nat.eqb_refl.
Qed.

(** The forward lookup followed by the reverse one, in a registry where
    the key of the pair is free or holds the pair's own record. *)
Lemma there_and_back_same (t : Tick) (v : val) (T : string) (r : Registry) :
  recorded_as_itself r T v -> there_and_back t v T r = v.
Proof.
  unfold recorded_as_itself, there_and_back, mapV4ToV5, getMapping.
  intro H.
  destruct (omap_get (mapping_key T v) (mappings r)) as [m|] eqn:E.
  - destruct (H m eq_refl) as (Hv & HT & Hrev).
    unfold mapV5ToV4. rewrite Hrev, HT, String.eqb_refl. exact Hv.
  - unfold mapV5ToV4. cbn [reverseMappings].
    rewrite omap_get_set_eq. cbn [IdMapping.contentType IdMapping.v4Id].
    rewrite String.eqb_refl. reflexivity.
Qed.

(** C6 (as amended): when the key of [(T, v)] is free in the registry,
    or holds the record of [(T, v)] itself with its reverse entry, the
    modern identifier that [mapV4ToV5] returns is mapped back to [v] by
    [mapV5ToV4]; unless [v] is [NaN], the two are [===]. *)
Theorem mapV5ToV4_mapV4ToV5 (t : Tick) (v : val) (T : string) (r : Registry)
  (Hrec : recorded_as_itself r T v) :
  there_and_back t v T r = v
  /\ (v <> VNum NaN -> val_eqb (there_and_back t v T r) v = true).
Proof.
  rewrite (there_and_back_same t v T r Hrec).
  split; [reflexivity | apply val_eqb_refl].
Qed.

Lemma mapV5ToV4_mapV4ToV5_witness :
  recorded_as_itself registry_empty "article" (VNum (Int 7))
  /\ there_and_back tick0 (VNum (Int 7)) "article" registry_empty = VNum (Int 7).
Proof.
  assert (H : recorded_as_itself registry_empty "article" (VNum (Int 7))).
  { intros m Hm. discriminate Hm. }
  split; [exact H|].
  exact (proj1 (mapV5ToV4_mapV4ToV5 tick0 (VNum (Int 7)) "article" registry_empty H)).
Defined.

(** C6 (as stated) fails: the key is the text [T:v], so the number [7]
    finds the record that the string ['7'] left, and comes back as the
    string. *)
Lemma mapV5ToV4_mapV4ToV5_counterexample :
  there_and_back tick0 (VNum (Int 7)) "article" registry_string_seven = VStr "7"
  /\ there_and_back tick0 (VNum (Int 7)) "article" registry_string_seven
     <> VNum (Int 7).
Proof.
  assert (H : there_and_back tick0 (VNum (Int 7)) "article" registry_string_seven
              = VStr "7") by (vm_compute; reflexivity).
  split; [exact H|]. rewrite H. discriminate.
Qed.

(** *** Consistency of the two indices *)

Lemma consistent_empty : consistent (mkRegistry [] []).
Proof.
  unfold consistent, unique_keys. simpl.
  repeat split; try constructor; intros; discriminate.
Qed.

(** One record filed under a free key and a free identifier. *)
Lemma consistent_insert (r : Registry) (k : string) (m : IdMapping.t) :
  consistent r ->
  omap_get k (mappings r) = None ->
  omap_get (IdMapping.v5DocumentId m) (reverseMappings r) = None ->
  consistent
    (mkRegistry (omap_set k m (mappings r))
       (omap_set (IdMapping.v5DocumentId m) m (reverseMappings r))).
Proof.
  intros (Hu1 & Hu2 & Hf & Hr) Hk Hd.
  unfold consistent. cbn [mappings reverseMappings].
  split; [apply unique_keys_set_fresh; assumption|].
  split; [apply unique_keys_set_fresh; assumption|].
  split.
  - intros k' m' Hget.
    destruct (string_dec k k') as [->|Hne].
    + rewrite omap_get_set_eq in Hget. inversion Hget. subst m'.
      apply omap_get_set_eq.
    + rewrite omap_get_set_neq in Hget by exact Hne.
      pose proof (Hf k' m' Hget) as Hrev.
      rewrite omap_get_set_neq; [exact Hrev|].
      intro Heq. rewrite Heq in Hd. congruence.
  - intros d m' Hget.
    destruct (string_dec (IdMapping.v5DocumentId m) d) as [Heq|Hne].
    + rewrite <- Heq in Hget. rewrite omap_get_set_eq in Hget.
      inversion Hget. subst m'. split; [exact Heq|].
      exists k. apply omap_get_set_eq.
    + rewrite omap_get_set_neq in Hget by exact Hne.
      destruct (Hr d m' Hget) as (Hd' & k' & Hk').
      split; [exact Hd'|]. exists k'.
      rewrite omap_get_set_neq; [exact Hk'|].
      intro Heq. subst k'. congruence.
Qed.

Lemma consistent_mapV4ToV5 (t : Tick) (v : val) (T : string) (r : Registry) :
  consistent r ->
  (hasMapping v T r = false ->
   omap_get (generateDocumentId t v T) (reverseMappings r) = None) ->
  consistent (snd (mapV4ToV5 t v T r)).
Proof.
  intros Hc Hfresh. unfold mapV4ToV5, hasMapping, omap_has in *.
  destruct (omap_get (mapping_key T v) (mappings r)) eqn:E; [exact Hc|].
  cbn [snd].
  exact (consistent_insert r (mapping_key T v)
           (IdMapping.mk v (generateDocumentId t v T) T (now_iso t))
           Hc E (Hfresh eq_refl)).
Qed.

Lemma in_selected_keys (P : IdMapping.t -> bool) (m : list (string * IdMapping.t))
  (k : string) :
  unique_keys m ->
  (In k (map fst (filter (fun e => P (snd e)) m))
   <-> exists x, omap_get k m = Some x /\ P x = true).
Proof.
  unfold unique_keys.
  induction m as [|[k0 x0] m IH]; simpl; intro Hu.
  - split; [tauto | intros (x & H & _); discriminate].
  - inversion Hu as [|? ? Hnotin Hrest]; subst.
    destruct (String.eqb k k0) eqn:E.
    + apply String.eqb_eq in E. subst k0.
      destruct (P x0) eqn:EP; simpl.
      * split; [intros _; exists x0; tauto | tauto].
      * split.
        -- intro Hin. exfalso. apply Hnotin.
           clear - Hin. induction m as [|[k1 x1] m IH]; simpl in *; [tauto|].
           destruct (P x1); simpl in *; tauto.
        -- intros (x & Hx & HP). inversion Hx. subst. congruence.
    + apply String.eqb_neq in E.
      destruct (P x0); simpl; rewrite (IH Hrest); split; try tauto.
      intros [Heq|H]; [congruence | exact H].
Qed.

Lemma in_selected_documentIds (P : IdMapping.t -> bool)
  (m : list (string * IdMapping.t)) (d : string) :
  In d (map (fun e => IdMapping.v5DocumentId (snd e))
          (filter (fun e => P (snd e)) m))
  -> exists k x, In (k, x) m /\ P x = true /\ IdMapping.v5DocumentId x = d.
Proof.
  induction m as [|[k0 x0] m IH]; simpl; [tauto|].
  destruct (P x0) eqn:EP; simpl.
  - intros [Heq|Hin].
    + exists k0, x0. tauto.
    + destruct (IH Hin) as (k & x & H1 & H2 & H3). exists k, x. tauto.
  - intro Hin. destruct (IH Hin) as (k & x & H1 & H2 & H3). exists k, x. tauto.
Qed.

Lemma in_unique_get {V : Type} (m : list (string * V)) (k : string) (v : V) :
  unique_keys m -> In (k, v) m -> omap_get k m = Some v.
Proof.
  unfold unique_keys.
  induction m as [|[k0 v0] m IH]; simpl; intros Hu Hin; [destruct Hin|].
  inversion Hu as [|? ? Hnotin Hrest]; subst.
  destruct Hin as [Heq|Hin].
  - inversion Heq. subst. rewrite String.eqb_refl. reflexivity.
  - destruct (String.eqb k k0) eqn:E.
    + apply String.eqb_eq in E. subst k0. exfalso. apply Hnotin.
      apply (in_map fst) in Hin. exact Hin.
    + exact (IH Hrest Hin).
Qed.

Lemma selected_documentId_in (P : IdMapping.t -> bool)
  (m : list (string * IdMapping.t)) (k : string) (x : IdMapping.t) :
  In (k, x) m -> P x = true ->
  In (IdMapping.v5DocumentId x)
    (map (fun e => IdMapping.v5DocumentId (snd e))
       (filter (fun e => P (snd e)) m)).
Proof.
  intros Hin HP.
  apply (in_map (fun e => IdMapping.v5DocumentId (snd e)) _ (k, x)).
  apply filter_In. split; [exact Hin | exact HP].
Qed.

Lemma consistent_clearMappingsForContentType (T : string) (r : Registry) :
  consistent r -> consistent (clearMappingsForContentType T r).
Proof.
  intros (Hu1 & Hu2 & Hf & Hr).
  unfold consistent, clearMappingsForContentType. cbn [mappings reverseMappings].
  set (P := fun x : IdMapping.t => String.eqb (IdMapping.contentType x) T).
  set (keys := map fst (filter (fun e => P (snd e)) (mappings r))).
  set (docs := map (fun e => IdMapping.v5DocumentId (snd e))
                 (filter (fun e => P (snd e)) (mappings r))).
  assert (Hkept : forall k m,
             omap_get k (fold_left (fun acc key => omap_delete key acc) keys
                           (mappings r)) = Some m ->
             omap_get k (mappings r) = Some m /\ P m = false).
  { intros k m Hget.
    destruct (in_dec string_dec k keys) as [Hin|Hnotin].
    - rewrite omap_get_delete_all_in in Hget by assumption. discriminate.
    - rewrite omap_get_delete_all_notin in Hget by assumption.
      split; [exact Hget|].
      destruct (P m) eqn:EP; [|reflexivity].
      exfalso. apply Hnotin. apply (in_selected_keys P); [exact Hu1|].
      exists m. tauto. }
  split; [apply unique_keys_delete_all, Hu1|].
  split; [apply unique_keys_delete_all, Hu2|].
  split.
  - intros k m Hget. destruct (Hkept k m Hget) as (Hget0 & HP).
    rewrite omap_get_delete_all_notin; [exact (Hf k m Hget0)|].
    intro Hin. apply (in_selected_documentIds P) in Hin as (k' & x & Hin & HPx & Hd).
    apply (in_unique_get _ _ _ Hu1) in Hin.
    pose proof (Hf k' x Hin) as Hrevx. rewrite Hd in Hrevx.
    rewrite (Hf k m Hget0) in Hrevx. inversion Hrevx. subst x. congruence.
  - intros d m Hget.
    destruct (in_dec string_dec d docs) as [Hin|Hnotin].
    + rewrite omap_get_delete_all_in in Hget by assumption. discriminate.
    + rewrite omap_get_delete_all_notin in Hget by assumption.
      destruct (Hr d m Hget) as (Hd & k & Hk).
      split; [exact Hd|]. exists k.
      rewrite omap_get_delete_all_notin; [exact Hk|].
      intro Hin. apply (in_selected_keys P) in Hin as (x & Hx & HPx); [|exact Hu1].
      rewrite Hk in Hx. inversion Hx. subst x.
      apply Hnotin. subst d.
      apply (selected_documentId_in P (mappings r) k m); [|exact HPx].
      apply omap_get_in. exact Hk.
Qed.

Lemma consistent_import_loop (items : list ExportItem) (r : Registry) :
  consistent r ->
  NoDup (map key items) ->
  NoDup (map (fun i => IdMapping.v5DocumentId (mapping i)) items) ->
  (forall i, In i items ->
     omap_get (key i) (mappings r) = None
     /\ omap_get (IdMapping.v5DocumentId (mapping i)) (reverseMappings r) = None) ->
  consistent
    (fold_left
       (fun reg item =>
          mkRegistry
            (omap_set (key item) (mapping item) (mappings reg))
            (omap_set (IdMapping.v5DocumentId (mapping item)) (mapping item)
               (reverseMappings reg)))
       items r).
Proof.
  revert r. induction items as [|i items IH]; intros r Hc Hk Hd Hfree; simpl.
  - exact Hc.
  - inversion Hk as [|? ? Hk1 Hk2]; subst. inversion Hd as [|? ? Hd1 Hd2]; subst.
    destruct (Hfree i (or_introl eq_refl)) as (Hfk & Hfd).
    apply IH; [apply consistent_insert; assumption | assumption | assumption |].
    intros j Hj. destruct (Hfree j (or_intror Hj)) as (Hjk & Hjd).
    cbn [mappings reverseMappings]. split.
    + rewrite omap_get_set_neq; [exact Hjk|].
      intro Heq. apply Hk1. rewrite Heq. apply in_map. exact Hj.
    + rewrite omap_get_set_neq; [exact Hjd|].
      intro Heq. apply Hd1. rewrite Heq.
      apply (in_map (fun i => IdMapping.v5DocumentId (mapping i))). exact Hj.
Qed.

Lemma consistent_importMappings (items : list ExportItem) (r : Registry) :
  NoDup (map key items) ->
  NoDup (map (fun i => IdMapping.v5DocumentId (mapping i)) items) ->
  consistent (fst (importMappings (ParsedArray items) r)).
Proof.
  intros Hk Hd. cbn [importMappings fst].
  apply consistent_import_loop; try assumption.
  - apply consistent_empty.
  - intros i _. split; reflexivity.
Qed.

Lemma consistent_resolves (r : Registry) : consistent r -> resolves r.
Proof.
  intros (_ & _ & Hf & _) k m Hget. unfold mapV5ToV4.
  rewrite (Hf k m Hget), String.eqb_refl. reflexivity.
Qed.

(** C7 (as amended): from a registry whose indices agree, the insertion
    of [mapV4ToV5] (when the identifier it synthesises is not in use),
    [clearMappings], [clearMappingsForContentType], and [importMappings]
    of an array whose keys, and whose identifiers, are pairwise distinct,
    each leave a registry whose indices agree; in such a registry the
    reverse lookup of a recorded identifier gives the record's legacy
    identifier. *)
Theorem registry_operations_keep_consistency
  (r : Registry) (t : Tick) (v : val) (T : string) (items : list ExportItem)
  (Hr : consistent r)
  (Hfresh : hasMapping v T r = false ->
            omap_get (generateDocumentId t v T) (reverseMappings r) = None)
  (Hkeys : NoDup (map key items))
  (Hdocs : NoDup (map (fun i => IdMapping.v5DocumentId (mapping i)) items)) :
  (consistent (snd (mapV4ToV5 t v T r))
   /\ resolves (snd (mapV4ToV5 t v T r)))
  /\ (consistent (clearMappings r) /\ resolves (clearMappings r))
  /\ (consistent (clearMappingsForContentType T r)
      /\ resolves (clearMappingsForContentType T r))
  /\ (consistent (fst (importMappings (ParsedArray items) r))
      /\ resolves (fst (importMappings (ParsedArray items) r))).
Proof.
  pose proof (consistent_mapV4ToV5 t v T r Hr Hfresh) as H1.
  pose proof consistent_empty as H2.
  pose proof (consistent_clearMappingsForContentType T r Hr) as H3.
  pose proof (consistent_importMappings items r Hkeys Hdocs) as H4.
  split; [split; [exact H1 | exact (consistent_resolves _ H1)]|].
  split; [split; [exact H2 | exact (consistent_resolves _ H2)]|].
  split; [split; [exact H3 | exact (consistent_resolves _ H3)]|].
  split; [exact H4 | exact (consistent_resolves _ H4)].
Qed.

Lemma registry_operations_keep_consistency_witness :
  consistent (fst (importMappings (ParsedArray two_records) registry_empty))
  /\ resolves (clearMappingsForContentType "article" registry_empty).
Proof.
  assert (Hr : consistent registry_empty) by apply consistent_empty.
  assert (Hfresh : hasMapping (VNum (Int 1)) "article" registry_empty = false ->
                   omap_get (generateDocumentId tick0 (VNum (Int 1)) "article")
                     (reverseMappings registry_empty) = None)
    by (intros _; reflexivity).
  assert (Hkeys : NoDup (map key two_records)).
  { repeat constructor; simpl; intuition discriminate. }
  assert (Hdocs : NoDup (map (fun i => IdMapping.v5DocumentId (mapping i))
                           two_records)).
  { repeat constructor; simpl; intuition discriminate. }
  pose proof (registry_operations_keep_consistency registry_empty tick0
                (VNum (Int 1)) "article" two_records Hr Hfresh Hkeys Hdocs) as H.
  split; [exact (proj1 (proj2 (proj2 (proj2 H)))) | exact (proj2 (proj1 (proj2 (proj2 H))))].
Defined.

(** C7 (as stated) fails for [importMappings]: it files whatever the
    array holds. With two records under one identifier the reverse index
    keeps the second, and the reverse lookup of the first record's
    identifier gives the legacy identifier of the second. *)
Lemma importMappings_breaks_consistency :
  consistent registry_empty
  /\ getMapping (VNum (Int 1)) "article"
       (fst (importMappings (ParsedArray twin_records) registry_empty))
     = Some (IdMapping.mk (VNum (Int 1)) "doc_a" "article" "2023-11-14T22:13:20.000Z")
  /\ mapV5ToV4 "doc_a" "article"
       (fst (importMappings (ParsedArray twin_records) registry_empty))
     = VNum (Int 2)
  /\ ~ resolves (fst (importMappings (ParsedArray twin_records) registry_empty))
  /\ ~ consistent (fst (importMappings (ParsedArray twin_records) registry_empty)).
Proof.
  assert (Hres : ~ resolves
                   (fst (importMappings (ParsedArray twin_records) registry_empty))).
  { intro H.
    specialize (H "article:1"
                  (IdMapping.mk (VNum (Int 1)) "doc_a" "article"
                     "2023-11-14T22:13:20.000Z") eq_refl).
    vm_compute in H. discriminate H. }
  split; [apply consistent_empty|].
  split; [reflexivity|].
  split; [reflexivity|].
  split; [exact Hres|].
  intro Hc. exact (Hres (consistent_resolves _ Hc)).
Qed.

(** ** The transformer leaves the objects it is given as they are *)

Lemma extends_refl (st : state) : extends st st.
Proof. exists []. rewrite app_nil_r. reflexivity. Qed.

Lemma extends_trans (a b c : state) : extends a b -> extends b c -> extends a c.
Proof.
  intros [s1 H1] [s2 H2]. exists (s1 ++ s2).
  rewrite H2, H1, app_assoc. reflexivity.
Qed.

Lemma extends_same_objects (a b : state) : objects b = objects a -> extends a b.
Proof. intro H. exists []. rewrite app_nil_r. exact H. Qed.

Lemma extends_nth_error (a b : state) (l : loc) (o : obj) :
  extends a b -> nth_error (objects a) l = Some o ->
  nth_error (objects b) l = Some o.
Proof.
  intros [s H] Hn. rewrite H. rewrite nth_error_app1; [exact Hn|].
  apply nth_error_Some. congruence.
Qed.

Lemma extends_length (a b : state) :
  extends a b -> List.length (objects a) <= List.length (objects b).
Proof. intros [s H]. rewrite H, length_app. lia. Qed.

Lemma grows_ret {A : Type} (a : A) : grows (ret a).
Proof. intro st. apply extends_refl. Qed.

Lemma grows_throw {A : Type} (msg : string) : grows (@throw A msg).
Proof. intro st. apply extends_refl. Qed.

Lemma grows_out_of_fuel {A : Type} : grows (@out_of_fuel A).
Proof. intro st. exact I. Qed.

Lemma grows_bind {A B : Type} (m : M A) (f : A -> M B) :
  grows m -> (forall a, grows (f a)) -> grows (bind m f).
Proof.
  intros Hm Hf st. unfold bind. specialize (Hm st).
  destruct (m st) as [a st'| |]; try assumption.
  specialize (Hf a st'). destruct (f a st'); try exact I;
    eapply extends_trans; eassumption.
Qed.

Lemma grows_get_heap : grows get_heap.
Proof. intro st. apply extends_refl. Qed.

Lemma grows_alloc (o : obj) : grows (alloc o).
Proof. intro st. exists [o]. reflexivity. Qed.

Lemma grows_console_warn (msg : string) : grows (console_warn msg).
Proof. intro st. apply extends_same_objects. reflexivity. Qed.

Lemma grows_IdMapper_mapV4ToV5 (v : val) (T : string) :
  grows (IdMapper_mapV4ToV5 v T).
Proof.
  intro st. unfold IdMapper_mapV4ToV5.
  destruct (mapV4ToV5 _ v T (idmap st)). apply extends_same_objects. reflexivity.
Qed.

Lemma grows_IdMapper_mapV5ToV4 (v : val) (T : string) :
  grows (IdMapper_mapV5ToV4 v T).
Proof. intro st. unfold IdMapper_mapV5ToV4. destruct v; apply extends_refl. Qed.

Lemma grows_mapM {A B : Type} (f : A -> M B) (l : list A) :
  (forall x, grows (f x)) -> grows (mapM f l).
Proof.
  intro Hf. induction l as [|x l IH]; simpl.
  - apply grows_ret.
  - apply grows_bind; [apply Hf|]. intro y.
    apply grows_bind; [exact IH|]. intro ys. apply grows_ret.
Qed.

Lemma grows_rewrite_objects (g : val -> M val) (ps : list (string * val)) :
  (forall v, grows (g v)) -> grows (rewrite_objects g ps).
Proof.
  intro Hg. induction ps as [|[k v] ps IH]; simpl.
  - apply grows_ret.
  - apply grows_bind.
    + destruct (truthy v && is_object v); [apply Hg | apply grows_ret].
    + intro v'. apply grows_bind; [exact IH|]. intro r. apply grows_ret.
Qed.

Lemma grows_array_map (f : val -> M val) (a : val) :
  (forall x, grows (f x)) -> grows (array_map f a).
Proof.
  intro Hf. unfold array_map.
  apply grows_bind; [apply grows_get_heap|]. intro h.
  apply grows_bind; [apply grows_mapM, Hf|]. intro items. apply grows_alloc.
Qed.

Lemma grows_finally {A : Type} (m : M A) (cleanup : state -> state) :
  (forall s, objects (cleanup s) = objects s) -> grows m ->
  forall st st0, objects st = objects st0 ->
    match finally m cleanup st with
    | Ret _ st' => extends st0 st'
    | Throw _ st' => extends st0 st'
    | OutOfFuel => True
    end.
Proof.
  intros Hc Hm st st0 Heq. unfold finally. specialize (Hm st).
  destruct (m st) as [a st'|e st'|]; try exact I;
    destruct Hm as [s Hs]; exists s; rewrite Hc, Hs, Heq; reflexivity.
Qed.

Ltac grow :=
  repeat first
    [ apply grows_ret
    | apply grows_throw
    | apply grows_out_of_fuel
    | apply grows_get_heap
    | apply grows_alloc
    | apply grows_console_warn
    | apply grows_IdMapper_mapV4ToV5
    | apply grows_IdMapper_mapV5ToV4
    | apply grows_bind
    | apply grows_array_map
    | apply grows_rewrite_objects
    | apply grows_mapM
    | match goal with
      | |- forall _, _ => intro
      | |- grows (if ?c then _ else _) => destruct c
      | |- grows (match ?x with V4 => _ | V5 => _ end) => destruct x
      end
    | solve [auto] ].

Lemma grows_transformMedia (media : val) (s t : StrapiFormat) :
  grows (transformMedia media s t).
Proof.
  unfold transformMedia, transformV4MediaToV5, transformV5MediaToV4. grow.
Qed.

(** Every method of the transformer only adds objects. *)
Lemma transformer_grows (fuel : nat) :
  (forall data s t options, grows (transform fuel data s t options))
  /\ (forall data options, grows (transformV4ToV5 fuel data options))
  /\ (forall item options, grows (transformV4ItemToV5 fuel item options))
  /\ (forall data options, grows (transformV5ToV4 fuel data options))
  /\ (forall item options, grows (transformV5ItemToV4 fuel item options))
  /\ (forall data s t options, grows (transformNestedData fuel data s t options))
  /\ (forall data s t options, grows (transformRelationData fuel data s t options)).
Proof.
  induction fuel as [|fuel (IHt & IH45 & IH45i & IH54 & IH54i & IHn & IHr)].
  - repeat split; intros; simpl; apply grows_out_of_fuel.
  - pose proof grows_transformMedia as Hmedia.
    split; [|repeat split; intros; simpl; grow].
    intros data s t options. simpl.
    destruct (format_eqb s t); [grow|].
    destruct (Z.ltb MAX_DEPTH _); [grow|].
    assert (Hbody : grows
              match s, t with
              | V4, V5 => transformV4ToV5 fuel data (transform_defaults options)
              | V5, V4 => transformV5ToV4 fuel data (transform_defaults options)
              | _, _ => ret data
              end) by (destruct s, t; grow).
    intro st.
    destruct data as [| | | | |l];
      try (specialize (Hbody st); destruct s, t; exact Hbody).
    destruct (cache_has (CIRCULAR_REF_CACHE st) l).
    + revert st. grow.
    + apply grows_finally; [reflexivity | exact Hbody | reflexivity].
Qed.

Lemma transform_grows (fuel : nat) data s t options :
  grows (transform fuel data s t options).
Proof. apply transformer_grows. Qed.

(** ** A relation that leads back to its own item *)

Lemma prop_of_object (h : heap) (l : loc) (ps : list (string * val))
  (k : string) (v : val) :
  nth_error h l = Some (Obj ps) -> omap_get k ps = Some v ->
  prop h (VRef l) k = v.
Proof. intros Hn Hk. unfold prop, obj_at. rewrite Hn, Hk. reflexivity. Qed.

Lemma own_props_of_object (h : heap) (l : loc) (ps : list (string * val)) :
  nth_error h l = Some (Obj ps) -> own_props h (VRef l) = ps.
Proof. intro Hn. unfold own_props, obj_at. rewrite Hn. reflexivity. Qed.

Lemma is_array_of_object (h : heap) (l : loc) (ps : list (string * val)) :
  nth_error h l = Some (Obj ps) -> is_array h (VRef l) = false.
Proof. intro Hn. unfold is_array, obj_at. rewrite Hn. reflexivity. Qed.

Lemma omap_get_assign {V : Type} (base ps : list (string * V)) (k : string) (v : V) :
  unique_keys ps -> omap_get k ps = Some v ->
  omap_get k (omap_assign base ps) = Some v.
Proof.
  unfold omap_assign, unique_keys. revert base.
  induction ps as [|[k0 v0] ps IH]; intros base Hu Hget; [discriminate|].
  simpl in *. inversion Hu as [|? ? Hnotin Hrest]; subst.
  destruct (String.eqb k k0) eqn:E.
  - apply String.eqb_eq in E. subst k0. inversion Hget. subst v0.
    clear IH Hget Hu. pose proof (omap_get_set_eq base k v) as H.
    revert H. generalize (omap_set k v base). clear base.
    induction ps as [|[k1 v1] ps IH]; intros m H; simpl; [exact H|].
    inversion Hrest; subst.
    apply IH; [simpl in Hnotin; tauto | assumption |].
    rewrite omap_get_set_neq; [exact H|].
    simpl in Hnotin. intro Heq. apply Hnotin. left. exact Heq.
  - apply IH; assumption.
Qed.

(** A loop over the keys does not come back when the call for one key,
    a key that holds an object, never does. *)
Lemma rewrite_objects_stuck (g : val -> M val) (ps : list (string * val))
  (k : string) (l : loc) (st0 : state) :
  omap_get k ps = Some (VRef l) ->
  (forall v, grows (g v)) ->
  (forall st, extends st0 st -> ~ returns (g (VRef l) st)) ->
  forall st, extends st0 st -> ~ returns (rewrite_objects g ps st).
Proof.
  intros Hget Hgrow Hstuck.
  induction ps as [|[k0 v0] ps IH]; intros st Hext; [discriminate|].
  simpl in Hget. simpl. unfold bind at 1.
  destruct (String.eqb k k0) eqn:E.
  - inversion Hget. subst v0. cbn [truthy is_object andb].
    pose proof (Hstuck st Hext) as Hs.
    destruct (g (VRef l) st); simpl in *; tauto.
  - assert (Hstep : grows (if truthy v0 && is_object v0 then g v0 else ret v0))
      by (destruct (truthy v0 && is_object v0); [apply Hgrow | apply grows_ret]).
    specialize (Hstep st).
    destruct ((if truthy v0 && is_object v0 then g v0 else ret v0) st)
      as [v' st'| |]; try (simpl; tauto).
    unfold bind. specialize (IH Hget st' (extends_trans _ _ _ Hext Hstep)).
    destruct (rewrite_objects g ps st'); simpl in *; tauto.
Qed.

Lemma self_relation_extends (st st' : state) (a : loc) (field : string) :
  extends st st' -> self_relation (objects st) a field ->
  self_relation (objects st') a field.
Proof.
  intros Hext (pa & pb & pc & b & c & idv & Ha & Hb & Hc & H).
  exists pa, pb, pc, b, c, idv.
  repeat split; try (eapply extends_nth_error; eassumption); tauto.
Qed.

(** The item conversion of a self-related item does not come back,
    whatever stack it is given. *)
Lemma transformV4ItemToV5_self_relation (a : loc) (field : string) (fuel : nat) :
  forall st options,
    self_relation (objects st) a field ->
    ~ returns (transformV4ItemToV5 fuel (VRef a) options st).
Proof.
  induction fuel as [fuel IH] using lt_wf_ind. intros st options Hself.
  destruct fuel as [|f1]; [simpl; tauto|].
  pose proof Hself as (pa & pb & pc & b & c & idv & Ha & Hb & Hc & Hid & Hidt
                       & Hattr & Hu & Hfield & Hne & Hdata).
  cbn [transformV4ItemToV5 truthy is_object negb orb].
  unfold bind at 1. cbn [get_heap].
  rewrite (prop_of_object _ _ _ _ _ Ha Hid), (prop_of_object _ _ _ _ _ Ha Hattr).
  rewrite Hidt. cbn [truthy andb].
  rewrite (own_props_of_object _ _ _ Hb).
  unfold bind at 1.
  pose proof (grows_IdMapper_mapV4ToV5 idv (TOpts.contentType options) st) as Hg1.
  destruct (IdMapper_mapV4ToV5 idv (TOpts.contentType options) st)
    as [documentId st1| |] eqn:E1; try (simpl; tauto).
  unfold bind at 1.
  set (result := if TOpts.preserveOriginalId options
                 then omap_set "id" idv
                        (omap_assign [("documentId", VStr documentId)] pb)
                 else omap_assign [("documentId", VStr documentId)] pb).
  assert (Hres : omap_get field result = Some (VRef c)).
  { pose proof (omap_get_assign [("documentId", VStr documentId)] pb field
                  (VRef c) Hu Hfield) as H0.
    unfold result. destruct (TOpts.preserveOriginalId options); [|exact H0].
    rewrite omap_get_set_neq; [exact H0 | congruence]. }
  assert (Hstuck : ~ returns
            (rewrite_objects
               (fun v => transformNestedData f1 v V4 V5 (TOpts.deeper options))
               result st1)).
  { apply (rewrite_objects_stuck _ result field c st1 Hres).
    - intro v. apply transformer_grows.
    - intros st2 Hext2.
      pose proof (self_relation_extends _ _ a field
                    (extends_trans _ _ _ Hg1 Hext2) Hself) as Hself2.
      destruct Hself2 as (pa2 & pb2 & pc2 & b2 & c2 & idv2 & Ha2 & Hb2 & Hc2 & Hid2
                          & Hidt2 & Hattr2 & Hu2 & Hfield2 & Hne2 & Hdata2).
      assert (Hc' : nth_error (objects st2) c = Some (Obj pc)).
      { eapply extends_nth_error; [exact (extends_trans _ _ _ Hg1 Hext2) | exact Hc]. }
      destruct f1 as [|f2]; [simpl; tauto|].
      cbn [transformNestedData truthy negb]. unfold bind at 1. cbn [get_heap].
      unfold isRelationData. cbn [truthy is_object negb orb].
      rewrite (prop_of_object _ _ _ _ _ Hc' Hdata). cbn [defined].
      destruct f2 as [|f3]; [simpl; tauto|].
      cbn [transformRelationData truthy negb]. unfold bind at 1. cbn [get_heap].
      rewrite (prop_of_object _ _ _ _ _ Hc' Hdata). cbn [truthy].
      rewrite (is_array_of_object _ _ _ Ha2).
      apply IH; [lia|].
      exists pa2, pb2, pc2, b2, c2, idv2. tauto.
    - apply extends_refl. }
  destruct (rewrite_objects _ result st1); simpl in *; tauto.
Qed.

(** C1, on every self-related item: [transform] gives neither the
    circular-reference marker nor any other value, however deep the
    stack. The relation is handed to [transformV4ItemToV5] directly,
    which consults neither the set of objects in progress nor the depth;
    the recursion does not end. *)
Theorem transform_self_relation_never_returns
  (fuel : nat) (st : state) (a : loc) (field : string)
  (options : TransformationOptions.t)
  (Hself : self_relation (objects st) a field)
  (Hcache : cache_has (CIRCULAR_REF_CACHE st) a = false)
  (Hdepth : (TOpts.depth (transform_defaults options) <= MAX_DEPTH)%Z) :
  ~ returns (transform fuel (VRef a) V4 V5 options st).
Proof.
  destruct fuel as [|f1]; [simpl; tauto|].
  cbn [transform format_eqb].
  apply Z.ltb_ge in Hdepth. rewrite Hdepth. rewrite Hcache.
  unfold finally.
  set (st1 := with_cache (cache_add (CIRCULAR_REF_CACHE st) a) st).
  assert (Hself1 : self_relation (objects st1) a field) by exact Hself.
  destruct f1 as [|f2]; [simpl; tauto|].
  cbn [transformV4ToV5 truthy negb]. unfold bind at 1. cbn [get_heap].
  destruct Hself1 as (pa & pb & pc & b & c & idv & Ha & Hrest).
  rewrite (is_array_of_object _ _ _ Ha).
  pose proof (transformV4ItemToV5_self_relation a field f2 st1
                (transform_defaults options)) as H.
  destruct (transformV4ItemToV5 f2 (VRef a) (transform_defaults options) st1);
    simpl in *; tauto.
Qed.

Lemma transform_self_relation_never_returns_witness :
  ~ returns (transform 1000 (VRef 0) V4 V5 TransformationOptions.empty
               (fresh_state self_related_heap)).
Proof.
  apply (transform_self_relation_never_returns 1000
           (fresh_state self_related_heap) 0 "self" TransformationOptions.empty).
  - exists [("id", VNum (Int 1)); ("attributes", VRef 1)],
      [("self", VRef 2)], [("data", VRef 0)], 1, 2, (VNum (Int 1)).
    repeat split; try reflexivity.
    + repeat constructor. simpl. tauto.
    + discriminate.
  - reflexivity.
  - vm_compute. discriminate.
Defined.

(** The guard of [transform] on an object that holds itself directly:
    the inner call finds the object in progress and gives the marker,
    and the set is empty again when the outer call is over. *)
Lemma transform_direct_cycle_marked :
  match transform 10 (VRef 0) V4 V5 TransformationOptions.empty
          (fresh_state direct_cycle_heap) with
  | Ret result st' =>
      prop (objects st') (prop (objects st') result "self") "__circular_ref"
      = VBool true
      /\ CIRCULAR_REF_CACHE st' = []
  | _ => False
  end.
Proof. vm_compute. split; reflexivity. Qed.

(** ** The depth guard *)

(** Beyond the maximum depth [transform] gives its argument back and
    logs a warning. *)
Lemma transform_beyond_max_depth (fuel : nat) (data : val)
  (s t : StrapiFormat) (options : TransformationOptions.t) (st : state) :
  format_eqb s t = false ->
  (MAX_DEPTH < TOpts.depth (transform_defaults options))%Z ->
  transform (S fuel) data s t options st
  = Ret data
      (warned "[DataTransformer] Max depth (10) reached, stopping transformation" st).
Proof.
  intros Hst Hdepth. cbn [transform]. rewrite Hst.
  apply Z.ltb_lt in Hdepth. rewrite Hdepth. reflexivity.
Qed.

(** Items nested directly in one another go through [transform] at
    every level: of 20 levels, those at depth 0 to 10 are converted,
    the rest is returned as it was, with one warning. *)
Lemma nested_chain_cut_at_max_depth :
  match transform 100 (VRef 0) V4 V5 TransformationOptions.empty
          (fresh_state (nested_chain 0 20)) with
  | Ret result st' =>
      converted_levels 30 (objects st') result = 11
      /\ console st'
         = ["[DataTransformer] Max depth (10) reached, stopping transformation"]
  | _ => False
  end.
Proof. vm_compute. split; reflexivity. Qed.

(** C3, at the failing input: of a chain of 20 items related through
    [{ data: ... }] wrappers, all 20 levels are converted and no warning
    is logged. A relation is handed to [transformV4ItemToV5] directly,
    so the depth that the options carry is never compared with the
    maximum. *)
Theorem relation_chain_converted_past_max_depth :
  match transform 100 (VRef 0) V4 V5 TransformationOptions.empty
          (fresh_state (relation_chain 0 20)) with
  | Ret result st' =>
      converted_levels 30 (objects st') result = 20
      /\ console st' = []
  | _ => False
  end.
Proof. vm_compute. split; reflexivity. Qed.

(** ** Batches *)

Lemma mapM_each_transformed (fuel : nat) (s t : StrapiFormat)
  (options : TransformationOptions.t) (items results : list val)
  (st st' : state) :
  mapM (fun item => transform fuel item s t options) items st = Ret results st'
  <-> each_transformed fuel s t options st items results st'.
Proof.
  revert results st. induction items as [|item items IH]; intros results st; simpl.
  - unfold ret. split.
    + intro H. inversion H. subst. constructor.
    + intro H. inversion H. subst. reflexivity.
  - unfold bind at 1. split.
    + intro H.
      destruct (transform fuel item s t options st) as [y st1| |] eqn:E1;
        try discriminate H.
      unfold bind at 1 in H.
      destruct (mapM _ items st1) as [ys st2| |] eqn:E2; try discriminate H.
      unfold ret in H. inversion H. subst.
      econstructor; [exact E1 | apply IH; exact E2].
    + intro H. inversion H as [|? ? y st1 ? ys ? E1 Hrest]; subst.
      rewrite E1. unfold bind at 1. apply IH in Hrest. rewrite Hrest. reflexivity.
Qed.

Lemma array_map_run (f : val -> M val) (a : val) (st : state) :
  array_map f a st
  = match mapM f (elements (objects st) a) st with
    | Ret items st' =>
        Ret (VRef (List.length (objects st')))
          (with_objects (objects st' ++ [Arr items]) st')
    | Throw e st' => Throw e st'
    | OutOfFuel => OutOfFuel
    end.
Proof. reflexivity. Qed.

Lemma batchTransform_run (fuel : nat) (items : val) (s t : StrapiFormat)
  (options : TransformationOptions.t) (st : state) :
  batchTransform fuel items s t options st
  = if is_array (objects st) items
    then array_map (fun item => transform fuel item s t options) items st
    else Throw "batchTransform requires an array of items" st.
Proof.
  unfold batchTransform, bind, get_heap.
  destruct (is_array (objects st) items); reflexivity.
Qed.

(** C9 (as amended): [batchTransform] throws its own error exactly on
    an argument that is not an array; on an array it calls [transform]
    on each element in order and, when each call returns, returns a new
    array of the results. What it does when a call of [transform] does
    not return is left open. *)
Theorem batchTransform_contract (fuel : nat) (items : val)
  (s t : StrapiFormat) (options : TransformationOptions.t) (st : state) :
  (is_array (objects st) items = false ->
   batchTransform fuel items s t options st
   = Throw "batchTransform requires an array of items" st)
  /\ (is_array (objects st) items = true ->
      forall results st',
        each_transformed fuel s t options st (elements (objects st) items)
          results st' ->
        batchTransform fuel items s t options st
        = Ret (VRef (List.length (objects st')))
            (with_objects (objects st' ++ [Arr results]) st'))
  /\ (forall v st'',
        batchTransform fuel items s t options st = Ret v st'' ->
        is_array (objects st) items = true
        /\ exists results st',
             each_transformed fuel s t options st (elements (objects st) items)
               results st'
             /\ v = VRef (List.length (objects st'))
             /\ st'' = with_objects (objects st' ++ [Arr results]) st').
Proof.
  rewrite batchTransform_run, array_map_run.
  destruct (is_array (objects st) items) eqn:Ea.
  - split; [discriminate|]. split.
    + intros _ results st' Heach. apply mapM_each_transformed in Heach.
      rewrite Heach. reflexivity.
    + intros v st'' H. split; [reflexivity|].
      destruct (mapM _ (elements (objects st) items) st) as [results st'| |] eqn:E;
        try discriminate H.
      inversion H. subst.
      exists results, st'. repeat split. apply mapM_each_transformed. exact E.
  - split; [reflexivity|]. split; [discriminate|].
    intros v st'' H. discriminate H.
Qed.

Lemma batchTransform_contract_witness :
  is_array (objects (fresh_state small_batch_heap)) (VRef 0) = true
  /\ returns (batchTransform 10 (VRef 0) V4 V5 TransformationOptions.empty
                (fresh_state small_batch_heap)).
Proof.
  split; [reflexivity|].
  assert (R1 : returns (transform 10 (VRef 1) V4 V5 TransformationOptions.empty
                          (fresh_state small_batch_heap)))
    by (vm_compute; exact I).
  destruct (transform 10 (VRef 1) V4 V5 TransformationOptions.empty
              (fresh_state small_batch_heap)) as [r1 st1| |] eqn:E1;
    try contradiction.
  assert (E2 : transform 10 (VStr "text") V4 V5 TransformationOptions.empty st1
               = Ret (VStr "text") st1) by reflexivity.
  rewrite (proj1 (proj2 (batchTransform_contract 10 (VRef 0) V4 V5
                           TransformationOptions.empty
                           (fresh_state small_batch_heap)))
             eq_refl [r1; VStr "text"] st1).
  - exact I.
  - econstructor; [exact E1|]. econstructor; [exact E2|]. constructor.
Defined.

(** C9 (as stated) fails: on the array [[ { documentId: 5 } ]], from the
    modern to the legacy format, the identifier is looked up as if it
    were a string; [documentId.match] is not a function, and the
    [TypeError] leaves [batchTransform]. *)
Lemma batchTransform_throws_on_array :
  is_array (objects (fresh_state numeric_documentId_heap)) (VRef 0) = true
  /\ match batchTransform 10 (VRef 0) V5 V4 TransformationOptions.empty
             (fresh_state numeric_documentId_heap) with
     | Throw msg _ => msg = "TypeError: documentId.match is not a function"
     | _ => False
     end.
Proof. split; [reflexivity | vm_compute; reflexivity]. Qed.

(** ** The response envelope *)

Lemma nth_error_update_nth_eq {A : Type} (l : list A) (n : nat) (x : A) :
  n < List.length l -> nth_error (update_nth n x l) n = Some x.
Proof.
  revert n. induction l as [|y l IH]; intros [|n] H; simpl in *; try lia.
  - reflexivity.
  - apply IH. lia.
Qed.

Lemma nth_error_update_nth_neq {A : Type} (l : list A) (n n' : nat) (x : A) :
  n <> n' -> nth_error (update_nth n x l) n' = nth_error l n'.
Proof.
  revert n n'. induction l as [|y l IH]; intros [|n] [|n'] H; simpl;
    try reflexivity; try congruence.
  apply IH. congruence.
Qed.

Lemma length_update_nth {A : Type} (l : list A) (n : nat) (x : A) :
  List.length (update_nth n x l) = List.length l.
Proof.
  revert n. induction l as [|y l IH]; intros [|n]; simpl; try reflexivity.
  rewrite IH. reflexivity.
Qed.

Lemma nth_error_snoc {A : Type} (l : list A) (x : A) :
  nth_error (l ++ [x]) (List.length l) = Some x.
Proof. rewrite nth_error_app2, Nat.sub_diag by lia. reflexivity. Qed.

Lemma nth_error_before_snoc {A : Type} (l : list A) (x y : A) (n : nat) :
  nth_error l n = Some y -> nth_error (l ++ [x]) n = Some y.
Proof.
  intro H. rewrite nth_error_app1; [exact H|]. apply nth_error_Some. congruence.
Qed.

Lemma nth_error_valid {A : Type} (l : list A) (n : nat) (y : A) :
  nth_error l n = Some y -> n < List.length l.
Proof. intro H. apply nth_error_Some. congruence. Qed.

(** A property read through a value that the heap already held does
    not change when objects at other places do. *)
Lemma prop_same_object (h h' : heap) (v : val) (k : string) :
  (forall l, v = VRef l -> nth_error h' l = nth_error h l) ->
  prop h' v k = prop h v k.
Proof.
  intro H. unfold prop, obj_at. destruct v as [| | | | |l]; try reflexivity.
  rewrite (H l eq_refl). reflexivity.
Qed.

Lemma write_prop_run (l : loc) (ps : list (string * val)) (k : string)
  (v : val) (st : state) :
  nth_error (objects st) l = Some (Obj ps) ->
  write_prop (VRef l) k v st
  = Ret tt (with_objects (update_nth l (Obj (omap_set k v ps)) (objects st)) st).
Proof. intro H. unfold write_prop. rewrite H. reflexivity. Qed.

(** C10 (as amended): when the source and the target format differ and
    the conversion of [data] returns, [transformResponse] returns a new
    object [copy] that holds, under every key but [data], the value the
    envelope holds; its [meta] is the meta object of the envelope itself,
    and the pagination block with the defaults filled in is a new object
    stored in that shared meta object: the envelope the caller passed
    sees it, the other keys of meta are as they were. *)
Theorem transformResponse_shares_meta
  (fuel : nat) (st st2 : state) (e m : loc)
  (props mprops : list (string * val)) (p data' : val)
  (s t : StrapiFormat) (options : TransformationOptions.t)
  (Hformats : format_eqb s t = false)
  (He : nth_error (objects st) e = Some (Obj props))
  (Hmeta : omap_get "meta" props = Some (VRef m))
  (Hm : nth_error (objects st) m = Some (Obj mprops))
  (Hpag : omap_get "pagination" mprops = Some p)
  (Htruthy : truthy p = true)
  (Hp : forall l, p = VRef l -> l < List.length (objects st))
  (Hdata : if truthy (prop (objects st) (VRef e) "data")
           then transform fuel (prop (objects st) (VRef e) "data") s t options
                  (with_objects (objects st ++ [Obj props]) st)
                = Ret data' st2
           else st2 = with_objects (objects st ++ [Obj props]) st) :
  exists st',
    let h := objects st in
    let h' := objects st' in
    let copy := VRef (List.length h) in
    let pagination := VRef (List.length (objects st2)) in
    transformResponse fuel (VRef e) s t options st = Ret copy st'
    /\ prop h' (VRef e) "meta" = VRef m
    /\ prop h' copy "meta" = VRef m
    /\ prop h' (VRef m) "pagination" = pagination
    /\ pagination <> p
    /\ nth_error h' (List.length (objects st2))
       = Some (Obj [("page", or_else (prop h p "page") (VNum (Int 1)));
                    ("pageSize", or_else (prop h p "pageSize") (VNum (Int 25)));
                    ("pageCount", or_else (prop h p "pageCount") (VNum (Int 1)));
                    ("total", or_else (prop h p "total") (VNum (Int 0)))])
    /\ (forall k, k <> "data" -> prop h' copy k = prop h (VRef e) k)
    /\ (forall k, k <> "pagination" -> prop h' (VRef m) k = prop h (VRef m) k)
    /\ prop h' copy "data"
       = (if truthy (prop h (VRef e) "data") then data'
          else prop h (VRef e) "data").
Proof.
  set (st1 := with_objects ((objects st) ++ [Obj props]) st) in *.
  set (e' := List.length (objects st)).
  pose proof (nth_error_valid _ _ _ He) as Hlt_e.
  pose proof (nth_error_valid _ _ _ Hm) as Hlt_m.
  assert (Hcopy1 : nth_error (objects st1) e' = Some (Obj props))
    by apply nth_error_snoc.
  assert (Hd1 : prop (objects st1) (VRef e') "data" = prop (objects st) (VRef e) "data").
  { unfold prop, obj_at. rewrite Hcopy1. rewrite He. reflexivity. }
  (* the state after the conversion of [data] *)
  set (d := prop (objects st) (VRef e) "data") in *.
  set (fprops := if truthy d then omap_set "data" data' props else props).
  set (st3 := if truthy d
              then with_objects (update_nth e' (Obj fprops) (objects st2)) st2
              else st1).
  assert (Hext12 : extends st1 st2).
  { destruct (truthy d).
    - pose proof (transform_grows fuel d s t options st1) as Hg.
      rewrite Hdata in Hg. exact Hg.
    - rewrite Hdata. apply extends_refl. }
  assert (Hcopy2 : nth_error (objects st2) e' = Some (Obj props))
    by (eapply extends_nth_error; eassumption).
  assert (Hold2 : forall l o, nth_error (objects st) l = Some o ->
                              nth_error (objects st2) l = Some o).
  { intros l o Hl. eapply extends_nth_error; [exact Hext12|].
    apply nth_error_before_snoc. exact Hl. }
  assert (Hold3 : forall l o, nth_error (objects st) l = Some o ->
                              nth_error (objects st3) l = Some o).
  { intros l o Hl. unfold st3. destruct (truthy d).
    - cbn [objects with_objects].
      rewrite nth_error_update_nth_neq; [apply Hold2, Hl|].
      apply nth_error_valid in Hl. unfold e'. lia.
    - apply nth_error_before_snoc. exact Hl. }
  assert (Hcopy3 : nth_error (objects st3) e' = Some (Obj fprops)).
  { unfold st3, fprops. destruct (truthy d).
    - cbn [objects with_objects]. apply nth_error_update_nth_eq.
      eapply nth_error_valid. exact Hcopy2.
    - exact Hcopy1. }
  assert (Hlen3 : List.length (objects st3) = List.length (objects st2)).
  { unfold st3. destruct (truthy d).
    - cbn [objects with_objects]. apply length_update_nth.
    - rewrite Hdata. reflexivity. }
  assert (Hstep1 :
    (_ <- (if truthy (prop (objects st1) (VRef e') "data")
           then
             data <- transform fuel (prop (objects st1) (VRef e') "data") s t options ;;
             write_prop (VRef e') "data" data
           else ret tt) ;; ret tt) st1 = Ret tt st3).
  { rewrite Hd1. unfold st3, fprops. destruct (truthy d).
    - unfold bind. rewrite Hdata. rewrite (write_prop_run _ _ _ _ _ Hcopy2).
      reflexivity.
    - reflexivity. }
  assert (Hfmeta : omap_get "meta" fprops = Some (VRef m)).
  { unfold fprops. destruct (truthy d); [|exact Hmeta].
    rewrite omap_get_set_neq; [exact Hmeta | discriminate]. }
  set (q := List.length (objects st3)).
  set (pag := Obj [("page", or_else (prop (objects st3) p "page") (VNum (Int 1)));
                   ("pageSize", or_else (prop (objects st3) p "pageSize") (VNum (Int 25)));
                   ("pageCount", or_else (prop (objects st3) p "pageCount") (VNum (Int 1)));
                   ("total", or_else (prop (objects st3) p "total") (VNum (Int 0)))]).
  set (st4 := with_objects (objects st3 ++ [pag]) st3).
  set (st5 := with_objects
                (update_nth m (Obj (omap_set "pagination" (VRef q) mprops))
                   (objects st4)) st4).
  assert (Hm3 : nth_error (objects st3) m = Some (Obj mprops)) by (apply Hold3, Hm).
  assert (Hm4 : nth_error (objects st4) m = Some (Obj mprops))
    by (apply nth_error_before_snoc, Hm3).
  assert (Hrun : transformResponse fuel (VRef e) s t options st = Ret (VRef e') st5).
  { unfold transformResponse. cbn [truthy negb orb]. rewrite Hformats.
    unfold bind at 1. cbn [get_heap].
    rewrite (own_props_of_object _ _ _ He).
    unfold bind at 1. cbn [alloc]. fold e'. fold st1.
    unfold bind at 1. cbn [get_heap].
    unfold bind at 1.
    unfold bind at 1 in Hstep1. unfold ret at 2 in Hstep1.
    destruct ((if truthy (prop (objects st1) (VRef e') "data")
               then
                 data <- transform fuel (prop (objects st1) (VRef e') "data") s t options ;;
                 write_prop (VRef e') "data" data
               else ret tt) st1) as [[] stx| |] eqn:Ex; try discriminate Hstep1.
    inversion Hstep1. subst stx.
    unfold bind at 1. cbn [get_heap].
    rewrite (prop_of_object _ _ _ _ _ Hcopy3 Hfmeta).
    rewrite (prop_of_object _ _ _ _ _ Hm3 Hpag). rewrite Htruthy.
    unfold bind at 1. unfold bind at 1.
    unfold transformPagination. rewrite Htruthy. cbn [negb].
    unfold bind at 1. cbn [get_heap alloc]. fold pag. fold q. fold st4.
    unfold bind at 1. cbn [get_heap].
    assert (Hcopy4 : nth_error (objects st4) e' = Some (Obj fprops))
      by (apply nth_error_before_snoc, Hcopy3).
    rewrite (prop_of_object _ _ _ _ _ Hcopy4 Hfmeta).
    rewrite (write_prop_run _ _ _ _ _ Hm4). fold st5. reflexivity. }
  assert (Hm5 : nth_error (objects st5) m
                = Some (Obj (omap_set "pagination" (VRef q) mprops))).
  { unfold st5. cbn [objects with_objects]. apply nth_error_update_nth_eq.
    eapply nth_error_valid. exact Hm4. }
  assert (Hne_me' : m <> e') by (unfold e'; lia).
  assert (Hcopy5 : nth_error (objects st5) e' = Some (Obj fprops)).
  { unfold st5. cbn [objects with_objects].
    rewrite nth_error_update_nth_neq by exact Hne_me'.
    apply nth_error_before_snoc, Hcopy3. }
  assert (Hpsame : forall k, prop (objects st3) p k = prop (objects st) p k).
  { intro k. apply prop_same_object. intros l Hl. subst p.
    specialize (Hp l eq_refl).
    destruct (nth_error (objects st) l) as [o|] eqn:El.
    - apply Hold3. exact El.
    - apply nth_error_None in El. lia. }
  exists st5. cbv zeta. fold d. rewrite <- Hlen3. fold q. fold e'.
  split; [exact Hrun|].
  split.
  { (* the envelope still points at its meta object *)
    destruct (Nat.eq_dec e m) as [Heq|Hne].
    - subst m. rewrite He in Hm. inversion Hm. subst mprops.
      apply (prop_of_object _ _ _ _ _ Hm5).
      rewrite omap_get_set_neq; [exact Hmeta | discriminate].
    - assert (He5 : nth_error (objects st5) e = Some (Obj props)).
      { unfold st5. cbn [objects with_objects].
        rewrite nth_error_update_nth_neq by congruence.
        apply nth_error_before_snoc, Hold3, He. }
      exact (prop_of_object _ _ _ _ _ He5 Hmeta). }
  split; [exact (prop_of_object _ _ _ _ _ Hcopy5 Hfmeta)|].
  split; [apply (prop_of_object _ _ _ _ _ Hm5), omap_get_set_eq|].
  split.
  { intro Heq. specialize (Hp q (eq_sym Heq)).
    pose proof (extends_length _ _ Hext12) as Hl12.
    unfold st1 in Hl12. cbn [objects with_objects] in Hl12.
    rewrite length_app in Hl12. simpl in Hl12.
    unfold q in Hp. rewrite Hlen3 in Hp. lia. }
  split.
  { unfold st5. cbn [objects with_objects].
    rewrite nth_error_update_nth_neq.
    - unfold st4, q. cbn [objects with_objects]. rewrite nth_error_snoc.
      unfold pag. rewrite !Hpsame. reflexivity.
    - apply nth_error_valid in Hm3. unfold q. lia. }
  split.
  { intros k Hk. unfold prop at 1, obj_at. rewrite Hcopy5.
    unfold prop, obj_at. rewrite He.
    unfold fprops. destruct (truthy d); [|reflexivity].
    rewrite omap_get_set_neq; [reflexivity | congruence]. }
  split.
  { intros k Hk. unfold prop at 1, obj_at. rewrite Hm5.
    unfold prop, obj_at. rewrite Hm.
    rewrite omap_get_set_neq; [reflexivity | congruence]. }
  unfold prop at 1, obj_at. rewrite Hcopy5.
  unfold fprops. destruct (truthy d) eqn:Ed.
  - rewrite omap_get_set_eq. reflexivity.
  - unfold d, prop, obj_at. rewrite He. reflexivity.
Qed.

Lemma transformResponse_shares_meta_witness :
  match transformResponse 10 (VRef 0) V4 V5 TransformationOptions.empty
          (fresh_state envelope_heap) with
  | Ret copy st' =>
      copy = VRef 5
      /\ prop (objects st') (VRef 0) "meta" = VRef 1
      /\ prop (objects st') copy "meta" = VRef 1
      /\ prop (objects st') (VRef 1) "pagination" <> VRef 2
  | _ => False
  end.
Proof.
  assert (R : returns
                (transform 10 (VRef 3) V4 V5 TransformationOptions.empty
                   (with_objects
                      (objects (fresh_state envelope_heap)
                         ++ [Obj [("data", VRef 3); ("meta", VRef 1)]])
                      (fresh_state envelope_heap))))
    by (vm_compute; exact I).
  destruct (transform 10 (VRef 3) V4 V5 TransformationOptions.empty
              (with_objects
                 (objects (fresh_state envelope_heap)
                    ++ [Obj [("data", VRef 3); ("meta", VRef 1)]])
                 (fresh_state envelope_heap)))
    as [data' st2| |] eqn:E; try contradiction.
  destruct (transformResponse_shares_meta 10 (fresh_state envelope_heap) st2 0 1
              [("data", VRef 3); ("meta", VRef 1)]
              [("pagination", VRef 2); ("total", VNum (Int 9))]
              (VRef 2) data' V4 V5 TransformationOptions.empty
              eq_refl eq_refl eq_refl eq_refl eq_refl eq_refl)
    as (st' & Hrun & H1 & H2 & H3 & H4 & _).
  - intros l Hl. inversion Hl. subst l. simpl. lia.
  - exact E.
  - cbv zeta in Hrun, H1, H2, H3, H4. rewrite Hrun.
    repeat split; try assumption. rewrite H3. exact H4.
Defined.

(** C10 (as stated) fails when the source and the target format are the
    same: the envelope itself is returned, nothing is copied and nothing
    is written; the pagination block in its meta object still lacks the
    fields it lacked. *)
Lemma transformResponse_same_format_writes_nothing :
  transformResponse 10 (VRef 0) V4 V4 TransformationOptions.empty
    (fresh_state envelope_heap)
  = Ret (VRef 0) (fresh_state envelope_heap)
  /\ prop envelope_heap (VRef 0) "meta" = VRef 1
  /\ prop envelope_heap (VRef 1) "pagination" = VRef 2
  /\ prop envelope_heap (VRef 2) "pageSize" = VUndef.
Proof. repeat split; reflexivity. Qed.

(** ** There and back: a legacy item with plain attributes *)

Lemma omap_set_fresh {V : Type} (m : list (string * V)) (k : string) (v : V) :
  omap_get k m = None -> omap_set k v m = m ++ [(k, v)].
Proof.
  induction m as [|[k0 v0] m IH]; simpl; [reflexivity|].
  destruct (String.eqb k k0); [discriminate|].
  intro H. rewrite (IH H). reflexivity.
Qed.

Lemma omap_assign_fresh {V : Type} (base ps : list (string * V)) :
  unique_keys (base ++ ps) -> omap_assign base ps = base ++ ps.
Proof.
  unfold omap_assign, unique_keys. revert base.
  induction ps as [|[k v] ps IH]; intros base Hu; simpl.
  - rewrite app_nil_r. reflexivity.
  - assert (Hk : omap_get k base = None).
    { apply omap_get_none_keys. rewrite map_app in Hu. simpl in Hu.
      apply NoDup_remove_2 in Hu. intro Hin. apply Hu.
      apply in_or_app. left. exact Hin. }
    rewrite (omap_set_fresh base k v Hk).
    rewrite IH; rewrite <- app_assoc; [reflexivity | exact Hu].
Qed.

Lemma omap_delete_absent {V : Type} (m : list (string * V)) (k : string) :
  omap_get k m = None -> omap_delete k m = m.
Proof.
  induction m as [|[k0 v0] m IH]; simpl; [reflexivity|].
  destruct (String.eqb k k0); [discriminate|].
  intro H. rewrite (IH H). reflexivity.
Qed.

Lemma omap_delete_last {V : Type} (m : list (string * V)) (k : string) (v : V) :
  omap_get k m = None -> omap_delete k (m ++ [(k, v)]) = m.
Proof.
  induction m as [|[k0 v0] m IH]; simpl.
  - rewrite String.eqb_refl. reflexivity.
  - destruct (String.eqb k k0); [discriminate|].
    intro H. rewrite (IH H). reflexivity.
Qed.

Lemma omap_get_app_absent {V : Type} (m m' : list (string * V)) (k : string) :
  omap_get k m = None -> omap_get k (m ++ m') = omap_get k m'.
Proof.
  induction m as [|[k0 v0] m IH]; simpl; [reflexivity|].
  destruct (String.eqb k k0); [discriminate | exact IH].
Qed.

Lemma generateDocumentId_not_empty (t : Tick) (v : val) (T : string) :
  generateDocumentId t v T <> "".
Proof.
  unfold generateDocumentId.
  destruct (strip_suffix (remove_first "api::" T)); simpl; discriminate.
Qed.

(** What the registry answers to the forward lookup is not the empty
    string, and the registry it leaves maps it back, when the pair is
    recorded well. *)
Lemma mapV4ToV5_well_recorded (t : Tick) (v : val) (T : string) (r : Registry) :
  well_recorded r T v ->
  fst (mapV4ToV5 t v T r) <> ""
  /\ mapV5ToV4 (fst (mapV4ToV5 t v T r)) T (snd (mapV4ToV5 t v T r)) = v.
Proof.
  intros [Hrec Hne]. split.
  - unfold mapV4ToV5. unfold getMapping in Hne.
    destruct (omap_get (mapping_key T v) (mappings r)) as [m|] eqn:E.
    + exact (Hne m eq_refl).
    + apply generateDocumentId_not_empty.
  - pose proof (there_and_back_same t v T r Hrec) as H.
    unfold there_and_back in H. destruct (mapV4ToV5 t v T r). exact H.
Qed.

Lemma IdMapper_mapV4ToV5_run (v : val) (T : string) (st : state) :
  exists st',
    IdMapper_mapV4ToV5 v T st
    = Ret (fst (mapV4ToV5 (env st (clock st)) v T (idmap st))) st'
    /\ objects st' = objects st
    /\ CIRCULAR_REF_CACHE st' = CIRCULAR_REF_CACHE st
    /\ idmap st' = snd (mapV4ToV5 (env st (clock st)) v T (idmap st)).
Proof.
  unfold IdMapper_mapV4ToV5.
  destruct (mapV4ToV5 (env st (clock st)) v T (idmap st)) as [d r].
  eexists. split; [reflexivity|]. repeat split.
Qed.

Lemma flattened_build (preserve : bool) (d : string) (n : Z)
  (attrs : list (string * val)) :
  unique_keys attrs ->
  omap_get "id" attrs = None -> omap_get "documentId" attrs = None ->
  (if preserve
   then omap_set "id" (VNum (Int n))
          (omap_assign [("documentId", VStr d)] attrs)
   else omap_assign [("documentId", VStr d)] attrs)
  = flattened preserve d n attrs.
Proof.
  intros Hu Hid Hdoc.
  assert (Ha : omap_assign [("documentId", VStr d)] attrs
               = ("documentId", VStr d) :: attrs).
  { apply (omap_assign_fresh [("documentId", VStr d)] attrs).
    unfold unique_keys. simpl. constructor; [|exact Hu].
    apply omap_get_none_keys. exact Hdoc. }
  rewrite Ha. unfold flattened. destruct preserve.
  - simpl. rewrite (omap_set_fresh attrs "id" _ Hid). reflexivity.
  - rewrite app_nil_r. reflexivity.
Qed.

Lemma flattened_rest (preserve : bool) (d : string) (n : Z)
  (attrs : list (string * val)) :
  omap_get "id" attrs = None ->
  omap_delete "id" (omap_delete "documentId" (flattened preserve d n attrs))
  = attrs.
Proof.
  intros Hid. unfold flattened. simpl.
  destruct preserve.
  - apply omap_delete_last. exact Hid.
  - rewrite app_nil_r. apply omap_delete_absent. exact Hid.
Qed.

Lemma flattened_id (preserve : bool) (d : string) (n : Z)
  (attrs : list (string * val)) :
  omap_get "id" attrs = None ->
  omap_get "id" (flattened preserve d n attrs)
  = if preserve then Some (VNum (Int n)) else None.
Proof.
  intros Hid. unfold flattened. simpl.
  rewrite (omap_get_app_absent attrs _ "id" Hid). destruct preserve; reflexivity.
Qed.

(** *** Plain nested objects pass through both directions *)

Lemma quiet_refl (st : state) : quiet st st.
Proof. unfold quiet. repeat split. Qed.

Lemma quiet_trans (a b c : state) : quiet a b -> quiet b c -> quiet a c.
Proof.
  unfold quiet. intros (A1 & A2 & A3 & A4 & A5) (B1 & B2 & B3 & B4 & B5).
  repeat split; congruence.
Qed.

Lemma cache_delete_add (c : list loc) (l : loc) :
  cache_has c l = false -> cache_delete (cache_add c l) l = c.
Proof.
  intro H. unfold cache_add. rewrite H. unfold cache_delete. cbn [filter].
  rewrite Nat.eqb_refl. cbn [negb].
  unfold cache_has in H. induction c as [|x c IH]; [reflexivity|].
  simpl in *. apply orb_false_iff in H as [H1 H2].
  rewrite H1. cbn [negb]. rewrite (IH H2). reflexivity.
Qed.

Lemma inert_object (h : heap) (v : val) :
  inert h v = true ->
  exists l ps,
    v = VRef l /\ nth_error h l = Some (Obj ps)
    /\ defined (prop h v "data") = false
    /\ truthy (prop h v "id") = false
    /\ truthy (prop h v "documentId") = false
    /\ (isMediaData h v = true -> truthy (prop h v "attributes") = false).
Proof.
  unfold inert. destruct v as [| | | | |l]; try discriminate.
  cbn [obj_at]. destruct (nth_error h l) as [[ps|items]|] eqn:E; try discriminate.
  intro H. apply andb_true_iff in H as [H H4].
  apply andb_true_iff in H as [H H3]. apply andb_true_iff in H as [H1 H2].
  apply negb_true_iff in H1, H2, H3, H4.
  exists l, ps. repeat split; try assumption.
  intro Hm. rewrite Hm in H4. exact H4.
Qed.

Lemma prop_extended (h suffix : heap) (l : loc) (o : obj) (k : string) :
  nth_error h l = Some o ->
  prop (h ++ suffix) (VRef l) k = prop h (VRef l) k.
Proof.
  intro H. apply prop_same_object. intros l' E. inversion E. subst l'.
  apply nth_error_app1. apply (nth_error_valid _ _ _ H).
Qed.

Lemma inert_extended (h suffix : heap) (v : val) :
  inert h v = true -> inert (h ++ suffix) v = true.
Proof.
  intro H. pose proof H as H0.
  apply inert_object in H0 as (l & ps & -> & Hl & _).
  assert (Hn : nth_error (h ++ suffix) l = Some (Obj ps)).
  { rewrite nth_error_app1; [exact Hl | apply (nth_error_valid _ _ _ Hl)]. }
  revert H. unfold inert, isMediaData, mediaFields. cbn [obj_at existsb].
  rewrite Hl, Hn. rewrite !(prop_extended h suffix l _ _ Hl). tauto.
Qed.

(** A plain nested object comes back from the conversion of nested
    data as it went in, in either direction; nothing is allocated or
    recorded, at most the depth warning is logged. *)
Lemma transformNestedData_inert_forward (fuel : nat) (v : val)
  (options : TOpts.t) (st : state) :
  inert (objects st) v = true ->
  (forall l, v = VRef l -> cache_has (CIRCULAR_REF_CACHE st) l = false) ->
  exists st',
    transformNestedData (S (S (S (S fuel)))) v V4 V5 options st = Ret v st'
    /\ quiet st st'.
Proof.
  intros Hin Hc.
  destruct (inert_object _ _ Hin) as (l & ps & -> & Hl & Hdata & Hid & Hdoc & Hmedia).
  specialize (Hc l eq_refl).
  assert (Harr : is_array (objects st) (VRef l) = false)
    by (apply (is_array_of_object _ _ _ Hl)).
  cbn [transformNestedData truthy negb]. unfold bind at 1. cbn [get_heap].
  unfold isRelationData. cbn [truthy is_object negb orb]. rewrite Hdata.
  destruct (isMediaData (objects st) (VRef l)) eqn:Em.
  - unfold transformMedia. cbn [truthy negb orb format_eqb].
    unfold transformV4MediaToV5. unfold bind at 1. cbn [get_heap truthy negb orb].
    rewrite (Hmedia eq_refl). cbn [negb]. exists st. split; [reflexivity|].
    apply quiet_refl.
  - rewrite Harr. cbn [is_object].
    cbn [transform format_eqb].
    destruct (Z.ltb MAX_DEPTH _).
    + unfold bind, console_warn, ret. eexists. split; [reflexivity|].
      unfold quiet. cbn [objects idmap CIRCULAR_REF_CACHE env clock].
      repeat split.
    + rewrite Hc. unfold finally.
      cbn [transformV4ToV5 truthy negb]. unfold bind at 1.
      cbn [get_heap objects with_cache]. rewrite Harr.
      cbn [transformV4ItemToV5 truthy is_object negb orb].
      unfold bind at 1. cbn [get_heap objects with_cache].
      rewrite Hid. cbn [andb]. unfold ret.
      eexists. split; [reflexivity|].
      unfold quiet. cbn [objects idmap CIRCULAR_REF_CACHE env clock with_cache].
      rewrite (cache_delete_add _ _ Hc). repeat split.
Qed.

Lemma transformNestedData_inert_backward (fuel : nat) (v : val)
  (options : TOpts.t) (st : state) :
  inert (objects st) v = true ->
  (forall l, v = VRef l -> cache_has (CIRCULAR_REF_CACHE st) l = false) ->
  exists st',
    transformNestedData (S (S (S (S fuel)))) v V5 V4 options st = Ret v st'
    /\ quiet st st'.
Proof.
  intros Hin Hc.
  destruct (inert_object _ _ Hin) as (l & ps & -> & Hl & Hdata & Hid & Hdoc & Hmedia).
  specialize (Hc l eq_refl).
  assert (Harr : is_array (objects st) (VRef l) = false)
    by (apply (is_array_of_object _ _ _ Hl)).
  cbn [transformNestedData truthy negb]. unfold bind at 1. cbn [get_heap].
  unfold isRelationData. cbn [truthy is_object negb orb]. rewrite Harr.
  cbn [orb].
  destruct (defined (prop (objects st) (VRef l) "documentId")) eqn:Ed.
  - cbn [transformRelationData truthy negb]. unfold bind at 1. cbn [get_heap].
    rewrite Harr, Hdoc. exists st. split; [reflexivity | apply quiet_refl].
  - destruct (isMediaData (objects st) (VRef l)) eqn:Em.
    + unfold transformMedia. cbn [truthy negb orb format_eqb].
      unfold transformV5MediaToV4. unfold bind at 1. cbn [get_heap truthy negb orb].
      rewrite Hdoc. cbn [negb]. exists st. split; [reflexivity | apply quiet_refl].
    + cbn [is_object]. cbn [transform format_eqb].
      destruct (Z.ltb MAX_DEPTH _).
      * unfold bind, console_warn, ret. eexists. split; [reflexivity|].
        unfold quiet. cbn [objects idmap CIRCULAR_REF_CACHE env clock].
        repeat split.
      * rewrite Hc. unfold finally.
        cbn [transformV5ToV4 truthy negb]. unfold bind at 1.
        cbn [get_heap objects with_cache]. rewrite Harr.
        cbn [transformV5ItemToV4 truthy is_object negb orb].
        unfold bind at 1. cbn [get_heap objects with_cache].
        rewrite Hdoc. unfold ret.
        eexists. split; [reflexivity|].
        unfold quiet. cbn [objects idmap CIRCULAR_REF_CACHE env clock with_cache].
        rewrite (cache_delete_add _ _ Hc). repeat split.
Qed.

(** The loop over the keys of a new object gives the properties back
    when each value is a scalar or a plain nested object that is not
    under transformation. *)
Lemma rewrite_objects_plain (g : val -> M val) (ps : list (string * val))
  (st : state) :
  (forall v st0, quiet st st0 -> In v (map snd ps) -> scalar v = false ->
     exists st1, g v st0 = Ret v st1 /\ quiet st0 st1) ->
  exists st', rewrite_objects g ps st = Ret ps st' /\ quiet st st'.
Proof.
  revert st. induction ps as [|[k v] ps IH]; intros st Hg.
  - exists st. split; [reflexivity | apply quiet_refl].
  - cbn [rewrite_objects].
    assert (Hv : exists st1,
               (if truthy v && is_object v then g v else ret v) st = Ret v st1
               /\ quiet st st1).
    { destruct (truthy v && is_object v) eqn:E.
      - apply Hg; [apply quiet_refl | left; reflexivity |].
        unfold scalar. rewrite E. reflexivity.
      - exists st. split; [reflexivity | apply quiet_refl]. }
    destruct Hv as (st1 & Hrun & Hq1).
    destruct (IH st1) as (st2 & Hrest & Hq2).
    { intros v0 st0 Hq0 Hin Hs. apply Hg; [|right; exact Hin | exact Hs].
      eapply quiet_trans; eassumption. }
    exists st2. unfold bind at 1. rewrite Hrun. unfold bind at 1. rewrite Hrest.
    split; [reflexivity|]. eapply quiet_trans; eassumption.
Qed.

Lemma scalar_primitive (v : val) : is_object v = false -> scalar v = true.
Proof. intro H. unfold scalar. rewrite H, andb_false_r. reflexivity. Qed.

Lemma plain_value (h : heap) (attrs : list (string * val)) (v : val) :
  forallb (fun kv => scalar (snd kv) || inert h (snd kv)) attrs = true ->
  In v (map snd attrs) -> scalar v = false -> inert h v = true.
Proof.
  intros Hall Hin Hs. apply in_map_iff in Hin as ([k v'] & Heq & Hin).
  cbn [snd] in Heq. subst v'.
  rewrite forallb_forall in Hall. specialize (Hall _ Hin). cbn [snd] in Hall.
  rewrite Hs in Hall. exact Hall.
Qed.

(** The forward conversion of the item, method by method. *)
Lemma transformV4ItemToV5_plain (fuel : nat) (st : state) (x b : loc) (n : Z)
  (attrs : list (string * val)) (options : TOpts.t) :
  legacy_item (objects st) x n b attrs ->
  plain_attributes (objects st) attrs ->
  n <> 0%Z ->
  (forall l, cache_has (CIRCULAR_REF_CACHE st) l = true -> l = x) ->
  exists st',
    transformV4ItemToV5 (S (S (S (S (S fuel))))) (VRef x) options st
    = Ret (VRef (List.length (objects st))) st'
    /\ objects st'
       = objects st
           ++ [Obj (flattened (TOpts.preserveOriginalId options)
                      (fst (mapV4ToV5 (env st (clock st)) (VNum (Int n))
                              (TOpts.contentType options) (idmap st)))
                      n attrs)]
    /\ CIRCULAR_REF_CACHE st' = CIRCULAR_REF_CACHE st
    /\ idmap st' = snd (mapV4ToV5 (env st (clock st)) (VNum (Int n))
                          (TOpts.contentType options) (idmap st)).
Proof.
  intros (Hx & Hb & Hu) (Hall & Hid & Hdoc) Hn Hcache.
  cbn [transformV4ItemToV5 truthy is_object negb orb].
  unfold bind at 1. cbn [get_heap].
  rewrite (prop_of_object _ _ _ "id" (VNum (Int n)) Hx eq_refl).
  rewrite (prop_of_object _ _ _ "attributes" (VRef b) Hx eq_refl).
  cbn [truthy]. pose proof Hn as Hn'. apply Z.eqb_neq in Hn'. rewrite Hn'.
  cbn [negb andb].
  rewrite (own_props_of_object _ _ _ Hb).
  destruct (IdMapper_mapV4ToV5_run (VNum (Int n)) (TOpts.contentType options) st)
    as (st1 & Hrun & Hobj & Hca & Hreg).
  unfold bind at 1. rewrite Hrun.
  rewrite (flattened_build _ _ _ _ Hu Hid Hdoc).
  set (d := fst (mapV4ToV5 (env st (clock st)) (VNum (Int n))
                   (TOpts.contentType options) (idmap st))) in *.
  destruct (rewrite_objects_plain
              (fun v => transformNestedData (S (S (S (S fuel)))) v V4 V5
                          (TOpts.deeper options))
              (flattened (TOpts.preserveOriginalId options) d n attrs) st1)
    as (st2 & Hloop & Hq).
  { intros v st0 Hq0 Hin Hs.
    assert (Hv : inert (objects st) v = true).
    { unfold flattened in Hin. cbn [map snd] in Hin.
      destruct Hin as [<-|Hin];
        [rewrite scalar_primitive in Hs by reflexivity; discriminate Hs|].
      rewrite map_app in Hin. apply in_app_or in Hin as [Hin|Hin].
      - exact (plain_value _ _ _ Hall Hin Hs).
      - destruct (TOpts.preserveOriginalId options); [|destruct Hin].
        destruct Hin as [<-|[]].
        rewrite scalar_primitive in Hs by reflexivity. discriminate Hs. }
    destruct Hq0 as (Q1 & _ & Q3 & _).
    apply transformNestedData_inert_forward.
    - rewrite Q1, Hobj. exact Hv.
    - intros l -> . rewrite Q3, Hca.
      destruct (cache_has (CIRCULAR_REF_CACHE st) l) eqn:E; [|reflexivity].
      apply Hcache in E. subst l. exfalso.
      apply inert_object in Hv as (l' & ps' & E' & _ & _ & Hid' & _).
      rewrite (prop_of_object _ _ _ "id" (VNum (Int n)) Hx eq_refl) in Hid'.
      cbn [truthy] in Hid'. rewrite Hn' in Hid'. discriminate Hid'. }
  unfold bind at 1. rewrite Hloop.
  destruct Hq as (Q1 & Q2 & Q3 & _).
  unfold alloc. eexists. split; [rewrite Q1, Hobj; reflexivity|].
  cbn [objects with_objects CIRCULAR_REF_CACHE idmap].
  split; [reflexivity|]. split; [rewrite Q3; exact Hca | rewrite Q2; exact Hreg].
Qed.

(** The backward conversion of the item that the forward one made. *)
Lemma transformV5ItemToV4_flattened (fuel : nat) (st : state) (r : loc) (n : Z)
  (d : string) (attrs : list (string * val)) (options : TOpts.t) :
  nth_error (objects st) r
  = Some (Obj (flattened (TOpts.preserveOriginalId options) d n attrs)) ->
  plain_attributes (objects st) attrs -> n <> 0%Z -> d <> "" ->
  (forall v, In v (map snd attrs) -> v <> VRef r) ->
  (forall l, cache_has (CIRCULAR_REF_CACHE st) l = true -> l = r) ->
  mapV5ToV4 d (TOpts.contentType options) (idmap st) = VNum (Int n) ->
  exists st',
    transformV5ItemToV4 (S (S (S (S (S fuel))))) (VRef r) options st
    = Ret (VRef (S (List.length (objects st)))) st'
    /\ objects st'
       = objects st
           ++ [Obj attrs;
               Obj [("id", VNum (Int n));
                    ("attributes", VRef (List.length (objects st)))]]
    /\ CIRCULAR_REF_CACHE st' = CIRCULAR_REF_CACHE st.
Proof.
  intros Hr (Hall & Hid & Hdoc) Hn Hd Hfresh Hcache Hback.
  cbn [transformV5ItemToV4 truthy is_object negb orb].
  unfold bind at 1. cbn [get_heap].
  rewrite (prop_of_object _ _ _ "documentId" (VStr d) Hr eq_refl).
  cbn [truthy]. apply String.eqb_neq in Hd. rewrite Hd. cbn [negb].
  rewrite (own_props_of_object _ _ _ Hr).
  rewrite (flattened_rest _ _ _ _ Hid).
  destruct (rewrite_objects_plain
              (fun v => transformNestedData (S (S (S (S fuel)))) v V5 V4
                          (TOpts.deeper options))
              attrs st)
    as (st2 & Hloop & Hq).
  { intros v st0 Hq0 Hin Hs.
    pose proof (plain_value _ _ _ Hall Hin Hs) as Hv.
    destruct Hq0 as (Q1 & _ & Q3 & _).
    apply transformNestedData_inert_backward.
    - rewrite Q1. exact Hv.
    - intros l ->. rewrite Q3.
      destruct (cache_has (CIRCULAR_REF_CACHE st) l) eqn:E; [|reflexivity].
      apply Hcache in E. subst l. exfalso. exact (Hfresh _ Hin eq_refl). }
  unfold bind at 1. rewrite Hloop.
  destruct Hq as (Q1 & Q2 & Q3 & _).
  unfold bind at 1. unfold alloc at 1.
  unfold prop, obj_at. rewrite Hr. rewrite (flattened_id _ _ _ _ Hid).
  destruct (TOpts.preserveOriginalId options).
  - cbn [truthy]. apply Z.eqb_neq in Hn. rewrite Hn. cbn [negb].
    unfold bind at 1, ret, alloc. cbn [objects with_objects].
    rewrite Q1.
    eexists. split; [rewrite length_app, Nat.add_comm; reflexivity|].
    cbn [objects with_objects CIRCULAR_REF_CACHE].
    rewrite <- app_assoc, Q3. split; reflexivity.
  - cbn [truthy]. unfold bind at 1.
    unfold IdMapper_mapV5ToV4. cbn [idmap with_objects]. rewrite Q2, Hback.
    unfold alloc. cbn [objects with_objects].
    rewrite Q1.
    eexists. split; [rewrite length_app, Nat.add_comm; reflexivity|].
    cbn [objects with_objects CIRCULAR_REF_CACHE].
    rewrite <- app_assoc, Q3. split; reflexivity.
Qed.

(** [transform] on an object, when the guards let it pass. *)
Lemma transform_object_run (fuel : nat) (st : state) (x : loc)
  (ps : list (string * val)) (s t : StrapiFormat)
  (options : TransformationOptions.t) :
  format_eqb s t = false ->
  (TOpts.depth (transform_defaults options) <= MAX_DEPTH)%Z ->
  CIRCULAR_REF_CACHE st = [] ->
  nth_error (objects st) x = Some (Obj ps) ->
  transform (S (S fuel)) (VRef x) s t options st
  = finally
      (match s, t with
       | V4, V5 => transformV4ItemToV5 fuel (VRef x) (transform_defaults options)
       | V5, V4 => transformV5ItemToV4 fuel (VRef x) (transform_defaults options)
       | _, _ => ret (VRef x)
       end)
      (fun s0 => with_cache (cache_delete (CIRCULAR_REF_CACHE s0) x) s0)
      (with_cache [x] st).
Proof.
  intros Hst Hdepth Hcache Hx.
  cbn [transform]. rewrite Hst. apply Z.ltb_ge in Hdepth. rewrite Hdepth.
  rewrite Hcache. cbn [cache_has existsb cache_add].
  unfold finally.
  destruct s, t; try discriminate Hst;
    cbn [transformV4ToV5 transformV5ToV4 truthy negb];
    unfold bind at 1; cbn [get_heap objects with_cache];
    rewrite (is_array_of_object _ _ _ Hx); reflexivity.
Qed.

Lemma cache_delete_only (x : loc) : cache_delete [x] x = [].
Proof. unfold cache_delete. simpl. rewrite Nat.eqb_refl. reflexivity. Qed.

(** The forward conversion of an item whose [id] is 0, and the backward
    conversion of an item without [documentId], give the item back. *)
Lemma transformV4ItemToV5_falsy_id (fuel : nat) (st : state) (x b : loc)
  (options : TOpts.t) :
  nth_error (objects st) x
  = Some (Obj [("id", VNum (Int 0)); ("attributes", VRef b)]) ->
  transformV4ItemToV5 (S fuel) (VRef x) options st = Ret (VRef x) st.
Proof.
  intro Hx. cbn [transformV4ItemToV5 truthy is_object negb orb].
  unfold bind at 1. cbn [get_heap].
  rewrite (prop_of_object _ _ _ "id" (VNum (Int 0)) Hx eq_refl).
  reflexivity.
Qed.

Lemma transformV5ItemToV4_no_documentId (fuel : nat) (st : state) (x : loc)
  (ps : list (string * val)) (options : TOpts.t) :
  nth_error (objects st) x = Some (Obj ps) ->
  omap_get "documentId" ps = None ->
  transformV5ItemToV4 (S fuel) (VRef x) options st = Ret (VRef x) st.
Proof.
  intros Hx Hd. cbn [transformV5ItemToV4 truthy is_object negb orb].
  unfold bind at 1. cbn [get_heap].
  unfold prop at 1, obj_at. rewrite Hx, Hd. reflexivity.
Qed.

Lemma plain_attributes_extended (h suffix : heap) (attrs : list (string * val)) :
  plain_attributes h attrs -> plain_attributes (h ++ suffix) attrs.
Proof.
  intros (Hall & Hid & Hdoc). split; [|split; assumption].
  rewrite forallb_forall in *. intros kv Hin. specialize (Hall kv Hin).
  apply orb_true_iff in Hall as [H|H]; apply orb_true_iff;
    [left; exact H | right; apply inert_extended; exact H].
Qed.

Lemma plain_attributes_valid (h : heap) (attrs : list (string * val)) (v : val) :
  plain_attributes h attrs -> In v (map snd attrs) ->
  v <> VRef (List.length h).
Proof.
  intros (Hall & _) Hin E. subst v.
  assert (Hv : inert h (VRef (List.length h)) = true)
    by (apply (plain_value h attrs); [exact Hall | exact Hin | reflexivity]).
  apply inert_object in Hv as (l & ps & E & Hl & _). inversion E. subst l.
  apply nth_error_valid in Hl. lia.
Qed.

Lemma cache_only (x l : loc) : cache_has [x] l = true -> l = x.
Proof.
  unfold cache_has. simpl. rewrite orb_false_r. apply Nat.eqb_eq.
Qed.

(** C2 (as amended): a legacy item [{ id: n, attributes }] whose
    attributes have no key [id] or [documentId] and hold scalars and
    plain nested objects only (no array, no relation, no object with a
    truthy [id] or [documentId] of its own, no media object with
    attributes), converted to the modern format and back with the same
    options, outside any other conversion and with the pair of its
    resource type and [id] recorded well or not at all, comes back as
    an item with the same [id], attributes with the same keys and
    values in the same order, and no [documentId]; the nested objects
    are the very objects that went in, and every object is as it
    was. *)
Theorem legacy_round_trip (fuel : nat) (st : state) (x b : loc) (n : Z)
  (attrs : list (string * val)) (options : TransformationOptions.t)
  (Hfuel : 7 <= fuel)
  (Hcache : CIRCULAR_REF_CACHE st = [])
  (Hitem : legacy_item (objects st) x n b attrs)
  (Hplain : plain_attributes (objects st) attrs)
  (Hrec : well_recorded (idmap st)
            (TOpts.contentType (transform_defaults options)) (VNum (Int n))) :
  exists y st1 z st2,
    transform fuel (VRef x) V4 V5 options st = Ret y st1
    /\ transform fuel y V5 V4 options st1 = Ret z st2
    /\ prop (objects st2) z "id" = VNum (Int n)
    /\ own_props (objects st2) (prop (objects st2) z "attributes") = attrs
    /\ prop (objects st2) z "documentId" = VUndef
    /\ forall l o, nth_error (objects st) l = Some o ->
                   nth_error (objects st2) l = Some o.
Proof.
  destruct fuel as [|[|[|[|[|[|[|f]]]]]]]; try lia. clear Hfuel.
  pose proof Hitem as (Hx & Hb & Hu).
  assert (Hsame : forall h : heap,
             nth_error h x = Some (Obj [("id", VNum (Int n)); ("attributes", VRef b)]) ->
             nth_error h b = Some (Obj attrs) ->
             prop h (VRef x) "id" = VNum (Int n)
             /\ own_props h (prop h (VRef x) "attributes") = attrs
             /\ prop h (VRef x) "documentId" = VUndef).
  { intros h H1 H2.
    rewrite (prop_of_object _ _ _ "id" (VNum (Int n)) H1 eq_refl).
    rewrite (prop_of_object _ _ _ "attributes" (VRef b) H1 eq_refl).
    rewrite (own_props_of_object _ _ _ H2).
    unfold prop, obj_at. rewrite H1. repeat split. }
  destruct (Z.ltb MAX_DEPTH (TOpts.depth (transform_defaults options))) eqn:Ed.
  - (* beyond the maximum depth both calls give their argument back *)
    apply Z.ltb_lt in Ed.
    do 4 eexists.
    split; [apply transform_beyond_max_depth; [reflexivity | exact Ed]|].
    split; [apply transform_beyond_max_depth; [reflexivity | exact Ed]|].
    cbn [objects warned].
    destruct (Hsame (objects st) Hx Hb) as (S1 & S2 & S3).
    repeat split; try assumption. intros l o H. exact H.
  - apply Z.ltb_ge in Ed.
    destruct (Z.eq_dec n 0) as [Hn|Hn].
    + (* [id] is 0: the item is not taken for a legacy item *)
      subst n.
      set (st1 := with_cache [] (with_cache [x] st)).
      assert (Hf : transform (S (S (S (S (S (S (S f))))))) (VRef x) V4 V5 options st
                   = Ret (VRef x) st1).
      { rewrite (transform_object_run _ st x _ V4 V5 options eq_refl Ed
                   Hcache Hx).
        unfold finally.
        rewrite (transformV4ItemToV5_falsy_id _ (with_cache [x] st) x b _ Hx).
        cbn [CIRCULAR_REF_CACHE with_cache]. rewrite cache_delete_only.
        reflexivity. }
      assert (Hx1 : nth_error (objects st1) x
                    = Some (Obj [("id", VNum (Int 0)); ("attributes", VRef b)]))
        by exact Hx.
      set (st2 := with_cache [] (with_cache [x] st1)).
      assert (Hb' : transform (S (S (S (S (S (S (S f))))))) (VRef x) V5 V4 options st1
                    = Ret (VRef x) st2).
      { rewrite (transform_object_run _ st1 x _ V5 V4 options eq_refl Ed
                   eq_refl Hx1).
        unfold finally.
        rewrite (transformV5ItemToV4_no_documentId _ (with_cache [x] st1) x _ _
                   Hx1 eq_refl).
        cbn [CIRCULAR_REF_CACHE with_cache]. rewrite cache_delete_only.
        reflexivity. }
      exists (VRef x), st1, (VRef x), st2.
      split; [exact Hf|]. split; [exact Hb'|].
      destruct (Hsame (objects st) Hx Hb) as (S1 & S2 & S3).
      repeat split; try assumption. intros l o H. exact H.
    + (* the item is converted and converted back *)
      destruct (transformV4ItemToV5_plain f (with_cache [x] st) x b n attrs
                  (transform_defaults options) Hitem Hplain Hn (cache_only x))
        as (sa & Hrun & Hobj & Hca & Hreg).
      cbn [objects env clock idmap CIRCULAR_REF_CACHE with_cache] in Hobj, Hca, Hreg.
      set (st1 := with_cache [] sa).
      set (r := List.length (objects st)) in *.
      assert (Hf : transform (S (S (S (S (S (S (S f))))))) (VRef x) V4 V5 options st
                   = Ret (VRef r) st1).
      { rewrite (transform_object_run _ st x _ V4 V5 options eq_refl Ed
                   Hcache Hx).
        unfold finally. rewrite Hrun. rewrite Hca, cache_delete_only.
        reflexivity. }
      set (d := fst (mapV4ToV5 (env st (clock st)) (VNum (Int n))
                       (TOpts.contentType (transform_defaults options))
                       (idmap st))) in *.
      assert (Hr1 : nth_error (objects st1) r
                    = Some (Obj (flattened
                                   (TOpts.preserveOriginalId (transform_defaults options))
                                   d n attrs))).
      { unfold st1. cbn [objects with_cache]. rewrite Hobj. apply nth_error_snoc. }
      destruct (mapV4ToV5_well_recorded (env st (clock st)) (VNum (Int n))
                  (TOpts.contentType (transform_defaults options)) (idmap st) Hrec)
        as (Hd & Hback).
      fold d in Hd, Hback. rewrite <- Hreg in Hback.
      assert (Hplain1 : plain_attributes (objects (with_cache [r] st1)) attrs).
      { unfold st1. cbn [objects with_cache]. rewrite Hobj.
        apply plain_attributes_extended. exact Hplain. }
      destruct (transformV5ItemToV4_flattened f (with_cache [r] st1) r n d attrs
                  (transform_defaults options) Hr1 Hplain1 Hn Hd
                  (fun v => plain_attributes_valid _ _ v Hplain) (cache_only r) Hback)
        as (sb & Hrun2 & Hobj2 & Hcb).
      unfold st1 in Hobj2. cbn [objects with_cache] in Hobj2.
      set (h1 := objects sa) in *.
      set (st2 := with_cache (cache_delete (CIRCULAR_REF_CACHE sb) r) sb).
      assert (Hb' : transform (S (S (S (S (S (S (S f))))))) (VRef r) V5 V4 options st1
                    = Ret (VRef (S (List.length h1))) st2).
      { rewrite (transform_object_run _ st1 r _ V5 V4 options eq_refl Ed
                   eq_refl Hr1).
        unfold finally. rewrite Hrun2. reflexivity. }
      exists (VRef r), st1, (VRef (S (List.length h1))), st2.
      split; [exact Hf|]. split; [exact Hb'|].
      unfold st2. cbn [objects with_cache]. rewrite Hobj2.
      assert (Hz : nth_error (h1 ++ [Obj attrs;
                                     Obj [("id", VNum (Int n));
                                          ("attributes", VRef (List.length h1))]])
                     (S (List.length h1))
                   = Some (Obj [("id", VNum (Int n));
                                ("attributes", VRef (List.length h1))])).
      { rewrite nth_error_app2 by lia.
        replace (S (List.length h1) - List.length h1) with 1 by lia. reflexivity. }
      assert (Ha : nth_error (h1 ++ [Obj attrs;
                                     Obj [("id", VNum (Int n));
                                          ("attributes", VRef (List.length h1))]])
                     (List.length h1)
                   = Some (Obj attrs)).
      { rewrite nth_error_app2, Nat.sub_diag by lia. reflexivity. }
      rewrite (prop_of_object _ _ _ "id" (VNum (Int n)) Hz eq_refl).
      rewrite (prop_of_object _ _ _ "attributes" (VRef (List.length h1)) Hz eq_refl).
      rewrite (own_props_of_object _ _ _ Ha).
      split; [reflexivity|]. split; [reflexivity|].
      split; [unfold prop, obj_at; rewrite Hz; reflexivity|].
      intros l o Hl. pose proof (nth_error_valid _ _ _ Hl) as Hlt.
      rewrite nth_error_app1 by (rewrite Hobj, length_app; lia).
      rewrite Hobj. rewrite nth_error_app1 by lia. exact Hl.
Qed.

Lemma legacy_round_trip_witness :
  match transform 10 (VRef 0) V4 V5 TransformationOptions.empty
          (fresh_state component_item_heap) with
  | Ret y st1 =>
      match transform 10 y V5 V4 TransformationOptions.empty st1 with
      | Ret z st2 =>
          prop (objects st2) z "id" = VNum (Int 7)
          /\ own_props (objects st2) (prop (objects st2) z "attributes")
             = [("title", VStr "x"); ("seo", VRef 2)]
          /\ nth_error (objects st2) 2 = Some (Obj [("metaTitle", VStr "t")])
      | _ => False
      end
  | _ => False
  end.
Proof.
  destruct (legacy_round_trip 10 (fresh_state component_item_heap) 0 1 7
              [("title", VStr "x"); ("seo", VRef 2)]
              TransformationOptions.empty)
    as (y & st1 & z & st2 & H1 & H2 & H3 & H4 & _ & H6).
  - lia.
  - reflexivity.
  - repeat split. repeat constructor; simpl; intuition discriminate.
  - repeat split.
  - split; intros m Hm; discriminate Hm.
  - rewrite H1, H2. repeat split; try assumption.
    apply (H6 2). reflexivity.
Defined.

(** A legacy item with scalar attributes only is such an item. *)
Lemma flat_item_round_trip :
  match transform 10 (VRef 0) V4 V5 TransformationOptions.empty
          (fresh_state flat_item_heap) with
  | Ret y st1 =>
      match transform 10 y V5 V4 TransformationOptions.empty st1 with
      | Ret z st2 =>
          prop (objects st2) z "id" = VNum (Int 7)
          /\ own_props (objects st2) (prop (objects st2) z "attributes")
             = [("title", VStr "x"); ("views", VNum (Int 3)); ("draft", VNull)]
      | _ => False
      end
  | _ => False
  end.
Proof. vm_compute. repeat split. Qed.

(** A nested object with a truthy [id] of its own does not come back as
    it went: it is converted on the way there, taken for a modern
    relation on the way back, and comes back wrapped as
    [{ data: { id, attributes } }]. *)
Lemma identified_component_comes_back_wrapped :
  match transform 12 (VRef 0) V4 V5 TransformationOptions.empty
          (fresh_state identified_component_heap) with
  | Ret y st1 =>
      match transform 12 y V5 V4 TransformationOptions.empty st1 with
      | Ret z st2 =>
          prop identified_component_heap
            (prop identified_component_heap
               (prop identified_component_heap (VRef 0) "attributes") "author")
            "name" = VStr "a"
          /\ prop (objects st2)
               (prop (objects st2) (prop (objects st2) z "attributes") "author")
               "name" = VUndef
          /\ prop (objects st2)
               (prop (objects st2)
                  (prop (objects st2)
                     (prop (objects st2) (prop (objects st2) z "attributes")
                        "author")
                     "data")
                  "attributes")
               "name" = VStr "a"
      | _ => False
      end
  | _ => False
  end.
Proof. vm_compute. repeat split. Qed.

(** C2 (as stated) fails. An attribute named [documentId] takes the
    place of the mapped identifier in the modern item and is stripped
    with it on the way back; and an attribute that is an array is taken
    for a modern relation on the way back and comes back wrapped as
    [{ data: [...] }]. *)
Lemma legacy_round_trip_loses_attributes :
  match transform 10 (VRef 0) V4 V5 TransformationOptions.empty
          (fresh_state shadowing_item_heap) with
  | Ret y st1 =>
      match transform 10 y V5 V4 TransformationOptions.empty st1 with
      | Ret z st2 =>
          own_props shadowing_item_heap (prop shadowing_item_heap (VRef 0) "attributes")
          = [("documentId", VStr "abc"); ("title", VStr "x")]
          /\ own_props (objects st2) (prop (objects st2) z "attributes")
             = [("title", VStr "x")]
      | _ => False
      end
  | _ => False
  end
  /\ match transform 10 (VRef 0) V4 V5 TransformationOptions.empty
            (fresh_state tagged_item_heap) with
     | Ret y st1 =>
         match transform 10 y V5 V4 TransformationOptions.empty st1 with
         | Ret z st2 =>
             is_array tagged_item_heap
               (prop tagged_item_heap (prop tagged_item_heap (VRef 0) "attributes")
                  "tags")
             = true
             /\ is_array (objects st2)
                  (prop (objects st2) (prop (objects st2) z "attributes") "tags")
                = false
             /\ is_array (objects st2)
                  (prop (objects st2)
                     (prop (objects st2) (prop (objects st2) z "attributes") "tags")
                     "data")
                = true
         | _ => False
         end
     | _ => False
     end.
Proof. vm_compute. repeat split. Qed.

(* ================================================================== *)
(** * Part II, continued. Further properties of the code              *)
(* ================================================================== *)

(** ** The registry: reuse, export and import, purge, statistics *)

(** X1. A second [mapV4ToV5] for the same pair, at any later time,
    returns the identifier of the first and leaves the registry as the
    first left it; after the first, [hasMapping] holds and [getMapping]
    gives a record with that identifier. *)
Theorem mapV4ToV5_again (t t' : Tick) (v : val) (T : string) (r : Registry) :
  mapV4ToV5 t' v T (snd (mapV4ToV5 t v T r)) = mapV4ToV5 t v T r
  /\ hasMapping v T (snd (mapV4ToV5 t v T r)) = true
  /\ exists m, getMapping v T (snd (mapV4ToV5 t v T r)) = Some m
               /\ IdMapping.v5DocumentId m = fst (mapV4ToV5 t v T r).
Proof.
  unfold hasMapping, omap_has, getMapping.
  assert (H : forall r0, omap_get (mapping_key T v) (mappings r0) = None ->
            mapV4ToV5 t v T r0
            = (generateDocumentId t v T,
               mkRegistry
                 (omap_set (mapping_key T v)
                    (IdMapping.mk v (generateDocumentId t v T) T (now_iso t))
                    (mappings r0))
                 (omap_set (generateDocumentId t v T)
                    (IdMapping.mk v (generateDocumentId t v T) T (now_iso t))
                    (reverseMappings r0)))).
  { intros r0 E. unfold mapV4ToV5. rewrite E. reflexivity. }
  destruct (omap_get (mapping_key T v) (mappings r)) as [m|] eqn:E.
  - assert (H1 : mapV4ToV5 t v T r = (IdMapping.v5DocumentId m, r)).
    { unfold mapV4ToV5. rewrite E. reflexivity. }
    rewrite H1. cbn [fst snd]. rewrite E.
    repeat split.
    + unfold mapV4ToV5. rewrite E. reflexivity.
    + exists m. split; reflexivity.
  - rewrite (H r E). cbn [fst snd mappings].
    rewrite omap_get_set_eq. repeat split.
    + unfold mapV4ToV5. cbn [mappings]. rewrite omap_get_set_eq. reflexivity.
    + eexists. split; reflexivity.
Qed.

Lemma import_loop_mappings (items : list ExportItem) (r : Registry) :
  mappings
    (fold_left
       (fun reg item =>
          mkRegistry
            (omap_set (key item) (mapping item) (mappings reg))
            (omap_set (IdMapping.v5DocumentId (mapping item)) (mapping item)
               (reverseMappings reg)))
       items r)
  = omap_assign (mappings r) (map (fun i => (key i, mapping i)) items).
Proof.
  unfold omap_assign. revert r.
  induction items as [|i items IH]; intro r; simpl; [reflexivity|].
  rewrite IH. reflexivity.
Qed.

Lemma import_loop_reverse (items : list ExportItem) (r : Registry) :
  reverseMappings
    (fold_left
       (fun reg item =>
          mkRegistry
            (omap_set (key item) (mapping item) (mappings reg))
            (omap_set (IdMapping.v5DocumentId (mapping item)) (mapping item)
               (reverseMappings reg)))
       items r)
  = omap_assign (reverseMappings r)
      (map (fun i => (IdMapping.v5DocumentId (mapping i), mapping i)) items).
Proof.
  unfold omap_assign. revert r.
  induction items as [|i items IH]; intro r; simpl; [reflexivity|].
  rewrite IH. reflexivity.
Qed.

(** A key that the assigned entries do not mention keeps its value; a
    key that they mention, always with the same value, has that value. *)
Lemma omap_get_assign_absent {V : Type} (base l : list (string * V)) (k : string) :
  ~ In k (map fst l) -> omap_get k (omap_assign base l) = omap_get k base.
Proof.
  unfold omap_assign. revert base.
  induction l as [|[k0 v0] l IH]; intros base H; simpl; [reflexivity|].
  simpl in H. rewrite IH by tauto.
  apply omap_get_set_neq. tauto.
Qed.

Lemma omap_get_assign_agreed {V : Type} (base l : list (string * V))
  (k : string) (v : V) :
  In k (map fst l) -> (forall x, In (k, x) l -> x = v) ->
  omap_get k (omap_assign base l) = Some v.
Proof.
  unfold omap_assign. revert base.
  induction l as [|[k0 v0] l IH]; intros base Hin Hall; simpl; [destruct Hin|].
  destruct (in_dec string_dec k (map fst l)) as [Hl|Hl].
  - apply IH; [exact Hl|]. intros x Hx. apply Hall. right. exact Hx.
  - pose proof (omap_get_assign_absent (omap_set k0 v0 base) l k Hl) as H.
    unfold omap_assign in H. rewrite H.
    destruct Hin as [Heq|Hin]; [|contradiction].
    simpl in Heq. subst k0.
    rewrite omap_get_set_eq. f_equal. apply Hall. left. reflexivity.
Qed.

Lemma export_entries (m : list (string * IdMapping.t)) :
  map (fun i => (key i, mapping i))
    (map (fun e => mkExportItem (fst e) (snd e)) m) = m.
Proof.
  induction m as [|[k x] m IH]; simpl; [reflexivity|]. rewrite IH. reflexivity.
Qed.

(** X2. What [exportMappings] writes, [importMappings] reads back, the
    array of records being taken as [JSON.parse] returns what
    [JSON.stringify] printed: from a registry whose indices agree, the
    import of its export into any registry throws nothing and leaves
    the forward index as it was, record by record and in the same
    order, and a reverse index that answers every lookup as before. *)
Theorem importMappings_exportMappings (r r0 : Registry)
  (Hr : consistent r) :
  snd (importMappings (ParsedArray (exportMappings r)) r0) = None
  /\ mappings (fst (importMappings (ParsedArray (exportMappings r)) r0))
     = mappings r
  /\ forall d,
       omap_get d
         (reverseMappings (fst (importMappings (ParsedArray (exportMappings r)) r0)))
       = omap_get d (reverseMappings r).
Proof.
  destruct Hr as (Hu1 & Hu2 & Hf & Hrv).
  cbn [importMappings fst snd]. split; [reflexivity|].
  rewrite import_loop_mappings, import_loop_reverse.
  unfold exportMappings, clearMappings. cbn [mappings reverseMappings].
  rewrite export_entries. split.
  - apply (omap_assign_fresh [] (mappings r)). exact Hu1.
  - intro d. rewrite map_map. cbn [mapping].
    set (l := map (fun e : string * IdMapping.t =>
                     (IdMapping.v5DocumentId (snd e), snd e)) (mappings r)).
    destruct (omap_get d (reverseMappings r)) as [m|] eqn:E.
    + destruct (Hrv d m E) as (Hd & k & Hk).
      apply omap_get_assign_agreed.
      * apply in_map_iff. exists (d, m). split; [reflexivity|].
        unfold l. apply in_map_iff. exists (k, m). split; [cbn [snd]; rewrite Hd; reflexivity|].
        apply omap_get_in. exact Hk.
      * intros x Hx. unfold l in Hx. apply in_map_iff in Hx as ([k' m'] & Heq & Hin).
        cbn [snd] in Heq. injection Heq as Hd' Hx. subst x.
        apply (in_unique_get _ _ _ Hu1) in Hin.
        pose proof (Hf k' m' Hin) as H. rewrite Hd' in H. congruence.
    + rewrite omap_get_assign_absent; [reflexivity|].
      intro Hin. apply in_map_iff in Hin as ([d' m'] & Heq & Hin).
      cbn [fst] in Heq. subst d'.
      unfold l in Hin. apply in_map_iff in Hin as ([k' m''] & Heq & Hin).
      cbn [snd] in Heq. injection Heq as Hd' Hx. subst m''.
      apply (in_unique_get _ _ _ Hu1) in Hin.
      pose proof (Hf k' m' Hin) as H. rewrite Hd' in H. congruence.
Qed.

Lemma importMappings_exportMappings_witness :
  mappings (fst (importMappings (ParsedArray (exportMappings registry_string_seven))
                   registry_empty))
  = mappings registry_string_seven.
Proof.
  assert (Hc : consistent registry_string_seven).
  { apply (consistent_mapV4ToV5 tick0 (VStr "7") "article" registry_empty).
    - apply consistent_empty.
    - intros _. reflexivity. }
  exact (proj1 (proj2 (importMappings_exportMappings registry_string_seven
                         registry_empty Hc))).
Defined.

Lemma filter_nil_iff {A : Type} (p : A -> bool) (l : list A) :
  (forall x, In x l -> p x = false) -> filter p l = [].
Proof.
  induction l as [|x l IH]; simpl; intro H; [reflexivity|].
  rewrite (H x (or_introl eq_refl)). apply IH. intros y Hy. apply H. right. exact Hy.
Qed.

(** X3. [clearMappingsForContentType] removes the records of that
    resource type and no other: afterwards the listing for the type is
    empty, and a key holds a record exactly when it held that record
    before and the record is of another type. *)
Theorem clearMappingsForContentType_exact (T : string) (r : Registry)
  (Hu : unique_keys (mappings r)) :
  getMappingsForContentType T (clearMappingsForContentType T r) = []
  /\ forall k m,
       omap_get k (mappings (clearMappingsForContentType T r)) = Some m
       <-> (omap_get k (mappings r) = Some m /\ IdMapping.contentType m <> T).
Proof.
  set (P := fun x : IdMapping.t => String.eqb (IdMapping.contentType x) T).
  set (keys := map fst (filter (fun e => P (snd e)) (mappings r))).
  assert (Hiff : forall k m,
             omap_get k (fold_left (fun acc key => omap_delete key acc) keys
                           (mappings r)) = Some m
             <-> (omap_get k (mappings r) = Some m /\ IdMapping.contentType m <> T)).
  { intros k m. destruct (in_dec string_dec k keys) as [Hin|Hnotin].
    - rewrite omap_get_delete_all_in by assumption.
      apply (in_selected_keys P) in Hin as (x & Hx & HPx); [|exact Hu].
      split; [discriminate|]. intros [Hget Hne]. rewrite Hx in Hget.
      inversion Hget. subst x. unfold P in HPx. apply String.eqb_eq in HPx.
      contradiction.
    - rewrite omap_get_delete_all_notin by assumption. split.
      + intro Hget. split; [exact Hget|]. intro Heq. apply Hnotin.
        apply (in_selected_keys P); [exact Hu|]. exists m. split; [exact Hget|].
        unfold P. apply String.eqb_eq. exact Heq.
      + tauto. }
  split; [|exact Hiff].
  unfold getMappingsForContentType, clearMappingsForContentType.
  cbn [mappings]. fold P. fold keys.
  rewrite filter_nil_iff; [reflexivity|].
  intros [k m] Hin. cbn [snd].
  apply in_unique_get in Hin; [|apply unique_keys_delete_all, Hu].
  apply Hiff in Hin as [_ Hne].
  apply String.eqb_neq. exact Hne.
Qed.

Lemma clearMappingsForContentType_exact_witness :
  getMappingsForContentType "article"
    (clearMappingsForContentType "article" registry_string_seven) = [].
Proof.
  apply (clearMappingsForContentType_exact "article" registry_string_seven).
  repeat constructor. simpl. tauto.
Defined.

(** *** Statistics *)

Lemma set_add_spec (s : list string) (x y : string) :
  In y (set_add s x) <-> In y s \/ y = x.
Proof.
  unfold set_add. destruct (existsb (String.eqb x) s) eqn:E.
  - split; [tauto|]. intros [H|H]; [exact H|]. subst y.
    apply existsb_exists in E as (z & Hz & Heq).
    apply String.eqb_eq in Heq. subst z. exact Hz.
  - rewrite in_app_iff. simpl. split; intros [H|H]; try tauto.
    + destruct H; [right; congruence | tauto].
    + right. left. congruence.
Qed.

Lemma set_add_NoDup (s : list string) (x : string) :
  NoDup s -> NoDup (set_add s x).
Proof.
  intro H. unfold set_add. destruct (existsb (String.eqb x) s) eqn:E; [exact H|].
  apply NoDup_app; [exact H | repeat constructor; simpl; tauto |].
  intros y Hy [Heq|[]]. subst y.
  assert (Hex : existsb (String.eqb x) s = true).
  { apply existsb_exists. exists x. split; [exact Hy | apply String.eqb_refl]. }
  congruence.
Qed.

Lemma statistics_contentTypes (entries : list (string * IdMapping.t))
  (cts : list string) (o n : string) :
  NoDup cts ->
  NoDup (fst (fst (fold_left statistics_step entries (cts, o, n))))
  /\ forall T,
       In T (fst (fst (fold_left statistics_step entries (cts, o, n))))
       <-> In T cts \/ exists e, In e entries /\ IdMapping.contentType (snd e) = T.
Proof.
  revert cts o n. induction entries as [|e entries IH]; intros cts o n Hnd.
  - simpl. split; [exact Hnd|]. intro T. split; [tauto|].
    intros [H|(e & [] & _)]. exact H.
  - cbn [fold_left]. unfold statistics_step at 2 4.
    destruct (IH (set_add cts (IdMapping.contentType (snd e)))
                (if String.eqb o "" || String.ltb (IdMapping.createdAt (snd e)) o
                 then IdMapping.createdAt (snd e) else o)
                (if String.eqb n "" || String.ltb n (IdMapping.createdAt (snd e))
                 then IdMapping.createdAt (snd e) else n)
                (set_add_NoDup _ _ Hnd)) as [H1 H2].
    split; [exact H1|]. intro T. rewrite H2, set_add_spec. split.
    + intros [[H|H]|(e' & He' & HT)].
      * tauto.
      * right. exists e. split; [left; reflexivity | congruence].
      * right. exists e'. split; [right; exact He' | exact HT].
    + intros [H|(e' & [He'|He'] & HT)].
      * tauto.
      * subst e'. left. right. congruence.
      * right. exists e'. tauto.
Qed.

(** X4. [getStatistics] counts every record, and lists every resource
    type that has a record, each once. *)
Theorem getStatistics_contentTypes (r : Registry) :
  Statistics.totalMappings (getStatistics r) = List.length (mappings r)
  /\ NoDup (Statistics.contentTypes (getStatistics r))
  /\ forall T,
       In T (Statistics.contentTypes (getStatistics r))
       <-> exists k m, In (k, m) (mappings r) /\ IdMapping.contentType m = T.
Proof.
  unfold getStatistics.
  destruct (statistics_contentTypes (mappings r) [] "" "" (NoDup_nil _)) as [H1 H2].
  destruct (fold_left statistics_step (mappings r) ([], "", ""))
    as [[cts o] n] eqn:E.
  cbn [fst] in H1, H2. cbn [Statistics.totalMappings Statistics.contentTypes].
  split; [reflexivity|]. split; [exact H1|].
  intro T. rewrite H2. split.
  - intros [[]|([k m] & Hin & HT)]. exists k, m. tauto.
  - intros (k & m & Hin & HT). right. exists (k, m). tauto.
Qed.

(** The order of [<] on strings is transitive. *)
Lemma ascii_compare_lt_trans (a b c : ascii) :
  Ascii.compare a b = Lt -> Ascii.compare b c = Lt -> Ascii.compare a c = Lt.
Proof.
  unfold Ascii.compare. rewrite !N.compare_lt_iff. apply N.lt_trans.
Qed.

Lemma string_compare_lt_trans (a b c : string) :
  String.compare a b = Lt -> String.compare b c = Lt -> String.compare a c = Lt.
Proof.
  revert b c. induction a as [|x a IH]; intros [|y b] [|z c]; simpl;
    try discriminate; try reflexivity.
  destruct (Ascii.compare x y) eqn:Exy; try discriminate.
  - apply Ascii.compare_eq_iff in Exy. subst y.
    destruct (Ascii.compare x z); try discriminate; [apply IH | reflexivity].
  - intros _. destruct (Ascii.compare y z) eqn:Eyz; try discriminate.
    + apply Ascii.compare_eq_iff in Eyz. subst z. rewrite Exy. reflexivity.
    + intros _. rewrite (ascii_compare_lt_trans x y z Exy Eyz). reflexivity.
Qed.

Lemma string_ltb_irrefl (a : string) : String.ltb a a = false.
Proof.
  unfold String.ltb. pose proof (String.compare_antisym a a) as H.
  destruct (String.compare a a); try reflexivity; discriminate.
Qed.

Lemma string_ltb_trans (a b c : string) :
  String.ltb a b = true -> String.ltb b c = true -> String.ltb a c = true.
Proof.
  unfold String.ltb. intros H1 H2.
  destruct (String.compare a b) eqn:E1; try discriminate.
  destruct (String.compare b c) eqn:E2; try discriminate.
  rewrite (string_compare_lt_trans a b c E1 E2). reflexivity.
Qed.

(** [a < b] and [b] not above [x] leave [x] not below [a]. *)
Lemma string_ltb_below (a b x : string) :
  String.ltb a b = true -> String.ltb x b = false -> String.ltb x a = false.
Proof.
  intros H1 H2. destruct (String.ltb x a) eqn:E; [|reflexivity].
  rewrite (string_ltb_trans x a b E H1) in H2. discriminate.
Qed.

Lemma string_ltb_above (a b x : string) :
  String.ltb b a = true -> String.ltb b x = false -> String.ltb a x = false.
Proof.
  intros H1 H2. destruct (String.ltb a x) eqn:E; [|reflexivity].
  rewrite (string_ltb_trans b a x H1 E) in H2. discriminate.
Qed.

Lemma statistics_dates (entries seen : list (string * IdMapping.t))
  (cts : list string) (o n : string) :
  (forall d, In d (dates entries) -> d <> "") ->
  (seen = [] /\ o = "" /\ n = "")
  \/ (o <> "" /\ n <> "" /\ oldest_of o (dates seen) /\ newest_of n (dates seen)) ->
  let '(_, o', n') := fold_left statistics_step entries (cts, o, n) in
  (seen ++ entries = [] /\ o' = "" /\ n' = "")
  \/ (o' <> "" /\ n' <> "" /\ oldest_of o' (dates (seen ++ entries))
      /\ newest_of n' (dates (seen ++ entries))).
Proof.
  revert seen cts o n.
  induction entries as [|e entries IH]; intros seen cts o n Hne Hinv.
  - simpl. rewrite app_nil_r. exact Hinv.
  - cbn [fold_left]. unfold statistics_step at 2.
    replace (seen ++ e :: entries) with ((seen ++ [e]) ++ entries)
      by (rewrite <- app_assoc; reflexivity).
    apply IH.
    + intros d Hd. apply Hne. right. exact Hd.
    + right.
      assert (Hc : IdMapping.createdAt (snd e) <> "").
      { apply Hne. left. reflexivity. }
      unfold dates. rewrite map_app. cbn [map]. fold (dates seen).
      destruct Hinv as [(Hs & Ho & Hn)|(Ho & Hn & [Hoin Homin] & [Hnin Hnmax])].
      * subst seen o n. cbn [String.eqb orb dates map app].
        repeat split; try assumption; try (left; reflexivity);
          intros d [Hd|[]]; subst d; apply string_ltb_irrefl.
      * apply String.eqb_neq in Ho as Ho', Hn as Hn'. rewrite Ho', Hn'.
        cbn [orb].
        split; [destruct (String.ltb _ o); assumption|].
        split; [destruct (String.ltb n _); assumption|].
        split.
        -- destruct (String.ltb (IdMapping.createdAt (snd e)) o) eqn:E.
           ++ split; [apply in_or_app; right; left; reflexivity|].
              intros d Hd. apply in_app_or in Hd as [Hd|[Hd|[]]].
              ** apply (string_ltb_below _ o); [exact E | apply Homin, Hd].
              ** subst d. apply string_ltb_irrefl.
           ++ split; [apply in_or_app; left; exact Hoin|].
              intros d Hd. apply in_app_or in Hd as [Hd|[Hd|[]]].
              ** apply Homin, Hd.
              ** subst d. exact E.
        -- destruct (String.ltb n (IdMapping.createdAt (snd e))) eqn:E.
           ++ split; [apply in_or_app; right; left; reflexivity|].
              intros d Hd. apply in_app_or in Hd as [Hd|[Hd|[]]].
              ** apply (string_ltb_above _ n); [exact E | apply Hnmax, Hd].
              ** subst d. apply string_ltb_irrefl.
           ++ split; [apply in_or_app; left; exact Hnin|].
              intros d Hd. apply in_app_or in Hd as [Hd|[Hd|[]]].
              ** apply Hnmax, Hd.
              ** subst d. exact E.
Qed.

(** X5. When every record has a creation date, [getStatistics] reports
    as oldest a date of some record that no record's date is below, and
    as newest one that no record's date is above; with no record at all
    it reports null for both. *)
Theorem getStatistics_dates (r : Registry)
  (Hdates : forall d, In d (dates (mappings r)) -> d <> "") :
  (mappings r = []
   /\ Statistics.oldestMapping (getStatistics r) = None
   /\ Statistics.newestMapping (getStatistics r) = None)
  \/ exists o n,
       Statistics.oldestMapping (getStatistics r) = Some o
       /\ Statistics.newestMapping (getStatistics r) = Some n
       /\ oldest_of o (dates (mappings r))
       /\ newest_of n (dates (mappings r)).
Proof.
  unfold getStatistics.
  pose proof (statistics_dates (mappings r) [] [] "" "" Hdates
                (or_introl (conj eq_refl (conj eq_refl eq_refl)))) as H.
  destruct (fold_left statistics_step (mappings r) ([], "", ""))
    as [[cts o] n].
  cbn [app] in H.
  cbn [Statistics.oldestMapping Statistics.newestMapping].
  destruct H as [(He & Ho & Hn)|(Ho & Hn & Hold & Hnew)].
  - left. subst o n. repeat split. exact He.
  - right. exists o, n. unfold or_null.
    apply String.eqb_neq in Ho, Hn. rewrite Ho, Hn. repeat split;
      try apply Hold; try apply Hnew.
Qed.

Lemma getStatistics_dates_witness :
  (mappings registry_string_seven = []
   /\ Statistics.oldestMapping (getStatistics registry_string_seven) = None
   /\ Statistics.newestMapping (getStatistics registry_string_seven) = None)
  \/ exists o n,
       Statistics.oldestMapping (getStatistics registry_string_seven) = Some o
       /\ Statistics.newestMapping (getStatistics registry_string_seven) = Some n
       /\ oldest_of o (dates (mappings registry_string_seven))
       /\ newest_of n (dates (mappings registry_string_seven)).
Proof.
  apply (getStatistics_dates registry_string_seven).
  intros d [Hd|[]]. rewrite <- Hd. discriminate.
Defined.

(** ** The validator: reports, the response envelope, statistics *)

Lemma faithful_ok : faithful (Details.isValid Details.ok) (Details.errors Details.ok).
Proof. unfold faithful. simpl. tauto. Qed.

Lemma faithful_error (msg : string) (r : Details.t) :
  faithful (Details.isValid (Details.error msg r))
    (Details.errors (Details.error msg r)).
Proof.
  unfold faithful. simpl. split; [discriminate|].
  intro H. destruct (Details.errors r); discriminate.
Qed.

Lemma faithful_warning (msg : string) (r : Details.t) :
  faithful (Details.isValid r) (Details.errors r) ->
  faithful (Details.isValid (Details.warning msg r))
    (Details.errors (Details.warning msg r)).
Proof. intro H. exact H. Qed.

Lemma faithful_absorb (sub r : Details.t) :
  faithful (Details.isValid sub) (Details.errors sub) ->
  faithful (Details.isValid r) (Details.errors r) ->
  faithful (Details.isValid (Details.absorb sub r))
    (Details.errors (Details.absorb sub r)).
Proof.
  unfold faithful. simpl. intros [S1 S2] [R1 R2].
  destruct (Details.isValid sub).
  - rewrite (S1 eq_refl), app_nil_r. tauto.
  - split; [discriminate|]. intro H. apply app_eq_nil in H as [_ H].
    apply S2 in H. discriminate.
Qed.

Lemma faithful_forEach {A : Type} (bad : A -> bool) (msg : A -> nat -> string)
  (items : list A) (i : nat) (r : Details.t) :
  faithful (Details.isValid r) (Details.errors r) ->
  faithful
    (Details.isValid
       (forEach_indexed
          (fun x n acc => if bad x then Details.error (msg x n) acc else acc)
          i items r))
    (Details.errors
       (forEach_indexed
          (fun x n acc => if bad x then Details.error (msg x n) acc else acc)
          i items r)).
Proof.
  revert i r. induction items as [|x items IH]; intros i r H; simpl; [exact H|].
  apply IH. destruct (bad x); [apply faithful_error | exact H].
Qed.

Lemma faithful_validateRelationWithDetails (relation : jv) (format : StrapiFormat)
  (options : VOpts.t) (itemIndex : nat) (fieldName : string) :
  faithful
    (Details.isValid
       (validateRelationWithDetails relation format options itemIndex fieldName))
    (Details.errors
       (validateRelationWithDetails relation format options itemIndex fieldName)).
Proof.
  unfold validateRelationWithDetails.
  destruct (negb (jtruthy relation)); [apply faithful_ok|].
  destruct format.
  - destruct (negb (jdefined (jget relation "data"))); [apply faithful_error|].
    apply (faithful_forEach (fun relItem => negb (validateItem relItem V4 options))
             (fun _ relIndex =>
                (field_prefix itemIndex fieldName ++ ", relation "
                   ++ string_of_nat relIndex ++ ": Invalid v4 format")%string)).
    apply faithful_ok.
  - destruct relation;
      try (destruct (jtruthy _); [|apply faithful_ok];
           destruct (negb _); [apply faithful_error | apply faithful_ok]).
    apply (faithful_forEach (fun relItem => negb (validateItem relItem V5 options))
             (fun _ relIndex =>
                (field_prefix itemIndex fieldName ++ ", relation "
                   ++ string_of_nat relIndex ++ ": Invalid v5 format")%string)).
    apply faithful_ok.
Qed.

Lemma faithful_validateRelationsWithDetails (item : jv) (format : StrapiFormat)
  (options : VOpts.t) (index : nat) :
  faithful
    (Details.isValid (validateRelationsWithDetails item format options index))
    (Details.errors (validateRelationsWithDetails item format options index)).
Proof.
  unfold validateRelationsWithDetails.
  destruct (negb (jtruthy item) || negb (jis_object item)); [apply faithful_ok|].
  generalize Details.ok faithful_ok.
  induction (jentries item) as [|[key value] entries IH]; intros r Hr; simpl;
    [exact Hr|].
  apply IH.
  destruct (jtruthy value && jis_object value); [|exact Hr].
  destruct (isRelationField value format); [|exact Hr].
  apply faithful_absorb; [apply faithful_validateRelationWithDetails | exact Hr].
Qed.

Lemma faithful_validateItemWithDetails (item : jv) (expectedFormat : StrapiFormat)
  (options : VOpts.t) (index : nat) :
  faithful
    (Details.isValid (validateItemWithDetails item expectedFormat options index))
    (Details.errors (validateItemWithDetails item expectedFormat options index)).
Proof.
  unfold validateItemWithDetails.
  destruct (negb (jtruthy item) || negb (jis_object item)); [apply faithful_error|].
  cbv zeta.
  match goal with
  | |- context [if VOpts.checkRelations options then Details.absorb ?s ?r else _] =>
      assert (Hr : faithful (Details.isValid r) (Details.errors r))
  end.
  { destruct expectedFormat.
    - repeat match goal with
             | |- context [if ?c then _ else _] => destruct c
             end;
        repeat first [ apply faithful_warning | apply faithful_error
                     | apply faithful_ok ].
    - repeat match goal with
             | |- context [if ?c then _ else _] => destruct c
             end;
        repeat first [ apply faithful_warning | apply faithful_error
                     | apply faithful_ok ]. }
  destruct (VOpts.checkRelations options); [|exact Hr].
  apply faithful_absorb; [apply faithful_validateRelationsWithDetails | exact Hr].
Qed.

Lemma report_loop (expectedFormat : StrapiFormat) (opts : VOpts.t)
  (items : list jv) (i : nat) (report : ValidationReport.t) :
  let report' :=
    forEach_indexed (report_step expectedFormat opts) i items report in
  ValidationReport.itemCount report' = ValidationReport.itemCount report
  /\ ValidationReport.validItems report' + ValidationReport.invalidItems report'
     = ValidationReport.validItems report + ValidationReport.invalidItems report
       + List.length items
  /\ ((ValidationReport.invalidItems report = 0
       <-> ValidationReport.errors report = []) ->
      (ValidationReport.invalidItems report' = 0
       <-> ValidationReport.errors report' = [])).
Proof.
  revert i report. induction items as [|x items IH]; intros i report.
  - simpl. split; [reflexivity|]. split; [lia | tauto].
  - cbn [forEach_indexed]. cbv zeta.
    destruct (IH (S i) (report_step expectedFormat opts x i report))
      as (H1 & H2 & H3).
    rewrite H1, H2. clear H1 H2.
    pose proof (faithful_validateItemWithDetails x expectedFormat opts i) as Hf.
    unfold report_step in *. cbv zeta in *.
    destruct (Details.isValid (validateItemWithDetails x expectedFormat opts i));
      cbn [ValidationReport.itemCount ValidationReport.validItems
           ValidationReport.invalidItems ValidationReport.errors List.length] in *.
    + split; [reflexivity|]. split; [lia|]. intro H. apply H3. exact H.
    + split; [reflexivity|]. split; [lia|]. intros _. apply H3.
      split; [discriminate|]. intro E. apply app_eq_nil in E as [_ E].
      apply Hf in E. discriminate.
Qed.

Lemma report_sums (data : jv) (expectedFormat : StrapiFormat)
  (options : ValidationOptions.t) :
  ValidationReport.itemCount (getValidationReport data expectedFormat options)
  = ValidationReport.validItems (getValidationReport data expectedFormat options)
    + ValidationReport.invalidItems
        (getValidationReport data expectedFormat options)
  /\ faithful
       (ValidationReport.isValid (getValidationReport data expectedFormat options))
       (ValidationReport.errors (getValidationReport data expectedFormat options)).
Proof.
  unfold getValidationReport, faithful.
  destruct (jtruthy data) eqn:Ht; cbn [negb]; cbv zeta.
  2:{ simpl. repeat split; try tauto; lia. }
  set (items := match data with JArr l => l | _ => [data] end).
  destruct (report_loop expectedFormat (validation_defaults options) items 0
              (ValidationReport.mk true expectedFormat (List.length items) 0 0 [] []))
    as (H1 & H2 & H3).
  unfold report_step in H1, H2, H3. cbv zeta in H1, H2, H3.
  cbn [ValidationReport.itemCount ValidationReport.validItems
       ValidationReport.invalidItems ValidationReport.errors
       ValidationReport.isValid] in *.
  rewrite H1, H2, Nat.eqb_eq.
  assert (H0 : 0 = 0 <-> @nil string = []) by tauto.
  specialize (H3 H0).
  repeat split; try lia; try tauto.
Qed.

(** X6. A report of [getValidationReport] accounts for every item: the
    valid and the invalid items add up to the item count, which is the
    number of elements of an array and 1 for any other truthy value;
    and the report is valid exactly when it counts no invalid item,
    which is exactly when it lists no error. *)
Theorem getValidationReport_accounts (data : jv) (expectedFormat : StrapiFormat)
  (options : ValidationOptions.t) :
  let report := getValidationReport data expectedFormat options in
  ValidationReport.itemCount report
  = ValidationReport.validItems report + ValidationReport.invalidItems report
  /\ ValidationReport.itemCount report
     = (if jtruthy data
        then match data with JArr l => List.length l | _ => 1 end
        else 0)
  /\ (ValidationReport.isValid report = true
      <-> ValidationReport.invalidItems report = 0)
  /\ faithful (ValidationReport.isValid report) (ValidationReport.errors report).
Proof.
  unfold getValidationReport, faithful.
  destruct (jtruthy data) eqn:Ht; cbn [negb]; cbv zeta.
  2:{ simpl. repeat split; try tauto; lia. }
  set (items := match data with JArr l => l | _ => [data] end).
  assert (Hlen : List.length items
                 = match data with JArr l => List.length l | _ => 1 end).
  { unfold items. destruct data; reflexivity. }
  destruct (report_loop expectedFormat (validation_defaults options) items 0
              (ValidationReport.mk true expectedFormat (List.length items) 0 0 [] []))
    as (H1 & H2 & H3).
  unfold report_step in H1, H2, H3. cbv zeta in H1, H2, H3.
  cbn [ValidationReport.itemCount ValidationReport.validItems
       ValidationReport.invalidItems ValidationReport.errors
       ValidationReport.isValid] in *.
  rewrite H1, H2, <- Hlen, Nat.eqb_eq.
  assert (H0 : 0 = 0 <-> @nil string = []) by tauto.
  specialize (H3 H0).
  repeat split; try lia; try tauto.
Qed.

(** *** The pagination block *)

Lemma validatePagination_field_faithful (pagination : jv) (result : Check.t)
  (field : string) :
  faithful (Check.isValid result) (Check.errors result) ->
  faithful (Check.isValid (validatePagination_field pagination result field))
    (Check.errors (validatePagination_field pagination result field)).
Proof.
  intro H. unfold validatePagination_field.
  repeat match goal with
         | |- context [if ?c then _ else _] => destruct c
         end; try exact H;
    (unfold faithful; simpl; split; [discriminate|];
     intro E; destruct (Check.errors result); discriminate).
Qed.

Lemma validatePagination_field_valid (pagination : jv) (result : Check.t)
  (field : string) :
  Check.isValid (validatePagination_field pagination result field)
  = Check.isValid result && pagination_number (jget pagination field).
Proof.
  unfold validatePagination_field, pagination_number.
  destruct (jget pagination field) as [| | |[|z]| | |]; simpl;
    rewrite ?andb_false_r, ?andb_true_r; try reflexivity.
  rewrite Z.leb_antisym. destruct (Z.ltb z 0); simpl;
    rewrite ?andb_false_r, ?andb_true_r; reflexivity.
Qed.

Lemma validatePagination_faithful (pagination : jv) :
  faithful (Check.isValid (validatePagination pagination))
    (Check.errors (validatePagination pagination)).
Proof.
  unfold validatePagination.
  destruct (negb (jtruthy pagination) || negb (jis_object pagination)).
  - unfold faithful. simpl. split; discriminate.
  - cbv zeta. unfold requiredFields. cbn [fold_left].
    repeat apply validatePagination_field_faithful.
    unfold faithful. simpl. tauto.
Qed.

(** X7. [validatePagination] accepts a block exactly when it is an
    object (not null) whose four fields [page], [pageSize], [pageCount]
    and [total] are numbers that are not negative, [NaN] among them; and
    it lists an error exactly when it does not accept. *)
Theorem validatePagination_accepts (pagination : jv) :
  Check.isValid (validatePagination pagination)
  = jtruthy pagination && jis_object pagination
    && forallb (fun field => pagination_number (jget pagination field))
         requiredFields
  /\ faithful (Check.isValid (validatePagination pagination))
       (Check.errors (validatePagination pagination)).
Proof.
  split; [|apply validatePagination_faithful].
  unfold validatePagination.
  destruct (jtruthy pagination); cbn [negb orb andb]; [|reflexivity].
  destruct (jis_object pagination); cbn [negb orb andb]; [|reflexivity].
  cbv zeta. unfold requiredFields. cbn [fold_left forallb].
  rewrite !validatePagination_field_valid. cbn [Check.isValid andb].
  rewrite andb_true_r, !andb_assoc. reflexivity.
Qed.

(** X8. Whatever truthy block [normalizePagination] is given, what it
    returns passes [validatePagination] without an error: a field that
    it could not parse is [NaN], which the check takes for a number. *)
Theorem validatePagination_normalizePagination (pagination : jv)
  (Ht : jtruthy pagination = true) :
  validatePagination (normalizePagination pagination) = Check.mk true [].
Proof.
  destruct (normalizePagination_clamps pagination Ht)
    as (page & pageSize & pageCount & total & E & Hp & Hs & Hc & Htot).
  rewrite E. clear E.
  assert (Hnum : forall lo hi n, (0 <= lo)%Z -> clamped lo hi n ->
                   jnegative (JNum n) = false).
  { intros lo hi [|z] Hlo Hcl; [reflexivity|].
    simpl in *. apply Z.ltb_ge. lia. }
  unfold validatePagination. cbn [jtruthy jis_object negb orb].
  cbv zeta. unfold requiredFields. cbn [fold_left].
  unfold validatePagination_field.
  cbn [jget omap_get String.eqb Ascii.eqb Bool.eqb jdefined jis_number negb].
  rewrite (Hnum 1%Z None page), (Hnum 1%Z (Some 100%Z) pageSize),
    (Hnum 1%Z None pageCount), (Hnum 0%Z None total) by (assumption || lia).
  reflexivity.
Qed.

Lemma validatePagination_normalizePagination_witness :
  validatePagination (normalizePagination unparsable_page) = Check.mk true [].
Proof.
  apply (validatePagination_normalizePagination unparsable_page). reflexivity.
Defined.

(** *** The response envelope *)

(** X9. A report of [validateResponse] keeps the accounts of the data
    report that it absorbs: the valid and invalid items add up to the
    item count, and the report is valid exactly when it lists no error.
    When it is valid, the report of the [data] field alone is valid. *)
Theorem validateResponse_accounts (response : jv) (expectedFormat : StrapiFormat)
  (options : ValidationOptions.t) :
  let report := validateResponse response expectedFormat options in
  ValidationReport.itemCount report
  = ValidationReport.validItems report + ValidationReport.invalidItems report
  /\ faithful (ValidationReport.isValid report) (ValidationReport.errors report)
  /\ (ValidationReport.isValid report = true ->
      ValidationReport.isValid
        (getValidationReport (jget response "data") expectedFormat options) = true).
Proof.
  cbv zeta. unfold validateResponse.
  destruct (jtruthy response); cbn [negb].
  2:{ unfold faithful. simpl. repeat split; discriminate. }
  destruct (jis_object response); cbn [negb].
  2:{ unfold faithful. simpl. repeat split; discriminate. }
  cbv zeta.
  destruct (report_sums (jget response "data") expectedFormat options)
    as (Hc & Hf).
  set (dataReport := getValidationReport (jget response "data") expectedFormat
                       options) in *.
  assert (Hundef : jdefined (jget response "data") = false ->
                   ValidationReport.isValid dataReport = true).
  { intro Hd. unfold dataReport. destruct (jget response "data"); try discriminate.
    reflexivity. }
  pose proof (validatePagination_faithful
                (jget (jget response "meta") "pagination")) as Hp.
  set (check := validatePagination (jget (jget response "meta") "pagination")) in *.
  unfold faithful in *.
  destruct (jdefined (jget response "data")) eqn:Hd;
    destruct (jtruthy (jget response "meta"));
    try destruct (jis_object (jget response "meta"));
    try destruct (jtruthy (jget (jget response "meta") "pagination"));
    try destruct (Check.isValid check) eqn:Hv;
    cbn [negb ValidationReport.itemCount ValidationReport.validItems
         ValidationReport.invalidItems ValidationReport.errors
         ValidationReport.isValid Nat.add app];
    (split; [try reflexivity; exact Hc|]);
    (split; [|try (intro; discriminate); try (intros _; apply Hundef; reflexivity);
              try (destruct (ValidationReport.isValid dataReport);
                   intro; congruence)]).
  all: try tauto.
  all: try (destruct (ValidationReport.isValid dataReport); exact Hf).
  all: try (split; [discriminate|]; intro E; apply app_eq_nil in E as [_ E];
            first [discriminate | apply Hp in E; discriminate]).
  all: try (split; [discriminate|]; intro E;
            first [discriminate | apply Hp in E; discriminate]).
Qed.

(** *** Statistics *)

Lemma format_statistics_fold (items : list jv) (stats : FormatStatistics.t)
  (c : Counts) :
  FormatStatistics.totalItems stats = totalCount c ->
  FormatStatistics.v4Items stats = v4Count c ->
  FormatStatistics.v5Items stats = v5Count c ->
  FormatStatistics.totalItems stats
  = FormatStatistics.v4Items stats + FormatStatistics.v5Items stats
    + FormatStatistics.unknownItems stats ->
  let stats' := fold_left format_statistics_step items stats in
  let c' := fold_left count_item items c in
  FormatStatistics.totalItems stats' = totalCount c'
  /\ FormatStatistics.v4Items stats' = v4Count c'
  /\ FormatStatistics.v5Items stats' = v5Count c'
  /\ FormatStatistics.totalItems stats'
     = FormatStatistics.v4Items stats' + FormatStatistics.v5Items stats'
       + FormatStatistics.unknownItems stats'.
Proof.
  revert stats c. induction items as [|x items IH]; intros stats c H1 H2 H3 H4.
  - simpl. tauto.
  - cbn [fold_left]. apply IH; unfold format_statistics_step, count_item;
      destruct (jtruthy x && jis_object x);
      destruct (jdefined (jget x "id") && jdefined (jget x "attributes"));
      destruct (jdefined (jget x "documentId"));
      cbn [FormatStatistics.totalItems FormatStatistics.v4Items
           FormatStatistics.v5Items FormatStatistics.unknownItems
           totalCount v4Count v5Count]; lia.
Qed.

(** X10. The counts of [getFormatStatistics] add up, every object
    counted being legacy, modern or unknown, and the format it reports
    is the one that follows from its own counts. *)
Theorem getFormatStatistics_counts (data : jv) :
  let stats := getFormatStatistics data in
  FormatStatistics.totalItems stats
  = FormatStatistics.v4Items stats + FormatStatistics.v5Items stats
    + FormatStatistics.unknownItems stats
  /\ FormatStatistics.detectedFormat stats
     = format_of_counts (FormatStatistics.totalItems stats)
         (FormatStatistics.v4Items stats) (FormatStatistics.v5Items stats).
Proof.
  cbv zeta. unfold getFormatStatistics, detectFormat.
  destruct (jtruthy data); cbn [negb]; [|split; reflexivity].
  cbv zeta.
  set (items := match data with JArr l => l | _ => [data] end).
  destruct (format_statistics_fold items (FormatStatistics.mk 0 0 0 0 Unknown)
              (mkCounts 0 0 0) eq_refl eq_refl eq_refl eq_refl)
    as (H1 & H2 & H3 & H4).
  cbv zeta in H1, H2, H3, H4.
  cbn [FormatStatistics.totalItems FormatStatistics.v4Items
       FormatStatistics.v5Items FormatStatistics.unknownItems
       FormatStatistics.detectedFormat].
  split; [exact H4|].
  unfold format_of_counts. rewrite H1, H2, H3. reflexivity.
Qed.

Lemma transformation_stats_fold (items : list jv) (stats : TransformationStats.t)
  (c : Counts) :
  TransformationStats.totalItems stats = totalCount c ->
  TransformationStats.v4Items stats = v4Count c ->
  TransformationStats.v5Items stats = v5Count c ->
  let stats' := fold_left transformation_stats_step items stats in
  let c' := fold_left count_item items c in
  TransformationStats.totalItems stats' = totalCount c'
  /\ TransformationStats.v4Items stats' = v4Count c'
  /\ TransformationStats.v5Items stats' = v5Count c'.
Proof.
  revert stats c. induction items as [|x items IH]; intros stats c H1 H2 H3.
  - simpl. tauto.
  - cbn [fold_left]. apply IH; unfold transformation_stats_step, count_item;
      destruct (jtruthy x && jis_object x);
      destruct (jdefined (jget x "id") && jdefined (jget x "attributes"));
      destruct (jdefined (jget x "documentId"));
      cbn [TransformationStats.totalItems TransformationStats.v4Items
           TransformationStats.v5Items totalCount v4Count v5Count]; lia.
Qed.

(** X11. [getTransformationStats] of the transformer and
    [getFormatStatistics] of the validator count alike, and the
    transformer's [mixedFormat] flag is set exactly when [detectFormat]
    answers mixed. *)
Theorem getTransformationStats_detectFormat (data : jv) :
  TransformationStats.totalItems (getTransformationStats data)
  = FormatStatistics.totalItems (getFormatStatistics data)
  /\ TransformationStats.v4Items (getTransformationStats data)
     = FormatStatistics.v4Items (getFormatStatistics data)
  /\ TransformationStats.v5Items (getTransformationStats data)
     = FormatStatistics.v5Items (getFormatStatistics data)
  /\ (TransformationStats.mixedFormat (getTransformationStats data) = true
      <-> detectFormat data = Mixed).
Proof.
  unfold getTransformationStats, getFormatStatistics, detectFormat.
  cbv zeta.
  set (items := match data with JArr l => l | _ => [data] end).
  destruct (transformation_stats_fold items (TransformationStats.mk 0 0 0 false)
              (mkCounts 0 0 0) eq_refl eq_refl eq_refl) as (T1 & T2 & T3).
  destruct (format_statistics_fold items (FormatStatistics.mk 0 0 0 0 Unknown)
              (mkCounts 0 0 0) eq_refl eq_refl eq_refl eq_refl)
    as (F1 & F2 & F3 & _).
  cbv zeta in T1, T2, T3, F1, F2, F3.
  cbn [TransformationStats.totalItems TransformationStats.v4Items
       TransformationStats.v5Items TransformationStats.mixedFormat].
  rewrite T1, T2, T3.
  destruct (jtruthy data) eqn:Ht; cbn [negb].
  - cbn [FormatStatistics.totalItems FormatStatistics.v4Items
         FormatStatistics.v5Items].
    rewrite F1, F2, F3. repeat split; try reflexivity.
    + intro H. apply andb_true_iff in H as [H4 H5].
      pose proof H4 as H4'. pose proof H5 as H5'.
      apply Nat.ltb_lt in H4', H5'.
      pose proof (count_item_fold items (mkCounts 0 0 0)) as Hc.
      assert (Htot : totalCount (fold_left count_item items (mkCounts 0 0 0)) <> 0).
      { rewrite Hc in *. cbn [totalCount v4Count Nat.add] in *.
        intro Hz. clear - Hz H4'.
        induction items as [|x items IH]; simpl in *; [lia|].
        unfold is_item in *. destruct (jtruthy x && jis_object x); simpl in *;
          [lia | apply IH; assumption]. }
      apply Nat.eqb_neq in Htot. rewrite Htot, H4, H5.
      replace (Nat.eqb (v5Count _) 0) with false
        by (symmetry; apply Nat.eqb_neq; lia).
      replace (Nat.eqb (v4Count _) 0) with false
        by (symmetry; apply Nat.eqb_neq; lia).
      reflexivity.
    + intro H.
      destruct (Nat.eqb (totalCount _) 0); [discriminate|].
      destruct (Nat.ltb 0 (v4Count _)) eqn:E4;
        destruct (Nat.ltb 0 (v5Count _)) eqn:E5;
        destruct (Nat.eqb (v5Count _) 0); destruct (Nat.eqb (v4Count _) 0);
        simpl in *; try discriminate; reflexivity.
  - assert (Hitems : fold_left count_item items (mkCounts 0 0 0) = mkCounts 0 0 0).
    { unfold items. destruct data as [| |b|[|z]|s| |]; try discriminate;
        cbn [fold_left]; unfold count_item; try rewrite Ht; reflexivity. }
    rewrite Hitems. simpl. repeat split; discriminate.
Qed.

(** X12. [needsTransformation] never asks for the transformation of an
    array, whatever its items; for any other value it asks for the
    legacy to modern transformation exactly when [detectFormat] answers
    legacy, and it asks for no transformation between equal formats. *)
Theorem needsTransformation_detectFormat (data : jv) :
  (forall l s t, needsTransformation (JArr l) s t = false)
  /\ (forall s, needsTransformation data s s = false)
  /\ (needsTransformation data V4 V5 = true
      <-> detectFormat data = Known V4 /\ forall l, data <> JArr l).
Proof.
  split; [|split].
  - intros l [] []; reflexivity.
  - intros []; reflexivity.
  - unfold needsTransformation, detectFormat. cbn [format_eqb].
    destruct data as [| |b|[|z]|s|l|ps];
      try (simpl; split; [discriminate | intros [H _]; discriminate]).
    + destruct b; simpl; (split; [discriminate | intros [H _]; discriminate]).
    + unfold count_item. cbn [jis_object fold_left jget jdefined andb].
      rewrite andb_false_r.
      destruct (negb (jtruthy (JNum (Int z)))); simpl;
        (split; [discriminate | intros [H _]; discriminate]).
    + unfold count_item. cbn [jis_object fold_left jget jdefined andb].
      rewrite andb_false_r.
      destruct (negb (jtruthy (JStr s))); simpl;
        (split; [discriminate | intros [H _]; discriminate]).
    + cbn [jtruthy negb jget jdefined andb]. split; [discriminate|].
      intros [_ H]. exfalso. apply (H l). reflexivity.
    + cbn [jtruthy negb fold_left]. unfold count_item.
      cbn [jtruthy jis_object andb].
      destruct (jdefined (jget (JObj ps) "id")
                && jdefined (jget (JObj ps) "attributes")).
      * simpl. split; [|reflexivity]. intros _. split; [reflexivity|].
        intros l H. discriminate.
      * destruct (jdefined (jget (JObj ps) "documentId")); simpl;
          (split; [discriminate | intros [H _]; discriminate]).
Qed.

(** *** The pagination block between the two formats *)

(** X13. Towards the modern format [mapPagination] keeps every field
    of the block as it is, a falsy one such as [page: 0] included, and
    adds the default of each of the four standard fields that the block
    does not have; it adds nothing else. *)
Theorem mapPagination_modern_keeps_fields (ps : list (string * jv))
  (Hu : unique_keys ps) :
  (forall k v, omap_get k ps = Some v ->
     jget (mapPagination (JObj ps) V4 V5) k = v)
  /\ (forall k, omap_get k ps = None ->
       jget (mapPagination (JObj ps) V4 V5) k = jget (JObj default_pagination) k).
Proof.
  unfold mapPagination. cbn [jtruthy negb orb format_eqb jown_props].
  cbv zeta. split.
  - intros k v Hk. cbn [jget]. rewrite (omap_get_assign _ ps k v Hu Hk). reflexivity.
  - intros k Hk. cbn [jget].
    rewrite omap_get_assign_absent.
    + unfold default_pagination. cbn [omap_get jget].
      repeat (match goal with
              | |- context [String.eqb k ?f] =>
                  destruct (String.eqb_spec k f) as [->|_];
                    [rewrite Hk; reflexivity|]
              end).
      reflexivity.
    + intro Hin. apply in_map_iff in Hin as ([k' v] & Heq & Hin).
      cbn [fst] in Heq. subst k'.
      apply (in_unique_get _ _ _ Hu) in Hin. congruence.
Qed.

Lemma mapPagination_modern_keeps_fields_witness :
  jget (mapPagination (JObj [("page", JNum (Int 0)); ("cursor", JStr "c")]) V4 V5)
    "page" = JNum (Int 0).
Proof.
  apply (proj1 (mapPagination_modern_keeps_fields
                  [("page", JNum (Int 0)); ("cursor", JStr "c")]
                  ltac:(repeat constructor; simpl; intuition discriminate))).
  reflexivity.
Defined.

(** ** The validator under laxer options *)

(** Induction on a JSON value with the hypothesis for every element of
    an array and every property value of an object. *)
Lemma jv_nested_ind (P : jv -> Prop)
  (HUndef : P JUndef) (HNull : P JNull) (HBool : forall b, P (JBool b))
  (HNum : forall n, P (JNum n)) (HStr : forall s, P (JStr s))
  (HArr : forall l, Forall P l -> P (JArr l))
  (HObj : forall ps, Forall (fun kv => P (snd kv)) ps -> P (JObj ps)) :
  forall v, P v.
Proof.
  fix IH 1. intros [| |b|n|s|l|ps].
  - exact HUndef.
  - exact HNull.
  - apply HBool.
  - apply HNum.
  - apply HStr.
  - apply HArr. induction l as [|x l IHl]; constructor; [apply IH | exact IHl].
  - apply HObj. induction ps as [|[k x] ps IHps]; constructor;
      [apply IH | exact IHps].
Qed.

Lemma forallb_weaken {A : Type} (p q : A -> bool) (l : list A) :
  Forall (fun x => p x = true -> q x = true) l ->
  forallb p l = true -> forallb q l = true.
Proof.
  induction 1 as [|x l Hx _ IH]; simpl; [reflexivity|].
  intro H. apply andb_true_iff in H as [H1 H2].
  rewrite (Hx H1), (IH H2). reflexivity.
Qed.

Lemma with_prop_weaken (k : string) (f g : jv -> bool) (ps : list (string * jv)) :
  Forall (fun kv => f (snd kv) = true -> g (snd kv) = true) ps ->
  with_prop k f true ps = true -> with_prop k g true ps = true.
Proof.
  induction 1 as [|[k' x] ps Hx _ IH]; simpl; [reflexivity|].
  destruct (String.eqb k k'); [exact Hx | exact IH].
Qed.

Section Laxer.
Variables options options' : VOpts.t.
Hypothesis Hlax : laxer options options'.

Lemma kept_scalar (v : jv) :
  jis_object v = false -> kept options options' v.
Proof.
  intro Hv. unfold kept, validateRelations, validateRelation.
  split; [|split; [|split]].
  - intros f _. rewrite validateItem_unfold, Hv, orb_true_r. reflexivity.
  - intros f _. unfold validateRelations_body. rewrite Hv, orb_true_r. reflexivity.
  - intros f. unfold validateRelation_body.
    destruct (negb (jtruthy v)); [reflexivity|].
    destruct v; try discriminate; destruct f; simpl; trivial.
  - intros f l E. subst v. discriminate.
Qed.

Lemma kept_items (f : StrapiFormat) (l : list jv) :
  Forall (kept options options') l ->
  forallb (fun i => validateItem i f options) l = true ->
  forallb (fun i => validateItem i f options') l = true.
Proof.
  intro H. apply forallb_weaken.
  apply Forall_impl with (2 := H). intros x Hx. apply Hx.
Qed.

Lemma kept_relation_ok (f : StrapiFormat) (v : jv) :
  kept options options' v ->
  relation_ok validateItem f options v = true ->
  relation_ok validateItem f options' v = true.
Proof.
  intros (_ & _ & H & _). unfold relation_ok.
  destruct (jtruthy v && jis_object v); [|reflexivity].
  destruct (isRelationField v f); [apply H | reflexivity].
Qed.

Lemma laxer_item (v : jv) (f : StrapiFormat) :
  (VOpts.checkRelations options' = true ->
   on_prop v "attributes"
     (fun attributes => validateRelations attributes V4 options) true = true ->
   on_prop v "attributes"
     (fun attributes => validateRelations attributes V4 options') true = true) ->
  (validateRelations v V5 options = true ->
   validateRelations v V5 options' = true) ->
  validateItem v f options = true -> validateItem v f options' = true.
Proof.
  intros H4 H5. rewrite !validateItem_unfold.
  destruct (negb (jtruthy v) || negb (jis_object v)); [reflexivity|].
  destruct Hlax as (Hs & Hc & Hm).
  unfold validateV4Item, validateV5Item, validateV4Item_body, validateV5Item_body.
  fold validateRelations.
  destruct f.
  - destruct (jtruthy (jget v "id")); destruct (jtruthy (jget v "attributes"));
      destruct (jis_object (jget v "attributes"));
      destruct (jtruthy (jget v "documentId"));
      destruct (VOpts.strict options); destruct (VOpts.strict options');
      destruct (VOpts.allowMixed options); destruct (VOpts.allowMixed options');
      destruct (VOpts.checkRelations options);
      destruct (VOpts.checkRelations options');
      cbn [andb negb orb]; intro H; try reflexivity; try discriminate;
      try (apply H4; [reflexivity | exact H]);
      try (specialize (Hs eq_refl); discriminate);
      try (specialize (Hc eq_refl); discriminate);
      try (specialize (Hm eq_refl); discriminate).
  - destruct (jtruthy (jget v "id")); destruct (jtruthy (jget v "attributes"));
      destruct (jis_object v);
      destruct (jtruthy (jget v "documentId"));
      destruct (VOpts.strict options); destruct (VOpts.strict options');
      destruct (VOpts.allowMixed options); destruct (VOpts.allowMixed options');
      destruct (VOpts.checkRelations options);
      destruct (VOpts.checkRelations options');
      cbn [andb negb orb]; intro H; try reflexivity; try discriminate;
      try (apply H5; exact H);
      try (specialize (Hs eq_refl); discriminate);
      try (specialize (Hc eq_refl); discriminate);
      try (specialize (Hm eq_refl); discriminate).
Qed.

Lemma laxer_kept : forall v, kept options options' v.
Proof.
  induction v as [| |b|n|s|l IH|ps IH] using jv_nested_ind;
    try (apply kept_scalar; reflexivity).
  - (* null *)
    unfold kept, validateRelations, validateRelation.
    split; [|split; [|split]]; try reflexivity.
    intros f l0 E. discriminate.
  - (* an array *)
    assert (Hrels : forall f, validateRelations (JArr l) f options = true ->
                              validateRelations (JArr l) f options' = true).
    { intro f. unfold validateRelations, validateRelations_body.
      cbn [jtruthy jis_object negb orb].
      apply forallb_weaken. apply Forall_impl with (2 := IH).
      intros x Hx. apply kept_relation_ok, Hx. }
    assert (Hitem : forall f, validateItem (JArr l) f options = true ->
                              validateItem (JArr l) f options' = true).
    { intro f. apply laxer_item; [intros _ _; reflexivity | apply Hrels]. }
    unfold kept. split; [|split; [|split]]; try assumption.
    + intro f. unfold validateRelation, validateRelation_body.
      cbn [jtruthy negb on_prop]. destruct f; [reflexivity|].
      apply kept_items, IH.
    + intros f l0 E. inversion E. subst l0. apply kept_items, IH.
  - (* an object *)
    assert (Hrels : forall f, validateRelations (JObj ps) f options = true ->
                              validateRelations (JObj ps) f options' = true).
    { intro f. unfold validateRelations, validateRelations_body.
      cbn [jtruthy jis_object negb orb].
      apply forallb_weaken. apply Forall_impl with (2 := IH).
      intros [k x] Hx. apply kept_relation_ok, Hx. }
    assert (Hitem : forall f, validateItem (JObj ps) f options = true ->
                              validateItem (JObj ps) f options' = true).
    { intro f. apply laxer_item; [|apply Hrels].
      intros _. cbn [on_prop]. apply with_prop_weaken.
      apply Forall_impl with (2 := IH). intros [k x] Hx. apply Hx. }
    unfold kept. split; [|split; [|split]]; try assumption.
    + intro f. unfold validateRelation, validateRelation_body.
      cbn [jtruthy negb on_prop]. destruct f.
      * apply with_prop_weaken. apply Forall_impl with (2 := IH).
        intros [k x] (Hx1 & _ & _ & Hx4). cbn [snd].
        destruct (jdefined x); [|reflexivity].
        destruct x; try apply Hx1.
        apply (Hx4 V4 _ eq_refl).
      * destruct (jtruthy (jget (JObj ps) "documentId")); [apply Hitem | reflexivity].
    + intros f l E. discriminate.
Qed.
End Laxer.

(** X14. Laxer options accept whatever stricter ones accept: when
    [validateFormat] accepts data under some options, it accepts them
    under any options that are strict only if the first are, check
    relations only if the first do, and allow mixed items whenever the
    first do. *)
Theorem validateFormat_laxer (data : jv) (expectedFormat : StrapiFormat)
  (options options' : ValidationOptions.t)
  (Hlax : laxer (validation_defaults options) (validation_defaults options'))
  (Hvalid : validateFormat data expectedFormat options = true) :
  validateFormat data expectedFormat options' = true.
Proof.
  revert Hvalid. unfold validateFormat.
  destruct (negb (jtruthy data)); [reflexivity|]. cbv zeta.
  pose proof (laxer_kept _ _ Hlax) as Hk.
  destruct data; try apply Hk.
  apply forallb_weaken. apply Forall_forall. intros x _. apply Hk.
Qed.

Lemma validateFormat_laxer_witness :
  validateFormat (JObj [("id", JNum (Int 1))]) V4
    (ValidationOptions.mk (Some false) (Some true) (Some false) None) = true.
Proof.
  apply (validateFormat_laxer (JObj [("id", JNum (Int 1))]) V4
           ValidationOptions.empty
           (ValidationOptions.mk (Some false) (Some true) (Some false) None)).
  - unfold laxer. simpl. repeat split; intro H; try discriminate H; reflexivity.
  - reflexivity.
Defined.

(** X15. The [maxDepth] option has no effect on [validateFormat]:
    option sets that differ in nothing else give the same answer. *)
Theorem validateFormat_ignores_maxDepth (data : jv) (expectedFormat : StrapiFormat)
  (options : ValidationOptions.t) (depth : option Z) :
  validateFormat data expectedFormat
    (ValidationOptions.mk (ValidationOptions.strict options)
       (ValidationOptions.allowMixed options)
       (ValidationOptions.checkRelations options) depth)
  = validateFormat data expectedFormat options.
Proof.
  set (options' := ValidationOptions.mk _ _ _ depth).
  assert (Hto : laxer (validation_defaults options) (validation_defaults options')).
  { unfold laxer. simpl. tauto. }
  assert (Hfrom : laxer (validation_defaults options') (validation_defaults options)).
  { unfold laxer. simpl. tauto. }
  assert (Hmono : forall o o', laxer (validation_defaults o) (validation_defaults o') ->
            validateFormat data expectedFormat o = true ->
            validateFormat data expectedFormat o' = true).
  { intros o o' Hlax. unfold validateFormat.
    destruct (negb (jtruthy data)); [reflexivity|]. cbv zeta.
    pose proof (laxer_kept _ _ Hlax) as Hk.
    destruct data; try apply Hk.
    apply forallb_weaken. apply Forall_forall. intros x _. apply Hk. }
  destruct (validateFormat data expectedFormat options) eqn:E1;
    destruct (validateFormat data expectedFormat options') eqn:E2;
    try reflexivity.
  - rewrite (Hmono _ _ Hto E1) in E2. discriminate.
  - rewrite (Hmono _ _ Hfrom E2) in E1. discriminate.
Qed.

(** ** What the transformer leaves as it was *)

Section Preserved.
(** A relation between the state before and the state after that every
    step of the transformer keeps. *)
Variable R : state -> state -> Prop.
Hypothesis R_refl : forall st, R st st.
Hypothesis R_trans : forall a b c, R a b -> R b c -> R a c.
Hypothesis R_alloc : forall o, preserves R (alloc o).
Hypothesis R_warn : forall msg, preserves R (console_warn msg).
Hypothesis R_mapV4ToV5 : forall v T, preserves R (IdMapper_mapV4ToV5 v T).
Hypothesis R_finally : forall l st st',
  cache_has (CIRCULAR_REF_CACHE st) l = false ->
  R (with_cache (cache_add (CIRCULAR_REF_CACHE st) l) st) st' ->
  R st (with_cache (cache_delete (CIRCULAR_REF_CACHE st') l) st').

Lemma preserves_ret {A : Type} (a : A) : preserves R (ret a).
Proof. intro st. apply R_refl. Qed.

Lemma preserves_out_of_fuel {A : Type} : preserves R (@out_of_fuel A).
Proof. intro st. exact I. Qed.

Lemma preserves_get_heap : preserves R get_heap.
Proof. intro st. apply R_refl. Qed.

Lemma preserves_mapV5ToV4 (v : val) (T : string) :
  preserves R (IdMapper_mapV5ToV4 v T).
Proof. intro st. unfold IdMapper_mapV5ToV4. destruct v; apply R_refl. Qed.

Lemma preserves_bind {A B : Type} (m : M A) (f : A -> M B) :
  preserves R m -> (forall a, preserves R (f a)) -> preserves R (bind m f).
Proof.
  intros Hm Hf st. unfold bind. specialize (Hm st).
  destruct (m st) as [a st'| |]; try assumption.
  specialize (Hf a st'). destruct (f a st'); try exact I;
    eapply R_trans; eassumption.
Qed.

Lemma preserves_mapM {A B : Type} (f : A -> M B) (l : list A) :
  (forall x, preserves R (f x)) -> preserves R (mapM f l).
Proof.
  intro Hf. induction l as [|x l IH]; simpl.
  - apply preserves_ret.
  - apply preserves_bind; [apply Hf|]. intro y.
    apply preserves_bind; [exact IH|]. intro ys. apply preserves_ret.
Qed.

Lemma preserves_rewrite_objects (g : val -> M val) (ps : list (string * val)) :
  (forall v, preserves R (g v)) -> preserves R (rewrite_objects g ps).
Proof.
  intro Hg. induction ps as [|[k v] ps IH]; simpl.
  - apply preserves_ret.
  - apply preserves_bind.
    + destruct (truthy v && is_object v); [apply Hg | apply preserves_ret].
    + intro v'. apply preserves_bind; [exact IH|]. intro r. apply preserves_ret.
Qed.

Lemma preserves_array_map (f : val -> M val) (a : val) :
  (forall x, preserves R (f x)) -> preserves R (array_map f a).
Proof.
  intro Hf. unfold array_map.
  apply preserves_bind; [apply preserves_get_heap|]. intro h.
  apply preserves_bind; [apply preserves_mapM, Hf|]. intro items. apply R_alloc.
Qed.

Ltac keep :=
  repeat first
    [ apply preserves_ret
    | apply preserves_out_of_fuel
    | apply preserves_get_heap
    | apply R_alloc
    | apply R_warn
    | apply R_mapV4ToV5
    | apply preserves_mapV5ToV4
    | apply preserves_bind
    | apply preserves_array_map
    | apply preserves_rewrite_objects
    | apply preserves_mapM
    | match goal with
      | |- forall _, _ => intro
      | |- preserves R (if ?c then _ else _) => destruct c
      | |- preserves R (match ?x with V4 => _ | V5 => _ end) => destruct x
      end
    | solve [auto] ].

Lemma preserves_transformMedia (media : val) (s t : StrapiFormat) :
  preserves R (transformMedia media s t).
Proof.
  unfold transformMedia, transformV4MediaToV5, transformV5MediaToV4. keep.
Qed.

Lemma transformer_preserves (fuel : nat) :
  (forall data s t options, preserves R (transform fuel data s t options))
  /\ (forall data options, preserves R (transformV4ToV5 fuel data options))
  /\ (forall item options, preserves R (transformV4ItemToV5 fuel item options))
  /\ (forall data options, preserves R (transformV5ToV4 fuel data options))
  /\ (forall item options, preserves R (transformV5ItemToV4 fuel item options))
  /\ (forall data s t options,
        preserves R (transformNestedData fuel data s t options))
  /\ (forall data s t options,
        preserves R (transformRelationData fuel data s t options)).
Proof.
  induction fuel as [|fuel (IHt & IH45 & IH45i & IH54 & IH54i & IHn & IHr)].
  - repeat split; intros; simpl; apply preserves_out_of_fuel.
  - pose proof preserves_transformMedia as Hmedia.
    split; [|repeat split; intros; simpl; keep].
    intros data s t options. simpl.
    destruct (format_eqb s t); [keep|].
    destruct (Z.ltb MAX_DEPTH _); [keep|].
    assert (Hbody : preserves R
              match s, t with
              | V4, V5 => transformV4ToV5 fuel data (transform_defaults options)
              | V5, V4 => transformV5ToV4 fuel data (transform_defaults options)
              | _, _ => ret data
              end) by (destruct s, t; keep).
    intro st.
    destruct data as [| | | | |l];
      try (specialize (Hbody st); destruct s, t; exact Hbody).
    destruct (cache_has (CIRCULAR_REF_CACHE st) l) eqn:Hc.
    + revert st Hc. intros st _. revert st. keep.
    + unfold finally.
      specialize (Hbody (with_cache (cache_add (CIRCULAR_REF_CACHE st) l) st)).
      destruct (match s, t with
                | V4, V5 => transformV4ToV5 fuel (VRef l) (transform_defaults options)
                | V5, V4 => transformV5ToV4 fuel (VRef l) (transform_defaults options)
                | _, _ => ret (VRef l)
                end (with_cache (cache_add (CIRCULAR_REF_CACHE st) l) st))
        as [a st'|e st'|]; try exact I; apply R_finally; assumption.
Qed.
End Preserved.

Lemma same_cache_transformer (fuel : nat) (data : val) (s t : StrapiFormat)
  (options : TransformationOptions.t) :
  preserves same_cache (transform fuel data s t options).
Proof.
  apply (transformer_preserves same_cache); unfold same_cache, preserves.
  - reflexivity.
  - intros a b c H1 H2. congruence.
  - intros o st. reflexivity.
  - intros msg st. reflexivity.
  - intros v T st. unfold IdMapper_mapV4ToV5.
    destruct (mapV4ToV5 _ v T (idmap st)). reflexivity.
  - intros l st st' Hc H. cbn [CIRCULAR_REF_CACHE with_cache] in *.
    rewrite H. apply cache_delete_add. exact Hc.
Qed.


Lemma only_adds_refl (st : state) : only_adds st st.
Proof.
  unfold only_adds. repeat split; try tauto; try lia.
  exists []. rewrite app_nil_r. reflexivity.
Qed.

Lemma only_adds_trans (a b c : state) :
  only_adds a b -> only_adds b c -> only_adds a c.
Proof.
  intros (H1 & [m1 H2] & H3 & H4) (G1 & [m2 G2] & G3 & G4).
  unfold only_adds. repeat split.
  - intros k m H. apply G1, H1, H.
  - exists (m1 ++ m2). rewrite G2, H2, app_assoc. reflexivity.
  - congruence.
  - lia.
Qed.

Lemma only_adds_transformer (fuel : nat) (data : val) (s t : StrapiFormat)
  (options : TransformationOptions.t) :
  preserves only_adds (transform fuel data s t options).
Proof.
  apply (transformer_preserves only_adds).
  - apply only_adds_refl.
  - apply only_adds_trans.
  - intros o st. unfold alloc, only_adds.
    cbn [idmap console env clock with_objects]. repeat split; try tauto; try lia.
    exists []. rewrite app_nil_r. reflexivity.
  - intros msg st. unfold console_warn, only_adds.
    cbn [idmap console env clock]. repeat split; try tauto; try lia.
    exists [msg]. reflexivity.
  - intros v T st. unfold IdMapper_mapV4ToV5, mapV4ToV5, hasMapping, omap_has.
    destruct (omap_get (mapping_key T v) (mappings (idmap st))) eqn:E.
    + unfold only_adds. cbn [idmap console env clock].
      repeat split; try tauto; try lia.
      exists []. rewrite app_nil_r. reflexivity.
    + unfold only_adds. cbn [idmap console env clock mappings].
      repeat split; try lia.
      * intros k m H. rewrite omap_get_set_neq; [exact H|]. congruence.
      * exists []. rewrite app_nil_r. reflexivity.
  - intros l st st' _ H. exact H.
Qed.




(** ** What the transformer throws *)

Section Throws.
Variables s t : StrapiFormat.

Lemma throws_within_ret {A : Type} (a : A) : throws_within s t (ret a).
Proof. intro st. exact I. Qed.

Lemma throws_within_out_of_fuel {A : Type} : throws_within s t (@out_of_fuel A).
Proof. intro st. exact I. Qed.

Lemma throws_within_get_heap : throws_within s t get_heap.
Proof. intro st. exact I. Qed.

Lemma throws_within_alloc (o : obj) : throws_within s t (alloc o).
Proof. intro st. exact I. Qed.

Lemma throws_within_console_warn (msg : string) :
  throws_within s t (console_warn msg).
Proof. intro st. exact I. Qed.

Lemma throws_within_mapV4ToV5 (v : val) (T : string) :
  throws_within s t (IdMapper_mapV4ToV5 v T).
Proof.
  intro st. unfold IdMapper_mapV4ToV5.
  destruct (mapV4ToV5 _ v T (idmap st)). exact I.
Qed.

Lemma throws_within_bind {A B : Type} (m : M A) (f : A -> M B) :
  throws_within s t m -> (forall a, throws_within s t (f a)) ->
  throws_within s t (bind m f).
Proof.
  intros Hm Hf st. unfold bind. specialize (Hm st).
  destruct (m st) as [a st'| |]; try assumption.
  apply Hf.
Qed.

Lemma throws_within_mapM {A B : Type} (f : A -> M B) (l : list A) :
  (forall x, throws_within s t (f x)) -> throws_within s t (mapM f l).
Proof.
  intro Hf. induction l as [|x l IH]; simpl.
  - apply throws_within_ret.
  - apply throws_within_bind; [apply Hf|]. intro y.
    apply throws_within_bind; [exact IH|]. intro ys. apply throws_within_ret.
Qed.

Lemma throws_within_rewrite_objects (g : val -> M val)
  (ps : list (string * val)) :
  (forall v, throws_within s t (g v)) -> throws_within s t (rewrite_objects g ps).
Proof.
  intro Hg. induction ps as [|[k v] ps IH]; simpl.
  - apply throws_within_ret.
  - apply throws_within_bind.
    + destruct (truthy v && is_object v); [apply Hg | apply throws_within_ret].
    + intro v'. apply throws_within_bind; [exact IH|]. intro r.
      apply throws_within_ret.
Qed.

Lemma throws_within_array_map (f : val -> M val) (a : val) :
  (forall x, throws_within s t (f x)) -> throws_within s t (array_map f a).
Proof.
  intro Hf. unfold array_map.
  apply throws_within_bind; [apply throws_within_get_heap|]. intro h.
  apply throws_within_bind; [apply throws_within_mapM, Hf|]. intro items.
  apply throws_within_alloc.
Qed.

Lemma throws_within_finally {A : Type} (m : M A) (cleanup : state -> state) :
  throws_within s t m -> throws_within s t (finally m cleanup).
Proof.
  intros Hm st. unfold finally. specialize (Hm st).
  destruct (m st); assumption.
Qed.
End Throws.

Lemma throws_within_mapV5ToV4 (v : val) (T : string) :
  throws_within V5 V4 (IdMapper_mapV5ToV4 v T).
Proof. intro st. unfold IdMapper_mapV5ToV4. destruct v; simpl; auto. Qed.

Ltac thrown :=
  repeat first
    [ apply throws_within_ret
    | apply throws_within_out_of_fuel
    | apply throws_within_get_heap
    | apply throws_within_alloc
    | apply throws_within_console_warn
    | apply throws_within_mapV4ToV5
    | apply throws_within_mapV5ToV4
    | apply throws_within_bind
    | apply throws_within_array_map
    | apply throws_within_rewrite_objects
    | apply throws_within_mapM
    | match goal with
      | |- forall _, _ => intro
      | |- throws_within _ _ (if ?c then _ else _) => destruct c
      | |- throws_within _ _ (match ?x with V4 => _ | V5 => _ end) => destruct x
      end
    | solve [auto] ].

Lemma throws_within_transformMedia (media : val) (s t : StrapiFormat) :
  throws_within s t (transformMedia media s t).
Proof.
  unfold transformMedia, transformV4MediaToV5, transformV5MediaToV4. thrown.
Qed.

Lemma transformer_throws_within (fuel : nat) :
  (forall data s t options, throws_within s t (transform fuel data s t options))
  /\ (forall data options, throws_within V4 V5 (transformV4ToV5 fuel data options))
  /\ (forall item options,
        throws_within V4 V5 (transformV4ItemToV5 fuel item options))
  /\ (forall data options, throws_within V5 V4 (transformV5ToV4 fuel data options))
  /\ (forall item options,
        throws_within V5 V4 (transformV5ItemToV4 fuel item options))
  /\ (forall data s t options,
        throws_within s t (transformNestedData fuel data s t options))
  /\ (forall data s t options,
        throws_within s t (transformRelationData fuel data s t options)).
Proof.
  induction fuel as [|fuel (IHt & IH45 & IH45i & IH54 & IH54i & IHn & IHr)].
  - repeat split; intros; simpl; apply throws_within_out_of_fuel.
  - pose proof throws_within_transformMedia as Hmedia.
    split; [|repeat split; intros; simpl; thrown].
    intros data s t options. simpl.
    destruct (format_eqb s t); [thrown|].
    destruct (Z.ltb MAX_DEPTH _); [thrown|].
    assert (Hbody : throws_within s t
              match s, t with
              | V4, V5 => transformV4ToV5 fuel data (transform_defaults options)
              | V5, V4 => transformV5ToV4 fuel data (transform_defaults options)
              | _, _ => ret data
              end) by (destruct s, t; thrown).
    intro st.
    destruct data as [| | | | |l];
      try (specialize (Hbody st); destruct s, t; exact Hbody).
    destruct (cache_has (CIRCULAR_REF_CACHE st) l).
    + unfold bind, console_warn, alloc. exact I.
    + apply throws_within_finally. exact Hbody.
Qed.

(** X19. On a heap where no object has an object for its [id], the
    only error that [transform] raises is the [TypeError] of
    [IdMapper.mapV5ToV4] on a [documentId] that is not a string, and it
    raises it only on the way from the modern to the legacy format: the
    conversion from the legacy to the modern format does not throw. The
    same holds of [transformRelation]. *)
Theorem transform_throws_within (fuel : nat) (data : val) (s t : StrapiFormat)
  (options : TransformationOptions.t) (contentType : option string)
  (st : state) (Hids : primitive_ids (objects st)) :
  match transform fuel data s t options st with
  | Throw e _ =>
      s = V5 /\ t = V4 /\ e = "TypeError: documentId.match is not a function"
  | _ => True
  end
  /\ match transformRelation fuel data s t contentType st with
     | Throw e _ =>
         s = V5 /\ t = V4 /\ e = "TypeError: documentId.match is not a function"
     | _ => True
     end.
Proof.
  split; [apply transformer_throws_within|].
  unfold transformRelation.
  destruct (negb (truthy data) || format_eqb s t);
    [exact I | apply transformer_throws_within].
Qed.

Lemma transform_throws_within_witness :
  match transform 10 (VRef 1) V5 V4 TransformationOptions.empty
          (fresh_state numeric_documentId_heap) with
  | Throw e _ =>
      V5 = V5 /\ V4 = V4 /\ e = "TypeError: documentId.match is not a function"
  | _ => True
  end.
Proof.
  apply (transform_throws_within 10 (VRef 1) V5 V4 TransformationOptions.empty
           None (fresh_state numeric_documentId_heap)).
  intros l ps v Hl Hid. cbn [objects fresh_state numeric_documentId_heap] in Hl.
  destruct l as [|[|[|l]]]; simpl in Hl; try discriminate Hl.
  injection Hl as <-. simpl in Hid. discriminate Hid.
Defined.

(** ** What the transformer hands back *)

Lemma with_cache_same (st : state) : with_cache (CIRCULAR_REF_CACHE st) st = st.
Proof. destruct st. reflexivity. Qed.

Lemma with_cache_restored (st : state) (l : loc) :
  cache_has (CIRCULAR_REF_CACHE st) l = false ->
  with_cache
    (cache_delete
       (CIRCULAR_REF_CACHE (with_cache (cache_add (CIRCULAR_REF_CACHE st) l) st)) l)
    (with_cache (cache_add (CIRCULAR_REF_CACHE st) l) st)
  = st.
Proof.
  intro H. cbn [CIRCULAR_REF_CACHE with_cache].
  rewrite (cache_delete_add _ _ H). destruct st. reflexivity.
Qed.

(** X20. [RelationTransformer.transformRelation] converts nothing
    behind a legacy relation wrapper: given, for the conversion from the
    legacy to the modern format, an object that has no truthy [id] of
    its own, such as [{ data: item }], it returns that very object and
    leaves the state as it was: no object is made, no identifier
    recorded, nothing logged. *)
Theorem transformRelation_returns_wrapper (fuel : nat) (st : state) (l : loc)
  (ps : list (string * val)) (contentType : option string)
  (Hl : nth_error (objects st) l = Some (Obj ps))
  (Hid : truthy (prop (objects st) (VRef l) "id") = false)
  (Hcache : cache_has (CIRCULAR_REF_CACHE st) l = false) :
  transformRelation (S (S (S fuel))) (VRef l) V4 V5 contentType st
  = Ret (VRef l) st.
Proof.
  unfold transformRelation. cbn [truthy negb orb format_eqb].
  cbn [transform format_eqb]. cbn [transform_defaults TOpts.depth
    TransformationOptions.depth nullish]. cbn [Z.ltb MAX_DEPTH Z.compare].
  rewrite Hcache. unfold finally.
  cbn [transformV4ToV5 truthy negb]. unfold bind at 1. cbn [get_heap].
  cbn [objects with_cache].
  assert (Harr : is_array (objects st) (VRef l) = false).
  { unfold is_array, obj_at. rewrite Hl. reflexivity. }
  rewrite Harr.
  cbn [transformV4ItemToV5 truthy is_object negb orb].
  unfold bind at 1. cbn [get_heap objects with_cache].
  rewrite Hid. cbn [andb]. unfold ret.
  rewrite (with_cache_restored st l Hcache). reflexivity.
Qed.

Lemma transformRelation_returns_wrapper_witness :
  transformRelation 3 (VRef 0) V4 V5 None (fresh_state wrapped_relation_heap)
  = Ret (VRef 0) (fresh_state wrapped_relation_heap).
Proof.
  apply (transformRelation_returns_wrapper 0 (fresh_state wrapped_relation_heap) 0
           [("data", VRef 1)] None); reflexivity.
Defined.

Lemma mapM_length {A B : Type} (f : A -> M B) (l : list A) (st st' : state)
  (ys : list B) :
  mapM f l st = Ret ys st' -> List.length ys = List.length l.
Proof.
  revert st ys. induction l as [|x l IH]; intros st ys; simpl.
  - unfold ret. intro H. inversion H. reflexivity.
  - unfold bind at 1. destruct (f x st) as [y st1| |]; try discriminate.
    unfold bind at 1. destruct (mapM f l st1) as [ys' st2| |] eqn:E;
      try discriminate.
    unfold ret. intro H. inversion H. subst. simpl. rewrite (IH _ _ E).
    reflexivity.
Qed.

Lemma array_map_result (f : val -> M val) (a : val) (st st' : state) (v : val) :
  (forall x, grows (f x)) ->
  array_map f a st = Ret v st' ->
  exists l results,
    v = VRef l /\ List.length (objects st) <= l
    /\ nth_error (objects st') l = Some (Arr results)
    /\ List.length results = List.length (elements (objects st) a)
    /\ CIRCULAR_REF_CACHE st' = CIRCULAR_REF_CACHE
         match mapM f (elements (objects st) a) st with
         | Ret _ st1 => st1
         | _ => st
         end.
Proof.
  intros Hf. rewrite array_map_run.
  pose proof (grows_mapM f (elements (objects st) a) Hf st) as Hg.
  destruct (mapM f (elements (objects st) a) st) as [items st1| |] eqn:E;
    try discriminate.
  intro H. inversion H. subst. clear H.
  exists (List.length (objects st1)), items.
  split; [reflexivity|]. split; [apply extends_length, Hg|].
  split; [cbn [objects with_objects]; apply nth_error_snoc|].
  split; [apply (mapM_length _ _ _ _ _ E) | reflexivity].
Qed.

(** X21. Given an array that is not itself under transformation,
    [transform] returns, when it returns, a new array with as many
    elements as the array it was given. *)
Theorem transform_array_length (fuel : nat) (st st' : state) (a : loc)
  (items : list val) (s t : StrapiFormat) (options : TransformationOptions.t)
  (v : val)
  (Hst : format_eqb s t = false)
  (Hdepth : (TOpts.depth (transform_defaults options) <= MAX_DEPTH)%Z)
  (Ha : nth_error (objects st) a = Some (Arr items))
  (Hcache : cache_has (CIRCULAR_REF_CACHE st) a = false)
  (Hrun : transform fuel (VRef a) s t options st = Ret v st') :
  exists l results,
    v = VRef l /\ List.length (objects st) <= l
    /\ nth_error (objects st') l = Some (Arr results)
    /\ List.length results = List.length items.
Proof.
  destruct fuel as [|[|fuel]]; try discriminate Hrun.
  { revert Hrun. cbn [transform]. rewrite Hst.
    apply Z.ltb_ge in Hdepth. rewrite Hdepth, Hcache. unfold finally.
    destruct s, t; try discriminate Hst; discriminate. }
  revert Hrun. cbn [transform]. rewrite Hst.
  apply Z.ltb_ge in Hdepth. rewrite Hdepth, Hcache. unfold finally.
  set (st0 := with_cache (cache_add (CIRCULAR_REF_CACHE st) a) st).
  assert (Harr : is_array (objects st0) (VRef a) = true).
  { unfold is_array, obj_at. cbn [objects st0 with_cache]. rewrite Ha. reflexivity. }
  assert (Hel : elements (objects st0) (VRef a) = items).
  { unfold elements, obj_at. cbn [objects st0 with_cache]. rewrite Ha. reflexivity. }
  destruct s, t; try discriminate Hst;
    cbn [transformV4ToV5 transformV5ToV4 truthy negb];
    unfold bind at 1; cbn [get_heap]; rewrite Harr;
    match goal with
    | |- context [array_map ?f (VRef a) st0] =>
        destruct (array_map f (VRef a) st0) as [v1 st1| |] eqn:E;
          try discriminate;
          apply array_map_result in E;
          [|intro x; apply transformer_grows]
    end;
    intro H; injection H as Hv1 Hs1;
    destruct E as (l & results & Hv & Hlen & Hn & Hr & _);
    exists l, results; rewrite Hel in Hr; rewrite <- Hv1, <- Hs1;
    (split; [exact Hv|]); (split; [exact Hlen|]); (split; [exact Hn | exact Hr]).
Qed.

Lemma transform_array_length_witness :
  exists l results,
    VRef 4 = VRef l /\ 3 <= l
    /\ nth_error
         (objects
            match transform 10 (VRef 0) V4 V5 TransformationOptions.empty
                    (fresh_state small_batch_heap) with
            | Ret _ st' => st'
            | _ => fresh_state small_batch_heap
            end) l = Some (Arr results)
    /\ List.length results = 2.
Proof.
  assert (H : returns (transform 10 (VRef 0) V4 V5 TransformationOptions.empty
                         (fresh_state small_batch_heap)))
    by (vm_compute; exact I).
  destruct (transform 10 (VRef 0) V4 V5 TransformationOptions.empty
              (fresh_state small_batch_heap)) as [v st'| |] eqn:E;
    try contradiction.
  assert (Hv : v = VRef 4).
  { assert (Hv' : match transform 10 (VRef 0) V4 V5 TransformationOptions.empty
                          (fresh_state small_batch_heap) with
                  | Ret v _ => v = VRef 4
                  | _ => True
                  end) by (vm_compute; reflexivity).
    rewrite E in Hv'. exact Hv'. }
  subst v.
  apply (transform_array_length 10 (fresh_state small_batch_heap) st' 0
           [VRef 1; VStr "text"] V4 V5 TransformationOptions.empty (VRef 4)).
  - reflexivity.
  - vm_compute. discriminate.
  - reflexivity.
  - reflexivity.
  - exact E.
Defined.

Lemma grows_transformRelation (fuel : nat) (relation : val) (s t : StrapiFormat)
  (contentType : option string) :
  grows (transformRelation fuel relation s t contentType).
Proof.
  unfold transformRelation.
  destruct (negb (truthy relation) || format_eqb s t);
    [apply grows_ret | apply transform_grows].
Qed.

Lemma mapM_keys {A : Type} (g : string * A -> M val) (l : list (string * A))
  (st st' : state) (r : list (string * val)) :
  mapM (fun kv => value <- g kv ;; ret (fst kv, value)) l st = Ret r st' ->
  map fst r = map fst l.
Proof.
  revert st r. induction l as [|kv l IH]; intros st r; simpl.
  - unfold ret. intro H. inversion H. reflexivity.
  - unfold bind at 1. unfold bind at 1.
    destruct (g kv st) as [y st1| |]; try discriminate.
    unfold ret at 1. unfold bind at 1.
    destruct (mapM _ l st1) as [ys st2| |] eqn:E; try discriminate.
    unfold ret. intro H. inversion H. subst. simpl. rewrite (IH _ _ E).
    reflexivity.
Qed.

Lemma assigned_keys (entries : list (string * val)) :
  map fst (assigned entries)
  = filter (fun k => negb (String.eqb k "__proto__")) (map fst entries).
Proof.
  unfold assigned. induction entries as [|[k v] entries IH]; simpl; [reflexivity|].
  destruct (String.eqb k "__proto__"); simpl; rewrite IH; reflexivity.
Qed.

(** X22. [transformRelations] returns, when it returns, a new object
    whose own keys are the keys of the object it was given, in the same
    order, but for a key [__proto__], which the assignment does not
    make; on [null] and [undefined] it throws. *)
Theorem transformRelations_keys (fuel : nat) (relations : val)
  (s t : StrapiFormat) (st st' : state) (v : val)
  (Hrun : transformRelations fuel relations s t st = Ret v st') :
  exists l transformed,
    v = VRef l /\ List.length (objects st) <= l
    /\ nth_error (objects st') l = Some (Obj transformed)
    /\ map fst transformed
       = filter (fun k => negb (String.eqb k "__proto__"))
           (map fst (own_props (objects st) relations))
    /\ relations <> VNull /\ relations <> VUndef.
Proof.
  assert (Hbody : forall st0 st1 v0,
            (h <- get_heap ;;
             transformed <-
               mapM (fun kv =>
                       value <- transformRelation fuel (snd kv) s t (Some (fst kv)) ;;
                       ret (fst kv, value))
                 (own_props h relations) ;;
             alloc (Obj (assigned transformed))) st0 = Ret v0 st1 ->
            exists l transformed,
              v0 = VRef l /\ List.length (objects st0) <= l
              /\ nth_error (objects st1) l = Some (Obj transformed)
              /\ map fst transformed
                 = filter (fun k => negb (String.eqb k "__proto__"))
                     (map fst (own_props (objects st0) relations))).
  { intros st0 st1 v0. unfold bind at 1. cbn [get_heap]. unfold bind at 1.
    assert (Hg : grows
              (mapM (fun kv =>
                       value <- transformRelation fuel (snd kv) s t (Some (fst kv)) ;;
                       ret (fst kv, value))
                 (own_props (objects st0) relations))).
    { apply grows_mapM. intro kv. apply grows_bind;
        [apply grows_transformRelation | intro; apply grows_ret]. }
    specialize (Hg st0).
    destruct (mapM _ (own_props (objects st0) relations) st0)
      as [transformed sa| |] eqn:E; try discriminate.
    unfold alloc. intro H. injection H as Hv Hs.
    exists (List.length (objects sa)), (assigned transformed).
    rewrite <- Hv, <- Hs. split; [reflexivity|].
    split; [apply extends_length, Hg|].
    split; [cbn [objects with_objects]; apply nth_error_snoc|].
    rewrite assigned_keys. f_equal.
    apply (mapM_keys
             (fun kv => transformRelation fuel (snd kv) s t (Some (fst kv)))
             _ _ _ _ E). }
  revert Hrun. unfold transformRelations.
  destruct relations as [| |bb|nn|ss|ll]; try discriminate; intro Hrun;
    destruct (Hbody _ _ _ Hrun) as (l & tr & H1 & H2 & H3 & H4);
    exists l, tr; repeat split; try assumption; discriminate.
Qed.

Lemma transformRelations_keys_witness :
  exists l transformed,
    VRef 4 = VRef l /\ 3 <= l
    /\ nth_error
         (objects
            match transformRelations 10 (VRef 0) V4 V5
                    (fresh_state relations_heap) with
            | Ret _ st' => st'
            | _ => fresh_state relations_heap
            end) l = Some (Obj transformed)
    /\ map fst transformed = ["author"; "note"]
    /\ VRef 0 <> VNull /\ VRef 0 <> VUndef.
Proof.
  assert (H : returns (transformRelations 10 (VRef 0) V4 V5
                         (fresh_state relations_heap)))
    by (vm_compute; exact I).
  destruct (transformRelations 10 (VRef 0) V4 V5 (fresh_state relations_heap))
    as [v st'| |] eqn:E; try contradiction.
  assert (Hv : v = VRef 4).
  { assert (Hv' : match transformRelations 10 (VRef 0) V4 V5
                          (fresh_state relations_heap) with
                  | Ret v _ => v = VRef 4
                  | _ => True
                  end) by (vm_compute; reflexivity).
    rewrite E in Hv'. exact Hv'. }
  subst v.
  apply (transformRelations_keys 10 (VRef 0) V4 V5 (fresh_state relations_heap)
           st' (VRef 4) E).
Defined.

(** ** Media there and back *)

Lemma mapV4ToV5_not_empty (t : Tick) (v : val) (T : string) (r : Registry) :
  (forall m, getMapping v T r = Some m -> IdMapping.v5DocumentId m <> "") ->
  fst (mapV4ToV5 t v T r) <> "".
Proof.
  intro H. unfold mapV4ToV5, getMapping in *.
  destruct (omap_get (mapping_key T v) (mappings r)) as [m|].
  - exact (H m eq_refl).
  - apply generateDocumentId_not_empty.
Qed.



(** ** Numbers printed and read back *)

Lemma string_app_nil_r (s : string) : (s ++ "")%string = s.
Proof. induction s as [|c s IH]; simpl; [reflexivity | rewrite IH; reflexivity]. Qed.

Lemma read_digits_done (acc : option Z) (rest : string) :
  ends_number rest -> read_digits acc rest = acc.
Proof. destruct rest as [|c r]; simpl; [reflexivity|]. intros ->. reflexivity. Qed.

Lemma read_digits_acc (d : Decimal.uint) (acc : positive) (rest : string) :
  ends_number rest ->
  read_digits (Some (Zpos acc)) (NilEmpty.string_of_uint d ++ rest)
  = Some (Zpos (Pos.of_uint_acc d acc)).
Proof.
  intro Hrest. revert acc.
  induction d as [|d IH|d IH|d IH|d IH|d IH|d IH|d IH|d IH|d IH|d IH];
    intro acc;
    [ apply read_digits_done; exact Hrest
    | cbn [NilEmpty.string_of_uint String.append read_digits Pos.of_uint_acc];
      match goal with
      | |- context [is_digit ?c] =>
          replace (is_digit c) with true by reflexivity
      end;
      rewrite <- IH; f_equal; f_equal; unfold digit_val;
      try (match goal with
           | |- context [(Z.of_nat (nat_of_ascii ?c) - 48)%Z] =>
               let v := eval vm_compute in (Z.of_nat (nat_of_ascii c) - 48)%Z in
               change (Z.of_nat (nat_of_ascii c) - 48)%Z with v
           end; lia) .. ].
Qed.

Lemma read_digits_zero (d : Decimal.uint) (rest : string) :
  ends_number rest ->
  read_digits (Some 0%Z) (NilEmpty.string_of_uint d ++ rest)
  = Some (Z.of_N (Pos.of_uint d)).
Proof.
  intro Hrest.
  induction d as [|d IH|d IH|d IH|d IH|d IH|d IH|d IH|d IH|d IH|d IH];
    [ apply read_digits_done; exact Hrest
    | exact IH
    | cbn [NilEmpty.string_of_uint String.append read_digits Pos.of_uint];
      match goal with
      | |- context [is_digit ?c] =>
          replace (is_digit c) with true by reflexivity
      end;
      cbn [Z.of_N]; rewrite <- (read_digits_acc d _ rest Hrest);
      f_equal .. ].
Qed.

Lemma read_digits_start (d : Decimal.uint) (rest : string) :
  ends_number rest -> d <> Decimal.Nil ->
  read_digits None (NilEmpty.string_of_uint d ++ rest)
  = Some (Z.of_N (Pos.of_uint d)).
Proof.
  intros Hrest Hd. rewrite <- (read_digits_zero d rest Hrest).
  destruct d; [contradiction|reflexivity ..].
Qed.

Lemma string_of_Z_pos (p : positive) :
  string_of_Z (Zpos p) = NilEmpty.string_of_uint (Pos.to_uint p).
Proof.
  unfold string_of_Z. cbn [Z.to_int NilZero.string_of_int].
  unfold NilZero.string_of_uint.
  pose proof (DecimalPos.Unsigned.to_uint_nonnil p) as H.
  destruct (Pos.to_uint p); [contradiction|reflexivity ..].
Qed.

Lemma read_digits_pos (p : positive) (rest : string) :
  ends_number rest ->
  read_digits None (string_of_Z (Zpos p) ++ rest) = Some (Zpos p).
Proof.
  intro Hrest. rewrite string_of_Z_pos.
  rewrite read_digits_start;
    [|exact Hrest | apply DecimalPos.Unsigned.to_uint_nonnil].
  rewrite DecimalPos.Unsigned.of_to. reflexivity.
Qed.

(** The first run of digits in a printed integer, followed by anything
    that is not a digit, is its absolute value. *)
Lemma first_number_printed (z : Z) (rest : string) :
  ends_number rest ->
  first_number (string_of_Z z ++ rest) = Some (Z.abs z).
Proof.
  intro Hrest. destruct z as [|p|p].
  - cbn. rewrite read_digits_done by exact Hrest. reflexivity.
  - pose proof (read_digits_pos p rest Hrest) as H.
    rewrite string_of_Z_pos in *.
    pose proof (DecimalPos.Unsigned.to_uint_nonnil p) as Hn.
    destruct (Pos.to_uint p); [contradiction|exact H ..].
  - unfold string_of_Z. cbn [Z.to_int NilZero.string_of_int].
    cbn [String.append first_number].
    replace (is_digit "-") with false by reflexivity.
    pose proof (read_digits_pos p rest Hrest) as H.
    rewrite string_of_Z_pos in H.
    unfold NilZero.string_of_uint.
    pose proof (DecimalPos.Unsigned.to_uint_nonnil p) as Hn.
    destruct (Pos.to_uint p); [contradiction|exact H ..].
Qed.

Lemma parseInt_printed (z : Z) : parseInt (string_of_Z z) = Int z.
Proof.
  destruct z as [|p|p].
  - reflexivity.
  - pose proof (read_digits_pos p "" I) as H. rewrite string_app_nil_r in H.
    unfold parseInt.
    assert (Hs : forall s, read_digits None s = Some (Zpos p) ->
                   match skip_spaces s with
                   | String "-" r =>
                       match read_digits None r with
                       | Some v => Int (- v) | None => NaN end
                   | String "+" r =>
                       match read_digits None r with
                       | Some v => Int v | None => NaN end
                   | r => match read_digits None r with
                          | Some v => Int v | None => NaN end
                   end = Int (Zpos p)).
    { intros [|c r] Hr; [discriminate Hr|].
      cbn [read_digits] in Hr. destruct (is_digit c) eqn:Hc; [|discriminate Hr].
      assert (Hsp : is_space c = false).
      { unfold is_digit, is_space in *.
        apply andb_true_iff in Hc as [H1 H2].
        apply Nat.leb_le in H1, H2.
        apply orb_false_iff. split.
        - apply Nat.eqb_neq. lia.
        - apply andb_false_iff. right. apply Nat.leb_gt. lia. }
      cbn [skip_spaces]. rewrite Hsp.
      assert (Hm : c <> "-"%char /\ c <> "+"%char).
      { split; intro; subst c; discriminate Hc. }
      destruct Hm as [Hm Hp].
      assert (E : read_digits None (String c r) = Some (Zpos p)).
      { cbn [read_digits]. rewrite Hc. exact Hr. }
      destruct c as [[] [] [] [] [] [] [] []]; try rewrite E; try reflexivity;
        first [exfalso; apply Hm; reflexivity | exfalso; apply Hp; reflexivity]. }
    apply Hs. exact H.
  - unfold string_of_Z. cbn [Z.to_int NilZero.string_of_int].
    unfold parseInt. cbn [skip_spaces].
    replace (is_space "-") with false by reflexivity.
    pose proof (read_digits_pos p "" I) as H. rewrite string_app_nil_r in H.
    rewrite string_of_Z_pos in H.
    unfold NilZero.string_of_uint.
    pose proof (DecimalPos.Unsigned.to_uint_nonnil p) as Hn.
    destruct (Pos.to_uint p); [contradiction|rewrite H; reflexivity ..].
Qed.

Lemma read_digits_from_some (a : Z) (s : string) :
  read_digits (Some a) s <> None.
Proof.
  revert a. induction s as [|c s IH]; intro a; simpl; [discriminate|].
  destruct (is_digit c); [apply IH | discriminate].
Qed.

Lemma first_number_skip (s rest : string) :
  first_number s = None -> first_number (s ++ rest) = first_number rest.
Proof.
  induction s as [|c s IH]; [reflexivity|].
  cbn [first_number String.append]. destruct (is_digit c) eqn:Hc.
  - intro H. exfalso. cbn [read_digits] in H. rewrite Hc in H.
    exact (read_digits_from_some _ _ H).
  - exact IH.
Qed.

(** X24. When the registry holds no record of it, [mapV5ToV4] reads a
    legacy identifier off an identifier that [mapV4ToV5] synthesised:
    for a numeric legacy identifier [n], one that a number holds
    exactly, and a resource type whose cleaned name has no digit, it
    answers the absolute value of [n]; a negative identifier comes back
    without its sign. *)
Theorem mapV5ToV4_of_synthesized (t : Tick) (n : Z) (T T' : string) (r : Registry)
  (Hsafe : safe_integer (Int n))
  (Hname : first_number (strip_suffix (remove_first "api::" T)) = None)
  (Hreverse :
     omap_get (generateDocumentId t (VNum (Int n)) T) (reverseMappings r) = None)
  (Hforward :
     find_forward (generateDocumentId t (VNum (Int n)) T) T' (mappings r) = None) :
  mapV5ToV4 (generateDocumentId t (VNum (Int n)) T) T' r = VNum (Int (Z.abs n)).
Proof.
  unfold mapV5ToV4. rewrite Hreverse, Hforward.
  unfold generateDocumentId. cbn [to_string string_of_num].
  rewrite (first_number_skip _ _ Hname).
  cbn [String.append first_number]. replace (is_digit "_") with false by reflexivity.
  rewrite first_number_printed; [reflexivity|]. reflexivity.
Qed.

Lemma mapV5ToV4_of_synthesized_witness :
  mapV5ToV4 (generateDocumentId tick0 (VNum (Int (-7))) "api::article.article")
    "article" registry_empty = VNum (Int 7).
Proof.
  apply (mapV5ToV4_of_synthesized tick0 (-7) "api::article.article" "article"
           registry_empty).
  - unfold safe_integer, MAX_SAFE_INTEGER. lia.
  - reflexivity.
  - reflexivity.
  - reflexivity.
Defined.

Lemma normalizePagination_field (lo : Z) (z : Z) (d : string) :
  (lo <= z)%Z -> (z = 0%Z -> parseInt d = Int 0) ->
  Math_max (Int lo) (parseInt_of (jor (JNum (Int z)) (JStr d))) = Int z.
Proof.
  intros Hlo Hz. unfold jor. cbn [jtruthy].
  destruct (Z.eqb_spec z 0) as [E|E]; cbn [negb].
  - unfold parseInt_of. cbn [jto_string]. rewrite (Hz E). cbn [Math_max].
    f_equal. lia.
  - unfold parseInt_of. cbn [jto_string string_of_num].
    rewrite parseInt_printed. cbn [Math_max]. f_equal. lia.
Qed.

(** X25. [normalizePagination] leaves a block that it has normalised
    as it is, when the four fields of that block are integers that a
    number holds exactly (at most 2^53 - 1) and none is [NaN]. *)
Theorem normalizePagination_idempotent (pagination : jv)
  (Ht : jtruthy pagination = true)
  (Hsafe : safe_pagination (normalizePagination pagination)) :
  normalizePagination (normalizePagination pagination)
  = normalizePagination pagination.
Proof.
  destruct (normalizePagination_clamps pagination Ht)
    as (page & pageSize & pageCount & total & E & Hp & Hs & Hc & Htot).
  rewrite E in *. clear E.
  assert (Hint : forall field n,
            In field requiredFields ->
            jget (JObj [("page", JNum page); ("pageSize", JNum pageSize);
                        ("pageCount", JNum pageCount); ("total", JNum total)])
              field = JNum n ->
            exists z, n = Int z).
  { intros field n Hin Hget. destruct (Hsafe field Hin) as (n' & Hn' & Hs').
    rewrite Hget in Hn'. injection Hn' as ->.
    destruct n' as [|z]; [contradiction|]. exists z. reflexivity. }
  destruct (Hint "page" page) as [z1 ->]; [simpl; tauto | reflexivity|].
  destruct (Hint "pageSize" pageSize) as [z2 ->]; [simpl; tauto | reflexivity|].
  destruct (Hint "pageCount" pageCount) as [z3 ->]; [simpl; tauto | reflexivity|].
  destruct (Hint "total" total) as [z4 ->]; [simpl; tauto | reflexivity|].
  clear Hint Hsafe. cbn [clamped] in *.
  unfold normalizePagination at 1. cbn [jtruthy negb].
  cbn [jget omap_get String.eqb Ascii.eqb Bool.eqb].
  rewrite (normalizePagination_field 1 z1 "1"),
    (normalizePagination_field 1 z2 "25"),
    (normalizePagination_field 1 z3 "1"),
    (normalizePagination_field 0 z4 "0"); try lia; try (intros _; reflexivity).
  cbn [Math_min]. repeat f_equal. lia.
Qed.

Lemma normalizePagination_idempotent_witness :
  normalizePagination
    (normalizePagination (JObj [("page", JStr "-5"); ("pageSize", JStr "500")]))
  = normalizePagination (JObj [("page", JStr "-5"); ("pageSize", JStr "500")]).
Proof.
  apply (normalizePagination_idempotent
           (JObj [("page", JStr "-5"); ("pageSize", JStr "500")])).
  - reflexivity.
  - intros field Hin. unfold requiredFields in Hin. simpl in Hin.
    destruct Hin as [<-|[<-|[<-|[<-|[]]]]];
      eexists; (split; [reflexivity|]);
      vm_compute; split; discriminate.
Defined.

(** X26. The number that [extractNumericId] finds in an identifier made
    by the exported [generateDocumentId] is the time stamp, one that a
    number holds exactly, when the prefix has no digit: the identifier
    holds no other number before it. *)
Theorem extractNumericId_generateDocumentId (t : Tick) (prefix : option string)
  (Hsafe : safe_integer (Int (now_ms t)))
  (Hprefix : first_number (nullish prefix "doc") = None) :
  extractNumericId (generateDocumentId_with_prefix t prefix)
  = Some (Z.abs (now_ms t)).
Proof.
  unfold extractNumericId, generateDocumentId_with_prefix.
  rewrite (first_number_skip _ _ Hprefix).
  cbn [String.append first_number]. replace (is_digit "_") with false by reflexivity.
  apply first_number_printed. reflexivity.
Qed.

Lemma extractNumericId_generateDocumentId_witness :
  extractNumericId (generateDocumentId_with_prefix tick0 None)
  = Some (Z.abs (now_ms tick0)).
Proof.
  apply (extractNumericId_generateDocumentId tick0 None).
  - vm_compute. split; discriminate.
  - reflexivity.
Defined.
